(** * PaisaPro: shopping-list, price-comparison and optimized-cart front end

  A shallow embedding of the React components of the repository that
  drive the multi-source search and the cart optimizer:

  - [ShoppingList]        the list-creation form   (pages/ShoppingList.jsx)
  - [PriceComparison]     the price-comparison page (pages/PriceComparison.jsx)
  - [PriceComparisonApp]  the standalone comparison view (components/ui.jsx)
  - [MyShoppingLists]     purchase confirmation     (pages/MyShoppingLists.jsx)
  - [OptimizedCart]       the optimized-cart page   (pages/OptimizedCart.jsx)
  - [PaisaProApp]         the standalone cart optimizer (components/ui4.jsx)
  - [DeleteList]          deleting a list from the two list pages
  - [Dashboard], [PaisaProLists], [ListView]
                          the dashboard form, the lists and the savings
                          tile of the standalone cart optimizer

  The search service and the cart service are not among the sources;
  the ranker of the one is modelled in [Ranker], the snapshot cache of
  the other in [SnapshotGate], both from the specification.

  React state is threaded explicitly: an event handler is a function from
  the component state (and the outcome of the network calls it awaits) to
  the next state together with the list of requests it sent.  JavaScript
  numbers that hold counts and identifiers are integers ([Z]).  A number
  of a JSON body is held as the exact rational ([Q]) its spelling
  denotes; where the savings are added up and where an amount is
  compared with zero, it is the binary64 double nearest to that
  rational, and the arithmetic is that of IEEE 754 ([Double]).  Strings
  are sequences of code units below 256. *)

From Stdlib Require Import Ascii String ZArith Zpower QArith Qpower Lqa Lia.
From Stdlib Require Import DecimalString Sorted SpecFloat.
From stdpp Require Import base option list strings gmap.

Open Scope Z_scope.

(* ===================================================================== *)
(** * Part I: definitions                                                 *)
(* ===================================================================== *)

(** ** Numbers in arithmetic: IEEE 754 binary64 *)
Module Double.

(** JavaScript computes on binary64 doubles; [spec_float] with these
    parameters is the standard library's specification of them, with
    rounding to nearest, ties to even. *)
Definition prec : Z := 53.
Definition emax : Z := 1024.
Definition double : Type := spec_float.

Definition zero : double := S754_zero false.

Definition add : double -> double -> double := SFadd prec emax.   (* x + y *)
Definition sub : double -> double -> double := SFsub prec emax.   (* x - y *)
Definition mul : double -> double -> double := SFmul prec emax.   (* x * y *)
Definition ltb : double -> double -> bool := SFltb.               (* x < y *)
Definition leb : double -> double -> bool := SFleb.               (* x <= y *)
Definition eqb : double -> double -> bool := SFeqb.               (* x === y *)

(** The double of an integer literal of a JSON body. *)
Definition ofZ (n : Z) : double := binary_normalize prec emax n 0 false.

(** The double of a number of a JSON body whose decimal spelling has the
    value [q]: the quotient of numerator and denominator, rounded
    once. *)
Definition ofQ (q : Q) : double :=
  match Qnum q with
  | Z0 => zero
  | Zpos n =>
      let '(m, e, l) :=
        SFdiv_core_binary prec emax (Zpos n) 0 (Zpos (Qden q)) 0 in
      binary_round_aux prec emax false m e l
  | Zneg n =>
      let '(m, e, l) :=
        SFdiv_core_binary prec emax (Zpos n) 0 (Zpos (Qden q)) 0 in
      binary_round_aux prec emax true m e l
  end.

(** Truthiness of a number: [0], [-0] and [NaN] are falsy. *)
Definition truthy (x : double) : bool :=
  match x with
  | S754_zero _ | S754_nan => false
  | _ => true
  end.

(** [x || 0] *)
Definition orZero (x : double) : double := if truthy x then x else zero.

Definition isFinite (x : double) : bool :=
  match x with
  | S754_zero _ | S754_finite _ _ _ => true
  | _ => false
  end.

(** The number a finite double stands for. *)
Definition value (x : double) : Q :=
  match x with
  | S754_finite s m e => inject_Z (cond_Zopp s (Zpos m)) * 2 ^ e
  | _ => 0
  end.

(** [x] and [y] are finite and [x] is at most [y]. *)
Definition le (x y : double) : Prop :=
  isFinite x = true /\ isFinite y = true /\ (value x <= value y)%Q.

(** [0 <= x]: [x] is a zero, a positive number or [Infinity]. *)
Definition nonneg (x : double) : Prop := leb zero x = true.

(** [x < 0] *)
Definition negative (x : double) : Prop := ltb x zero = true.

(** [x] is a finite number above zero. *)
Definition positiveFinite (x : double) : Prop :=
  exists m e, x = S754_finite false m e.

(** [x] is a number (not [NaN]) whose sign bit is [s]. *)
Definition signed (s : bool) (x : double) : Prop :=
  match x with
  | S754_zero s' | S754_finite s' _ _ | S754_infinity s' => s' = s
  | S754_nan => False
  end.

End Double.

(** ** The JavaScript built-ins the handlers rely on *)
Module JS.

(** ECMAScript WhiteSpace and LineTerminator code units below 256:
    TAB, LF, VT, FF, CR, SPACE and NBSP. *)
Definition isWhiteSpace (c : ascii) : bool :=
  let n := nat_of_ascii c in
  ((9 <=? n) && (n <=? 13) || (n =? 32) || (n =? 160))%nat.

Fixpoint dropWhiteSpace (l : list ascii) : list ascii :=
  match l with
  | c :: l' => if isWhiteSpace c then dropWhiteSpace l' else l
  | [] => []
  end.

(** [String.prototype.trim] *)
Definition trim (s : string) : string :=
  string_of_list_ascii
    (rev (dropWhiteSpace (rev (dropWhiteSpace (list_ascii_of_string s))))).

(** Truthiness of a string: only the empty string is falsy. *)
Definition truthyStr (s : string) : bool :=
  match s with EmptyString => false | _ => true end.

(** [s.trim()] used as a condition. *)
Definition nonBlank (s : string) : bool := truthyStr (trim s).

(** A string made of white space only (the empty string included). *)
Definition whitespaceOnly (s : string) : Prop :=
  Forall (fun c => isWhiteSpace c = true) (list_ascii_of_string s).

(** The result of [parseInt]: NaN or an integer. *)
Inductive num : Type :=
| NaN
| Int (n : Z).

Definition digitValue (c : ascii) : option Z :=
  let n := Z.of_nat (nat_of_ascii c) in
  if (48 <=? n) && (n <=? 57) then Some (n - 48)
  else if (97 <=? n) && (n <=? 122) then Some (n - 87)
  else if (65 <=? n) && (n <=? 90) then Some (n - 55)
  else None.

(** Digits of radix [R] read from the front of [l], most significant
    first; [seen] tells whether at least one digit was consumed. *)
Fixpoint readDigits (R : Z) (l : list ascii) (acc : Z) (seen : bool) : num :=
  match l with
  | c :: l' =>
      match digitValue c with
      | Some d =>
          if d <? R then readDigits R l' (acc * R + d) true
          else if seen then Int acc else NaN
      | None => if seen then Int acc else NaN
      end
  | [] => if seen then Int acc else NaN
  end.

Definition negate (r : num) : num :=
  match r with NaN => NaN | Int n => Int (- n) end.

(** After the sign: the hexadecimal prefix selects radix 16, otherwise 10. *)
Definition parseUnsigned (l : list ascii) : num :=
  match l with
  | "0"%char :: "x"%char :: l' => readDigits 16 l' 0 false
  | "0"%char :: "X"%char :: l' => readDigits 16 l' 0 false
  | _ => readDigits 10 l 0 false
  end.

(** [parseInt(s)] with no radix argument. *)
Definition parseIntStr (s : string) : num :=
  match dropWhiteSpace (list_ascii_of_string s) with
  | "-"%char :: l => negate (parseUnsigned l)
  | "+"%char :: l => parseUnsigned l
  | l => parseUnsigned l
  end.

(** The values an event handler receives from an input element or
    passes itself: a string or an (integer) number. *)
Inductive value : Type :=
| VStr (s : string)
| VNum (n : Z).

(** [parseInt(v)]: a number is first converted to its decimal spelling,
    which [parseInt] reads back. *)
Definition parseInt (v : value) : num :=
  match v with
  | VStr s => parseIntStr s
  | VNum n => Int n
  end.

(** Truthiness of a number: NaN and 0 are falsy. *)
Definition truthyNum (r : num) : bool :=
  match r with NaN => false | Int n => negb (n =? 0) end.

(** [r > 0]; every comparison with NaN is false. *)
Definition gtZero (r : num) : bool :=
  match r with NaN => false | Int n => 0 <? n end.

(** [s.startsWith(p)] *)
Definition startsWith (p s : string) : bool := String.prefix p s.

(** The outcome of [await fetch(...)] followed by [await response.json()]:
    the call may throw (network error), otherwise it yields a response
    with its [ok] flag, whose body either parses to [B] or makes
    [json()] throw. *)
Inductive fetched (B : Type) : Type :=
| Threw (message : string)
| Resp (ok : bool) (body : string + B).
Arguments Threw {B} message.
Arguments Resp {B} ok body.

(** [message || fallback] *)
Definition orElse (message fallback : string) : string :=
  if truthyStr message then message else fallback.

(** [String(n)] for a number held in a URL parameter. *)
Definition numToString (r : num) : string :=
  match r with
  | NaN => "NaN"
  | Int n => NilZero.string_of_int (Z.to_int n)
  end.

Definition boolToString (b : bool) : string :=
  if b then "true" else "false".

(** [l.join(',')] *)
Definition join (l : list string) : string := String.concat "," l.

(** A value read out of a parsed JSON body; [Undefined] is what reading
    a missing property gives. *)
#[warnings="-register-all"]
Inductive val : Type :=
| Undefined
| Null
| Bool (b : bool)
| Num (q : Q)
| Str (s : string)
| Arr (elements : list val)
| Obj (members : list (string * val)).

(** Truthiness. *)
Definition truthy (v : val) : bool :=
  match v with
  | Undefined | Null => false
  | Bool b => b
  | Num q => negb (Qeq_bool q 0)
  | Str s => truthyStr s
  | Arr _ | Obj _ => true
  end.

(** The member [k] of a parsed object; of duplicated names the last one
    is kept by [JSON.parse]. *)
Fixpoint member (k : string) (members : list (string * val)) : val :=
  match members with
  | [] => Undefined
  | (k', v) :: rest =>
      match member k rest with
      | Undefined => if String.eqb k k' then v else Undefined
      | later => later
      end
  end.

(** [v.k] for one of the record fields read by the views: reading a
    property of [null] or [undefined] throws ([None]); a value that is
    not an object has none of these fields. *)
Definition get (v : val) (k : string) : option val :=
  match v with
  | Undefined | Null => None
  | Obj members => Some (member k members)
  | _ => Some Undefined
  end.

(** [v !== s] for a string literal [s]. *)
Definition differsFrom (v : val) (s : string) : bool :=
  match v with
  | Str s' => negb (String.eqb s' s)
  | _ => true
  end.

(** Whether React accepts [v] as a child: objects are refused, arrays
    are rendered element by element. *)
Fixpoint validChild (v : val) : bool :=
  match v with
  | Obj _ => false
  | Arr l =>
      (fix all (l : list val) : bool :=
         match l with
         | [] => true
         | x :: l' => validChild x && all l'
         end) l
  | _ => true
  end.

(** *** Conversion to a number *)

(** The result of [ToNumber]. *)
Inductive number : Type :=
| NotANumber
| Finite (q : Q)
| Infinite (negative : bool).

Definition negateNumber (r : number) : number :=
  match r with
  | NotANumber => NotANumber
  | Finite q => Finite (- q)
  | Infinite negative => Infinite (negb negative)
  end.

(** All of [l] read as digits of radix [R]. *)
Fixpoint allDigits (R : Z) (l : list ascii) (acc : Z) : option Z :=
  match l with
  | c :: l' =>
      match digitValue c with
      | Some d => if d <? R then allDigits R l' (acc * R + d) else None
      | None => None
      end
  | [] => Some acc
  end.

(** A literal of radix [R] after its prefix: one digit at least. *)
Definition wholeNumber (R : Z) (l : list ascii) : number :=
  match l with
  | [] => NotANumber
  | _ =>
      match allDigits R l 0 with
      | Some n => Finite (inject_Z n)
      | None => NotANumber
      end
  end.

(** The decimal digits at the front of [l], and what follows them. *)
Fixpoint spanDigits (l : list ascii) : list ascii * list ascii :=
  match l with
  | c :: l' =>
      match digitValue c with
      | Some d =>
          if d <? 10 then let '(ds, rest) := spanDigits l' in (c :: ds, rest)
          else ([], l)
      | None => ([], l)
      end
  | [] => ([], [])
  end.

(** The exponent part that ends a decimal literal; nothing stands for
    the exponent 0. *)
Definition exponentPart (l : list ascii) : option Z :=
  match l with
  | [] => Some 0
  | c :: l' =>
      if Ascii.eqb c "e" || Ascii.eqb c "E" then
        let '(negative, ds) :=
          match l' with
          | "-"%char :: r => (true, r)
          | "+"%char :: r => (false, r)
          | _ => (false, l')
          end in
        match ds with
        | [] => None
        | _ =>
            match allDigits 10 ds 0 with
            | Some n => Some (if negative : bool then - n else n)
            | None => None
            end
        end
      else None
  end.

(** [StrUnsignedDecimalLiteral]: [Infinity], or digits with an optional
    fraction and exponent, one digit at least before the exponent. *)
Definition unsignedDecimal (l : list ascii) : number :=
  if String.eqb (string_of_list_ascii l) "Infinity" then Infinite false
  else
    let '(whole, r1) := spanDigits l in
    let '(fraction, r2) :=
      match r1 with
      | "."%char :: r => spanDigits r
      | _ => ([], r1)
      end in
    match whole ++ fraction with
    | [] => NotANumber
    | ds =>
        match allDigits 10 ds 0, exponentPart r2 with
        | Some n, Some e =>
            Finite (inject_Z n * 10 ^ (e - Z.of_nat (length fraction)))
        | _, _ => NotANumber
        end
    end.

(** [Number(s)] for a string: white space around the literal is dropped,
    the empty string is 0, a sign is allowed on decimal literals only. *)
Definition stringToNumber (s : string) : number :=
  match list_ascii_of_string (trim s) with
  | [] => Finite 0
  | "0"%char :: "x"%char :: r | "0"%char :: "X"%char :: r => wholeNumber 16 r
  | "0"%char :: "o"%char :: r | "0"%char :: "O"%char :: r => wholeNumber 8 r
  | "0"%char :: "b"%char :: r | "0"%char :: "B"%char :: r => wholeNumber 2 r
  | "-"%char :: r => negateNumber (unsignedDecimal r)
  | "+"%char :: r => unsignedDecimal r
  | l => unsignedDecimal l
  end.

(** [ToNumber(v)], as a comparison with a number applies it.  An array
    is first turned into the string of its elements joined by commas:
    the empty array converts like the empty string, an array of one
    element like the string of that element, a longer one to [NaN]. *)
Fixpoint toNumber (v : val) : number :=
  match v with
  | Undefined => NotANumber
  | Null => Finite 0
  | Bool b => Finite (if b then 1 else 0)
  | Num q => Finite q
  | Str s => stringToNumber s
  | Arr [] => Finite 0
  | Arr [x] =>
      match x with
      | Undefined | Null => Finite 0
      | Bool _ | Obj _ => NotANumber
      | _ => toNumber x
      end
  | Arr _ => NotANumber
  | Obj _ => NotANumber
  end.

(** The double that [ToNumber] yields. *)
Definition toDouble (r : number) : Double.double :=
  match r with
  | NotANumber => S754_nan
  | Finite q => Double.ofQ q
  | Infinite negative => S754_infinity negative
  end.

(** [v > 0] *)
Definition greaterThanZero (v : val) : bool :=
  Double.ltb Double.zero (toDouble (toNumber v)).

(** [v === 0]: [v] is a number, and that number is zero. *)
Definition strictlyZero (v : val) : bool :=
  match v with
  | Num q => Double.eqb (Double.ofQ q) Double.zero
  | _ => false
  end.

End JS.

(** ** Records exchanged with the cart service and the requests sent to it *)
Module Api.

(** The quantity of a form item: the empty string or a number. *)
Inductive qty : Type :=
| QEmpty
| QNum (n : Z).

(** [{ product_name, quantity }] *)
Record item : Type := Item {
  product_name : string;
  quantity : qty
}.

(** The logged-in user; [user?.id] is falsy for a missing user and
    for the id 0. *)
Record user : Type := User { id : Z }.

Definition hasId (u : option user) : bool :=
  match u with
  | Some u => negb (id u =? 0)
  | None => false
  end.

(** A row of [GET /user/{id}/lists]. *)
Record listSummary : Type := ListSummary {
  list_id : Z;
  list_name : string;
  item_count : Z;
  purchased_count : Z
}.

(** The payload of [POST /expenses/]. *)
Record expense : Type := Expense {
  description : string;
  amount : JS.val;
  category : string;
  expense_date : string
}.

(** The requests the components issue, by URL template. *)
Inductive request : Type :=
| PostCartCreate (user_id : Z) (name : string) (items : list item)
    (* POST /cart/create *)
| GetUserLists (user_id : Z)
    (* GET /user/{id}/lists *)
| GetCartOptimized (listId : Z)
    (* GET /cart/{listId}/optimized *)
| PostRefreshPrices (listId : Z)
    (* POST /cart/{listId}/refresh-prices *)
| PostCartItems (listId user_id : Z) (items : list item)
    (* POST /cart/{listId}/items *)
| GetAddItem (listId : Z) (name : string) (quantity : Z)
    (* GET /cart/{listId}/add-item?product_name=..&quantity=.. *)
| PostItemPurchased (itemId : Z)
    (* POST /cart/item/{itemId}/purchased *)
| GetExpenseData (listId : Z)
    (* GET /cart/{listId}/expense-data *)
| PostPurchaseAll (listId user_id : Z)
    (* POST /cart/{listId}/purchase-all?user_id=.. *)
| PostExpense (payload : expense)
    (* POST /expenses/ *)
| DeleteCart (listId user_id : Z)
    (* DELETE /cart/{listId}?user_id=.. *)
| GetCompare (base : string) (params : list (string * string))
    (* GET {base}/api/compare?{params} *).

End Api.

(** ** pages/ShoppingList.jsx *)
Module ShoppingList.
Import Api.

Record state : Type := State {
  lists : list listSummary;
  newListName : string;
  newListItems : list item;
  error : string;
  loading : bool
}.

Definition setItems (s : state) (l : list item) : state :=
  State (lists s) (newListName s) l (error s) (loading s).
Definition setError (s : state) (e : string) : state :=
  State (lists s) (newListName s) (newListItems s) e (loading s).
Definition setLoading (s : state) (b : bool) : state :=
  State (lists s) (newListName s) (newListItems s) (error s) b.

Definition initial : state :=
  State [] "" [Item "" QEmpty] "" false.

Definition handleAddItem (s : state) : state :=
  setItems s (newListItems s ++ [Item "" QEmpty]).

(** [newListItems.filter((_, i) => i !== index)] drops position [index]. *)
Definition handleRemoveItem (index : nat) (s : state) : state :=
  if (1 <? length (newListItems s))%nat
  then setItems s (delete index (newListItems s))
  else s.

(** The pair [(field, value)] of a call of [handleItemChange]. *)
Inductive change : Type :=
| SetProductName (value : string)
| SetQuantity (value : JS.value).

(** [value === '' ? '' : (parseInt(value) || '')] *)
Definition quantityOf (value : JS.value) : qty :=
  match value with
  | JS.VStr "" => QEmpty
  | _ =>
      match JS.parseInt value with
      | JS.Int n => if JS.truthyNum (JS.Int n) then QNum n else QEmpty
      | JS.NaN => QEmpty
      end
  end.

Definition applyChange (c : change) (it : item) : item :=
  match c with
  | SetQuantity value => Item (product_name it) (quantityOf value)
  | SetProductName value => Item value (quantity it)
  end.

(** [updatedItems[index][field] = ...] throws when [index] is out of
    range ([None]).  The item object is updated in place and is shared
    with the array of the previous state; the form holds no other
    reference to it, so the new array is all that can be observed. *)
Definition handleItemChange (index : nat) (c : change) (s : state)
  : option state :=
  it ← newListItems s !! index;
  Some (setItems s (<[index := applyChange c it]> (newListItems s))).

(** The [onBlur] handler of the quantity field of row [index]. *)
Definition onBlurQuantity (index : nat) (s : state) : option state :=
  it ← newListItems s !! index;
  match quantity it with
  | QEmpty | QNum 0 => handleItemChange index (SetQuantity (JS.VNum 1)) s
  | _ => Some s
  end.

(** The Cancel button. *)
Definition handleCancel (s : state) : state :=
  State (lists s) "" [Item "" (QNum 1)] "" (loading s).

(** The predicate of [newListItems.filter(...)] in [handleCreateList]. *)
Definition isValidItem (it : item) : bool :=
  let hasValidName := negb (String.eqb (JS.trim (product_name it)) "") in
  let hasValidQuantity :=
    match quantity it with
    | QEmpty => false
    | QNum n => JS.gtZero (JS.parseInt (JS.VNum n))
    end in
  hasValidName && hasValidQuantity.

(** The body of the create response: [data.detail]. *)
Record createBody : Type := CreateBody { detail : string }.

Record outcome : Type := Outcome {
  next : state;
  sent : list request;
  navigated : option string
}.

Definition handleCreateList (u : option user)
    (reply : JS.fetched createBody) (s : state) : outcome :=
  let s := setError s "" in
  if negb (JS.nonBlank (newListName s)) then
    Outcome (setError s "Please enter a list name") [] None
  else
    let validItems := List.filter isValidItem (newListItems s) in
    if (length validItems =? 0)%nat then
      Outcome
        (setError s "Please add at least one item with a valid name and quantity")
        [] None
    else
      match u with
      | Some usr =>
          if hasId u then
            let s := setLoading s true in
            let req := PostCartCreate (id usr) (newListName s) validItems in
            let failed (message : string) :=
              Outcome
                (setLoading
                   (setError s (JS.orElse message "Failed to create shopping list"))
                   false)
                [req] None in
            match reply with
            | JS.Threw message => failed message
            | JS.Resp _ (inl message) => failed message
            | JS.Resp false (inr data) =>
                failed (JS.orElse (detail data) "Failed to create list")
            | JS.Resp true (inr _) =>
                Outcome (setLoading s false) [req] (Some "/my-shopping-lists")
            end
          else Outcome (setError s "User not authenticated") [] None
      | None => Outcome (setError s "User not authenticated") [] None
      end.

(** [loadLists] once the reply [data.lists || []] has arrived. *)
Definition loadLists (ls : list listSummary) (s : state) : state :=
  State ls (newListName s) (newListItems s) (error s) (loading s).

Definition setNewListName (value : string) (s : state) : state :=
  State (lists s) value (newListItems s) (error s) (loading s).

(** The events of the creation form. *)
Inductive event : Type :=
| ListsLoaded (ls : list listSummary)
| NameChange (value : string)
| AddItem
| RemoveItem (index : nat)
| ItemChange (index : nat) (c : change)
| BlurQuantity (index : nat)
| Cancel
| Submit (u : option user) (reply : JS.fetched createBody).

(** One event taken by the form; an event whose handler throws leaves
    no successor. *)
Definition step (ev : event) (s : state) : option state :=
  match ev with
  | ListsLoaded ls => Some (loadLists ls s)
  | NameChange value => Some (setNewListName value s)
  | AddItem => Some (handleAddItem s)
  | RemoveItem index => Some (handleRemoveItem index s)
  | ItemChange index c => handleItemChange index c s
  | BlurQuantity index => onBlurQuantity index s
  | Cancel => Some (handleCancel s)
  | Submit u reply => Some (next (handleCreateList u reply s))
  end.

(** The states the form reaches from its initial state. *)
Inductive reachable : state -> Prop :=
| reach_initial : reachable initial
| reach_step ev s s' :
    reachable s -> step ev s = Some s' -> reachable s'.

(** What the quantity field can hold: the empty string or a non-zero
    integer. *)
Definition fieldQty (q : qty) : Prop :=
  match q with
  | QEmpty => True
  | QNum n => n <> 0
  end.

Definition positiveQty (q : qty) : Prop :=
  exists n, q = QNum n /\ 0 < n.

Definition itemsOk (s : state) : Prop :=
  Forall (fun it => fieldQty (quantity it)) (newListItems s).

(** The state reached by typing [-3] into the first quantity field. *)
Definition typedMinusThree : state :=
  State [] "" [Item "" (QNum (-3))] "" false.

(** A form with one complete row, one row without a quantity and one
    row with a negative quantity. *)
Definition sampleForm : state :=
  State [] "Weekly"
    [Item "milk" (QNum 2); Item "eggs" QEmpty; Item "tea" (QNum (-3))]
    "" false.

Definition emptyForm : state :=
  State [] "Weekly" [Item "" QEmpty; Item "tea" (QNum (-3))] "" false.

End ShoppingList.

(** ** What both price-comparison views draw for one product *)
Module Card.

(** One rendered product card: the source badge, the name, the two
    prices, and the target of the "View Product" link when the link is
    drawn. *)
Record card : Type := Card {
  cardSource : string;
  cardName : JS.val;
  cardPriceUsd : Q;
  cardPricePkr : JS.val;
  cardLink : option JS.val
}.

(** [getSourceColor(sourceName)] calls [sourceName.toLowerCase()], which
    only a string has. *)
Definition sourceName (v : JS.val) : option string :=
  match v with
  | JS.Str s => Some s
  | _ => None
  end.

(** [v.toFixed(2)] exists on numbers only. *)
Definition fixedNumber (v : JS.val) : option Q :=
  match v with
  | JS.Num q => Some q
  | _ => None
  end.

(** [v.toLocaleString()] exists on every value but [null] and
    [undefined]. *)
Definition localeString (v : JS.val) : option JS.val :=
  match v with
  | JS.Undefined | JS.Null => None
  | _ => Some v
  end.

Definition child (v : JS.val) : option JS.val :=
  if JS.validChild v then Some v else None.

(** [products.map(f)]: only an array has [map]. *)
Definition mapProducts (f : JS.val -> option card) (products : JS.val)
  : option (list card) :=
  match products with
  | JS.Arr l => mapM f l
  | _ => None
  end.

End Card.

(** ** pages/PriceComparison.jsx *)
Module PriceComparison.
Import Api Card.

Record state : Type := State {
  query : string;
  products : JS.val;
  loading : bool;
  error : string;
  sources : list string;
  topN : JS.num;
  sortByPrice : bool;
  equalDistribution : bool
}.

Definition initial : state :=
  State "" (JS.Arr []) false "" ["alfatah"; "daraz"; "imtiaz"] (JS.Int 10)
        true false.

Definition setError (s : state) (e : string) : state :=
  State (query s) (products s) (loading s) e (sources s) (topN s)
        (sortByPrice s) (equalDistribution s).

(** State after [setLoading(l); setError(e); setProducts(p)]. *)
Definition setView (s : state) (l : bool) (e : string) (p : JS.val) : state :=
  State (query s) p l e (sources s) (topN s)
        (sortByPrice s) (equalDistribution s).

Record outcome : Type := Outcome {
  next : state;
  sent : list request
}.

(** The URL parameters built by [handleSearch]. *)
Definition searchParams (s : state) : list (string * string) :=
  let params :=
    [("query", query s);
     ("top_n", JS.numToString (topN s));
     ("sort", JS.boolToString (sortByPrice s));
     ("equal_distribution", JS.boolToString (equalDistribution s));
     ("parallel", JS.boolToString true)] in
  if (0 <? length (sources s))%nat
  then params ++ [("sources", JS.join (sources s))]
  else params.

Definition handleSearch (reply : JS.fetched JS.val) (s : state) : outcome :=
  if negb (JS.nonBlank (query s)) then
    Outcome (setError s "Please enter a search query") []
  else
    let req := GetCompare "http://localhost:8001" (searchParams s) in
    let failed (message : string) :=
      Outcome
        (setView s false
           (JS.orElse message "An error occurred while fetching products")
           (JS.Arr []))
        [req] in
    match reply with
    | JS.Threw message => failed message
    | JS.Resp false _ =>
        failed "Failed to fetch products. Make sure the FastAPI backend is running on port 8001."
    | JS.Resp true (inl message) => failed message
    | JS.Resp true (inr data) => Outcome (setView s false "" data) [req]
    end.

(** [setSources(prev => prev.includes(id) ? prev.filter(s => s !== id)
                                          : [...prev, id])] *)
Definition toggleSource (sourceId : string) (s : state) : state :=
  let prev := sources s in
  State (query s) (products s) (loading s) (error s)
        (if existsb (String.eqb sourceId) prev
         then List.filter (fun x => negb (String.eqb x sourceId)) prev
         else prev ++ [sourceId])
        (topN s) (sortByPrice s) (equalDistribution s).

(** The condition under which the page draws the "View Product" link:
    [product.url && product.url !== 'N/A' && product.url.startsWith('http')];
    [None] when [startsWith] is called on a value that has none. *)
Definition showsLink (url : JS.val) : option bool :=
  if JS.truthy url then
    if JS.differsFrom url "N/A" then
      match url with
      | JS.Str s => Some (JS.startsWith "http" s)
      | _ => None
      end
    else Some false
  else Some false.

(** The card drawn for one element of [products]. *)
Definition productCard (product : JS.val) : option card :=
  source ← JS.get product "source" ≫= sourceName;
  name ← JS.get product "name" ≫= child;
  usd ← JS.get product "price_usd" ≫= fixedNumber;
  pkr ← JS.get product "price_pkr" ≫= fixedNumber;
  url ← JS.get product "url";
  link ← showsLink url;
  Some (Card source name usd (JS.Num pkr) (if link : bool then Some url else None)).

(** The cards drawn from [products].  The page calls [products.map]
    under the guard [products.length > 0]: on an array the guard only
    skips the empty list, and a value that is not an array yields no
    card, whether the guard lets the call through (a TypeError) or not
    ([None] in both cases). *)
Definition resultCards (products : JS.val) : option (list card) :=
  mapProducts productCard products.

End PriceComparison.

(** ** components/ui.jsx: the standalone PriceComparisonApp *)
Module PriceComparisonApp.
Import Api Card.

Record state : Type := State {
  query : string;
  products : JS.val;
  loading : bool;
  error : string;
  sources : list string;
  topN : JS.num;
  sortByPrice : bool;
  equalDistribution : bool;
  parallel : bool
}.

Definition initial : state :=
  State "" (JS.Arr []) false "" ["alfatah"; "daraz"; "imtiaz"] (JS.Int 10)
        true false true.

Definition setError (s : state) (e : string) : state :=
  State (query s) (products s) (loading s) e (sources s) (topN s)
        (sortByPrice s) (equalDistribution s) (parallel s).

Definition setView (s : state) (l : bool) (e : string) (p : JS.val) : state :=
  State (query s) p l e (sources s) (topN s)
        (sortByPrice s) (equalDistribution s) (parallel s).

Record outcome : Type := Outcome {
  next : state;
  sent : list request
}.

Definition searchParams (s : state) : list (string * string) :=
  let params :=
    [("query", query s);
     ("top_n", JS.numToString (topN s));
     ("sort", JS.boolToString (sortByPrice s));
     ("equal_distribution", JS.boolToString (equalDistribution s));
     ("parallel", JS.boolToString (parallel s))] in
  if (0 <? length (sources s))%nat
  then params ++ [("sources", JS.join (sources s))]
  else params.

Definition handleSearch (reply : JS.fetched JS.val) (s : state) : outcome :=
  if negb (JS.nonBlank (query s)) then
    Outcome (setError s "Please enter a search query") []
  else
    let req := GetCompare "http://localhost:8000" (searchParams s) in
    let failed (message : string) :=
      Outcome
        (setView s false
           (JS.orElse message "An error occurred while fetching products")
           (JS.Arr []))
        [req] in
    match reply with
    | JS.Threw message => failed message
    | JS.Resp false _ => failed "Failed to fetch products"
    | JS.Resp true (inl message) => failed message
    | JS.Resp true (inr data) => Outcome (setView s false "" data) [req]
    end.

Definition toggleSource (sourceId : string) (s : state) : state :=
  let prev := sources s in
  State (query s) (products s) (loading s) (error s)
        (if existsb (String.eqb sourceId) prev
         then List.filter (fun x => negb (String.eqb x sourceId)) prev
         else prev ++ [sourceId])
        (topN s) (sortByPrice s) (equalDistribution s) (parallel s).

(** The condition under which the standalone view draws the
    "View Product" link: [product.url !== 'N/A']. *)
Definition showsLink (url : JS.val) : bool := JS.differsFrom url "N/A".

Definition productCard (product : JS.val) : option card :=
  source ← JS.get product "source" ≫= sourceName;
  name ← JS.get product "name" ≫= child;
  pkr ← JS.get product "price_pkr" ≫= localeString;
  usd ← JS.get product "price_usd" ≫= fixedNumber;
  url ← JS.get product "url";
  Some (Card source name usd pkr (if showsLink url then Some url else None)).

(** The cards drawn from [products]: [products.map] is called without
    a guard, and throws on a value that is not an array ([None]). *)
Definition resultCards (products : JS.val) : option (list card) :=
  mapProducts productCard products.

End PriceComparisonApp.

(** ** Sample data for the price-comparison views *)
Module Samples.
Import Card.

(** A product as the compare service lists it. *)
Definition product (source name : string) (pkr usd : Q) (url : JS.val) : JS.val :=
  JS.Obj [("source", JS.Str source); ("name", JS.Str name);
          ("price_pkr", JS.Num pkr); ("price_usd", JS.Num usd);
          ("url", url)].

Definition milk : JS.val :=
  product "Daraz" "Milk 1L" 540 (195 # 100) (JS.Str "https://www.daraz.pk/milk").

Definition milkCard : card :=
  Card "Daraz" (JS.Str "Milk 1L") (195 # 100) (JS.Num 540)
       (Some (JS.Str "https://www.daraz.pk/milk")).

(** The same product with an empty URL, and with the URL left out. *)
Definition milkEmptyUrl : JS.val :=
  product "Daraz" "Milk 1L" 540 (195 # 100) (JS.Str "").

Definition milkNoUrl : JS.val :=
  JS.Obj [("source", JS.Str "Daraz"); ("name", JS.Str "Milk 1L");
          ("price_pkr", JS.Num 540); ("price_usd", JS.Num (195 # 100))].

(** A body that would hold the products together with a list of the
    sources that failed. *)
Definition bodyWithReport : JS.val :=
  JS.Obj [("products", JS.Arr [milk]);
          ("failed_sources", JS.Arr [JS.Str "imtiaz"])].

(** [body] holds, next to other members, the list [failed] of source
    names. *)
Definition holdsFailureReport (body : JS.val) (failed : list string) : Prop :=
  exists members k,
    body = JS.Obj members /\ JS.member k members = JS.Arr (map JS.Str failed).

Definition pageSearching (q : string) (srcs : list string) : PriceComparison.state :=
  PriceComparison.State q (JS.Arr []) false "" srcs (JS.Int 10) true false.

Definition appSearching (q : string) (srcs : list string) : PriceComparisonApp.state :=
  PriceComparisonApp.State q (JS.Arr []) false "" srcs (JS.Int 10) true false true.

End Samples.

(** ** pages/MyShoppingLists.jsx *)
Module MyShoppingLists.
Import Api.

Record state : Type := State {
  lists : list listSummary;
  loading : bool;
  error : string;
  showConfirmModal : bool;
  confirmData : Z * string;           (* { listId, listName } *)
  purchasedLists : gset Z;
  showSuccessMessage : bool;
  successData : string * JS.val       (* { listName, amount } *)
}.

Definition setLoading (b : bool) (s : state) : state :=
  State (lists s) b (error s) (showConfirmModal s) (confirmData s)
        (purchasedLists s) (showSuccessMessage s) (successData s).
Definition setError (e : string) (s : state) : state :=
  State (lists s) (loading s) e (showConfirmModal s) (confirmData s)
        (purchasedLists s) (showSuccessMessage s) (successData s).
Definition setShowConfirmModal (b : bool) (s : state) : state :=
  State (lists s) (loading s) (error s) b (confirmData s)
        (purchasedLists s) (showSuccessMessage s) (successData s).
Definition setListsAndPurchased (ls : list listSummary) (p : gset Z)
    (s : state) : state :=
  State ls (loading s) (error s) (showConfirmModal s) (confirmData s)
        p (showSuccessMessage s) (successData s).
Definition setSuccess (p : gset Z) (d : string * JS.val) (s : state)
  : state :=
  State (lists s) (loading s) (error s) (showConfirmModal s) (confirmData s)
        p true d.

(** The body of [GET /user/{id}/lists]. *)
Record listsBody : Type := ListsBody {
  lists_success : bool;
  lists_rows : option (list listSummary);
  lists_message : string
}.

(** A body of [GET /cart/{listId}/expense-data] that is not [null]:
    whether its [success] is truthy, and its [amount], [Undefined] when
    it has none. *)
Record expenseData : Type := ExpenseData {
  expense_success : bool;
  expense_amount : JS.val
}.

(** What the user is told through [alert]. *)
Inductive alert : Type :=
| ExpenseCreationFailed      (* purchased, but the expense was refused *)
| NoExpenseNeeded            (* purchased, total amount is 0 *)
| ExpenseDataFailed          (* purchased, but no expense data *)
| PurchaseFailed (message : string).

Record outcome : Type := Outcome {
  next : state;
  sent : list request;
  alerts : list alert
}.

(** The lists whose items are all purchased. *)
Definition fullyPurchased (ls : list listSummary) : gset Z :=
  foldl (fun acc l =>
           if (0 <? item_count l) && (purchased_count l =? item_count l)
           then acc ∪ {[ list_id l ]} else acc)
        ∅ ls.

Definition loadLists (u : user) (reply : JS.fetched listsBody) (s : state)
  : outcome :=
  let s := setError "" (setLoading true s) in
  let req := GetUserLists (id u) in
  let failed (message : string) :=
    Outcome
      (setLoading false
         (setError
            (JS.orElse message
               "Failed to connect to backend. Please ensure Shopping Cart service is running.")
            s))
      [req] [] in
  match reply with
  | JS.Threw message => failed message
  | JS.Resp false _ =>
      failed "Failed to connect to Shopping Cart backend. Make sure it's running on port 8002."
  | JS.Resp true (inl message) => failed message
  | JS.Resp true (inr data) =>
      if lists_success data then
        let rows := default [] (lists_rows data) in
        Outcome (setLoading false (setListsAndPurchased rows (fullyPurchased rows) s))
                [req] []
      else
        Outcome
          (setLoading false
             (setError (JS.orElse (lists_message data) "Failed to load lists") s))
          [req] []
  end.


(** [confirmPurchaseAll]; [today] is
    [new Date().toLocaleDateString('en-CA')], [typeError] the message of
    the error that reading a property of [null] raises, [expenseReply]
    the answer to the expense-data request, whose body is [None] when it
    is [null], [purchaseReply] the answer to purchase-all,
    [expenseAccepted] whether [api.post('/expenses/')] resolves, and
    [listsReply] the answer to the final [loadLists]. *)
Definition confirmPurchaseAll (u : user) (today typeError : string)
    (expenseReply : JS.fetched (option expenseData))
    (purchaseReply : JS.fetched unit)
    (expenseAccepted : bool)
    (listsReply : JS.fetched listsBody)
    (s : state) : outcome :=
  let '(listId, listName) := confirmData s in
  let s := setLoading true (setShowConfirmModal false s) in
  let caught (reqs : list request) (message : string) :=
    let message := JS.orElse message "Failed to purchase all items" in
    Outcome (setLoading false (setError message s)) reqs
            [PurchaseFailed message] in
  let getData := GetExpenseData listId in
  let purchase := PostPurchaseAll listId (id u) in
  match expenseReply with
  | JS.Threw message => caught [getData] message
  | JS.Resp _ (inl message) => caught [getData] message
  | JS.Resp _ (inr body) =>
      match purchaseReply with
      | JS.Threw message => caught [getData; purchase] message
      | JS.Resp false (inl message) => caught [getData; purchase] message
      | JS.Resp false (inr _) =>
          caught [getData; purchase] "Failed to mark items as purchased"
      | JS.Resp true _ =>
          let finish (s : state) (reqs : list request) (al : list alert) :=
            let o := loadLists u listsReply s in
            Outcome (setLoading false (next o)) (reqs ++ sent o) al in
          match body with
          | Some data =>
              let amount := expense_amount data in
              if expense_success data && JS.greaterThanZero amount then
                let payload := Expense listName amount "shopping" today in
                let reqs := [getData; purchase; PostExpense payload] in
                if expenseAccepted then
                  finish
                    (setSuccess (purchasedLists s ∪ {[ listId ]})
                                (listName, amount) (setError "" s))
                    reqs []
                else finish s reqs [ExpenseCreationFailed]
              else if expense_success data && JS.strictlyZero amount then
                finish s [getData; purchase] [NoExpenseNeeded]
              else finish s [getData; purchase] [ExpenseDataFailed]
          | None => caught [getData; purchase] typeError
          end
      end
  end.

(** The expense events among the requests sent. *)
Definition expensesOf (reqs : list request) : list expense :=
  omap (fun r => match r with PostExpense e => Some e | _ => None end) reqs.

(** A cart named "Weekly" with the id 4 awaiting confirmation. *)
Definition confirming : state :=
  State [ListSummary 4 "Weekly" 2 0] false "" true (4, "Weekly") ∅ false
        ("", JS.Num 0).

Definition allPurchased : JS.fetched listsBody :=
  JS.Resp true (inr (ListsBody true (Some [ListSummary 4 "Weekly" 2 2]) "")).

End MyShoppingLists.

(** ** pages/OptimizedCart.jsx *)
Module OptimizedCart.
Import Api.

(** One entry of [item.recommendations]. *)
Record recommendation : Type := Recommendation {
  rank : Z;
  source : string;
  price_usd : Q;
  url : option string
}.

(** One entry of [cartData.items]; [recommendations] may be missing. *)
Record cartItem : Type := CartItem {
  item_id : Z;
  item_name : string;
  item_quantity : Z;
  status : string;
  recommendations : option (list recommendation)
}.

(** The body of [GET /cart/{listId}/optimized]. *)
Record cartData : Type := CartData {
  success : bool;
  message : string;
  list_name : string;
  items : option (list cartItem);
  total_cart_cost_usd : option Q;
  total_potential_savings_usd : option Q
}.

Record state : Type := State {
  cart : option cartData;                (* cartData *)
  loading : bool;
  error : string;
  refreshing : bool;
  showAddItem : bool;
  newItem : item;
  addingItem : bool
}.

Definition initial : state :=
  State None true "" false false (Item "" (QNum 1)) false.

(** The numbers of the body as the page computes on them: doubles. *)
Definition priceOf (r : recommendation) : Double.double :=
  Double.ofQ (price_usd r).

Definition quantityOf (item : cartItem) : Double.double :=
  Double.ofZ (item_quantity item).

(** The body of the [forEach] callback: the running total after [item]. *)
Definition addItemSavings (savings : Double.double) (item : cartItem)
  : Double.double :=
  match recommendations item with
  | Some recs =>
      if (1 <? length recs)%nat then
        let best := List.find (fun r => rank r =? 1) recs in
        let nextBest := List.find (fun r => rank r =? 2) recs in
        match best, nextBest with
        | Some best, Some nextBest =>
            Double.add savings
              (Double.mul (Double.sub (priceOf nextBest) (priceOf best))
                          (quantityOf item))
        | _, _ => savings
        end
      else savings
  | None => savings
  end.

Definition calculatePotentialSavingsUSD (cartData : option cartData)
  : Double.double :=
  match cartData with
  | Some data =>
      match items data with
      | Some l => fold_left addItemSavings l Double.zero
      | None => Double.zero
      end
  | None => Double.zero
  end.

(** The amount shown under "Potential Savings". *)
Definition shownSavings (data : cartData) : Double.double :=
  match total_potential_savings_usd data with
  | Some q => Double.ofQ q
  | None => calculatePotentialSavingsUSD (Some data)
  end.

(** Whether the callback adds anything for [item]. *)
Definition contributes (item : cartItem) : bool :=
  match recommendations item with
  | Some recs =>
      if (1 <? length recs)%nat then
        match List.find (fun r => rank r =? 1) recs,
              List.find (fun r => rank r =? 2) recs with
        | Some _, Some _ => true
        | _, _ => false
        end
      else false
  | None => false
  end.

Record outcome : Type := Outcome {
  next : state;
  sent : list request;
  alerts : list string
}.

Definition setLoad (s : state) (c : option cartData) (l : bool) (e : string)
  : state :=
  State c l e (refreshing s) (showAddItem s) (newItem s) (addingItem s).

Definition setRefreshing (b : bool) (s : state) : state :=
  State (cart s) (loading s) (error s) b (showAddItem s) (newItem s)
        (addingItem s).

Definition loadOptimizedCart (listId : Z) (reply : JS.fetched cartData)
    (s : state) : outcome :=
  let req := GetCartOptimized listId in
  match reply with
  | JS.Resp _ (inr data) =>
      if success data
      then Outcome (setLoad s (Some data) false "") [req] []
      else Outcome
             (setLoad s (cart s) false
                (JS.orElse (message data) "Failed to load optimized cart"))
             [req] []
  | _ =>
      Outcome
        (setLoad s (cart s) false
           "Failed to load optimized cart. Make sure the backend is running.")
        [req] []
  end.

Definition handleRefreshPrices (listId : Z) (reply : JS.fetched cartData)
    (s : state) : outcome :=
  let o := loadOptimizedCart listId reply (setRefreshing true s) in
  Outcome (setRefreshing false (next o)) (sent o) (alerts o).

(** [handleMarkPurchased]; the reload it starts is not awaited, its
    effect is that of [loadOptimizedCart]. *)
Definition handleMarkPurchased (listId itemId : Z) (markReply : JS.fetched unit)
    (reply : JS.fetched cartData) (s : state) : outcome :=
  let req := PostItemPurchased itemId in
  match markReply with
  | JS.Resp true _ =>
      let o := loadOptimizedCart listId reply s in
      Outcome (next o) (req :: sent o) (alerts o)
  | _ => Outcome s [req] ["Failed to mark item as purchased"]
  end.

(** The body of [POST /cart/{listId}/items]. *)
Record addBody : Type := AddBody {
  add_success : bool;
  add_message : string
}.

Definition handleAddItem (u : user) (listId : Z) (addReply : JS.fetched addBody)
    (reply : JS.fetched cartData) (s : state) : outcome :=
  if negb (JS.nonBlank (product_name (newItem s))) then Outcome s [] []
  else
    let req := PostCartItems listId (id u) [newItem s] in
    let adding (b : bool) (s : state) :=
      State (cart s) (loading s) (error s) (refreshing s) (showAddItem s)
            (newItem s) b in
    match addReply with
    | JS.Resp _ (inr data) =>
        if add_success data then
          let s := State (cart s) (loading s) (error s) (refreshing s) false
                         (Item "" (QNum 1)) true in
          let o := loadOptimizedCart listId reply s in
          Outcome (adding false (next o)) (req :: sent o) (alerts o)
        else
          Outcome (adding false s) [req]
                  [JS.orElse (add_message data) "Failed to add item"]
    | _ => Outcome (adding false s) [req] ["Failed to add item"]
    end.

(** *** The savings as the specification words them *)

(** A Recommendation list ranked ascending by price: the entry at
    position [i] has rank [i + 1], and prices do not decrease along the
    list. *)
Definition rankedAscending (recs : list recommendation) : Prop :=
  (forall i r, recs !! i = Some r -> rank r = Z.of_nat i + 1) /\
  (forall i j r r', (i < j)%nat -> recs !! i = Some r -> recs !! j = Some r' ->
                    (price_usd r <= price_usd r')%Q).

Definition recsOf (item : cartItem) : list recommendation :=
  default [] (recommendations item).

(** A Recommendation list as the claim on the savings takes it: ranked
    (the entry at position [i] has rank [i + 1]) with prices that, as
    the page holds them, are finite and do not decrease along the
    list. *)
Definition rankedByPrice (recs : list recommendation) : Prop :=
  (forall i r, recs !! i = Some r -> rank r = Z.of_nat i + 1) /\
  (forall i j r r', (i < j)%nat -> recs !! i = Some r -> recs !! j = Some r' ->
                    Double.le (priceOf r) (priceOf r')).

(** [quantity * (price(rank = 2) - price(rank = 1))] when a second-ranked
    option exists; an item with fewer than two Recommendations has
    none. *)
Definition itemSavings (item : cartItem) : option Double.double :=
  match recsOf item with
  | first :: second :: _ =>
      Some (Double.mul (quantityOf item)
                       (Double.sub (priceOf second) (priceOf first)))
  | _ => None
  end.

(** The sum of [itemSavings] over the items that have at least two
    Recommendations, added up in the order of the cart. *)
Definition potentialSavings (l : list cartItem) : Double.double :=
  fold_left (fun total item =>
               match itemSavings item with
               | Some v => Double.add total v
               | None => total
               end) l Double.zero.

(** The cart of the specification's example: milk at 1.95 (rank 1) and
    2.10 (rank 2), quantity 2, and an item without any price. *)
Definition milkItem : cartItem :=
  CartItem 1 "milk" 2 "pending"
    (Some [Recommendation 1 "B" (195 # 100) None;
           Recommendation 2 "A" (210 # 100) None]).

Definition uncoveredItem : cartItem :=
  CartItem 2 "saffron" 1 "pending" (Some []).

Definition sampleCart : cartData :=
  CartData true "" "Weekly" (Some [milkItem; uncoveredItem]) None None.

(** An item the add-item form stored with the quantity -3: bread at 2.50
    (rank 1) and 3.75 (rank 2). *)
Definition returnedItem : cartItem :=
  CartItem 3 "bread" (-3) "pending"
    (Some [Recommendation 1 "A" (250 # 100) None;
           Recommendation 2 "B" (375 # 100) None]).

Definition returnedCart : cartData :=
  CartData true "" "Weekly" (Some [returnedItem]) None None.

(** Three items whose savings do not add up to the same double in every
    order. *)
Definition riceItem : cartItem :=
  CartItem 4 "rice" 1 "pending"
    (Some [Recommendation 1 "A" (99 # 100) None;
           Recommendation 2 "B" (129 # 100) None]).

Definition oilItem : cartItem :=
  CartItem 5 "oil" 3 "purchased"
    (Some [Recommendation 1 "C" (310 # 100) None;
           Recommendation 2 "A" (375 # 100) None]).

End OptimizedCart.

(** ** components/ui4.jsx: the standalone PaisaProApp *)
Module PaisaProApp.
Import Api.

Section WithListData.

(** The body of [GET /cart/{listId}/optimized] as this view keeps it. *)
Context {listData : Type}.

Record state : Type := State {
  currentView : string;
  currentList : option listData;
  loading : bool;
  error : string
}.

Record outcome : Type := Outcome {
  next : state;
  sent : list request
}.

(** [fetchListDetails]; the body [None] stands for a falsy [data]. *)
Definition fetchListDetails (listId : Z) (reply : JS.fetched (option listData))
    (s : state) : outcome :=
  let req := GetCartOptimized listId in
  match reply with
  | JS.Resp _ (inr (Some data)) =>
      Outcome (State (currentView s) (Some data) false (error s)) [req]
  | JS.Resp _ (inr None) =>
      Outcome (State (currentView s) (currentList s) false (error s)) [req]
  | _ =>
      Outcome (State (currentView s) (currentList s) false
                     "Failed to fetch list details") [req]
  end.

(** [refreshPrices]: the refresh request, then the list is read again. *)
Definition refreshPrices (listId : Z) (refreshReply : JS.fetched unit)
    (reply : JS.fetched (option listData)) (s : state) : outcome :=
  let req := PostRefreshPrices listId in
  match refreshReply with
  | JS.Threw _ =>
      Outcome (State (currentView s) (currentList s) false
                     "Failed to refresh prices") [req]
  | JS.Resp _ _ =>
      let o := fetchListDetails listId reply
                 (State (currentView s) (currentList s) true (error s)) in
      Outcome (State (currentView (next o)) (currentList (next o)) false
                     (error (next o)))
              (req :: sent o)
  end.

(** [ListView.addItem] for the list [listId] ([None] when [list?.list_id]
    is falsy); the page is reloaded afterwards. *)
Definition addItem (listId : option Z) (newItem : string) : list request :=
  match listId with
  | Some listId =>
      if JS.nonBlank newItem && negb (listId =? 0)
      then [GetAddItem listId newItem 1]
      else []
  | None => []
  end.

(** [ListView.markPurchased] *)
Definition markPurchased (itemId : Z) : list request :=
  [PostItemPurchased itemId].

End WithListData.

Arguments state : clear implicits.
Arguments outcome : clear implicits.

(** The state of [PriceComparisonView]. *)
Record searchState : Type := SearchState {
  query : string;
  results : JS.val;
  searching : bool
}.

(** The body of the compare reply as this view reads it. *)
Record compareBody : Type := CompareBody {
  compare_success : bool;
  compare_products : JS.val
}.

(** [PriceComparisonView.searchPrices] *)
Definition searchPrices (reply : JS.fetched compareBody) (s : searchState)
  : searchState * list request :=
  if negb (JS.nonBlank (query s)) then (s, [])
  else
    let req := GetCompare "http://localhost:8000"
                 [("query", query s); ("top_n", "20")] in
    match reply with
    | JS.Resp _ (inr data) =>
        if compare_success data
        then (SearchState (query s) (compare_products data) false, [req])
        else (SearchState (query s) (results s) false, [req])
    | _ => (SearchState (query s) (results s) false, [req])
    end.

(** The entry of [item.recommendations] that [ListView] marks "CHEAPEST":
    the one at index 0. *)
Definition cheapestBadge {A : Type} (recommendations : list A) : option A :=
  head recommendations.

End PaisaProApp.

(** ** The cart service as the front end sees it *)
Module Service.
Import Api.

(** Whether a request is the explicit refresh,
    [POST /cart/{listId}/refresh-prices]. *)
Definition isRefresh (r : request) : bool :=
  match r with
  | PostRefreshPrices _ => true
  | _ => false
  end.

End Service.

(** ** The result cache and refresh gate of the cart service *)
Module SnapshotGate.

(** Modelled from the spec: the operations of the Result Cache/Refresh
    Gate (section 4.6) and the changes of a cart that bear on it; the
    cart service that holds the gate is not part of the sources. *)
Inductive operation : Type :=
| GetCached (cartID : Z)
| Refresh (cartID : Z)
| AddItem (cartID : Z)
| RemoveItem (cartID : Z)
| DeleteCart (cartID : Z).

Section WithOptimizer.

(** Modelled from the spec: the OptimizationSnapshot, kept abstract, and
    [Optimize] of the Cart Optimizer (section 4.5), which is not part of
    the sources: [Optimize k cartID] is what the [k]-th run yields for
    the cart, [None] when the run fails for every item. *)
Context {snapshot : Type}.
Variable Optimize : nat -> Z -> option snapshot.

(** Modelled from the spec: the state of the gate.  It holds at most one
    snapshot per cart; [runs] counts the Optimize runs made so far, and
    [stale] holds the carts whose items changed since their snapshot was
    taken. *)
Record gate : Type := Gate {
  stored : gmap Z snapshot;
  runs : nat;
  stale : gset Z
}.

(** Modelled from the spec: what the gate answers. *)
Inductive answer : Type :=
| Snapshot (s : snapshot)
| NeverOptimized
| RefreshFailed
| Done.

(** Modelled from the spec: section 4.6.  [GetCached] returns the
    existing snapshot without recomputation, or the "never optimized"
    sentinel; [Refresh] forces a new Optimize run and replaces the stored
    snapshot only on success, a failed refresh leaving the previous
    snapshot intact and reporting the error; adding or removing an item
    makes the snapshot stale and does not trigger a refresh; deleting a
    cart deletes its snapshot. *)
Definition apply (op : operation) (g : gate) : gate * answer :=
  match op with
  | GetCached cartID =>
      (g, match stored g !! cartID with
          | Some s => Snapshot s
          | None => NeverOptimized
          end)
  | Refresh cartID =>
      match Optimize (runs g) cartID with
      | Some s =>
          (Gate (<[cartID := s]> (stored g)) (S (runs g))
                (stale g ∖ {[ cartID ]}),
           Snapshot s)
      | None => (Gate (stored g) (S (runs g)) (stale g), RefreshFailed)
      end
  | AddItem cartID | RemoveItem cartID =>
      (Gate (stored g) (runs g) (stale g ∪ {[ cartID ]}), Done)
  | DeleteCart cartID =>
      (Gate (delete cartID (stored g)) (runs g) (stale g ∖ {[ cartID ]}), Done)
  end.

(** The gate after a sequence of operations. *)
Definition run (ops : list operation) (g : gate) : gate :=
  foldl (fun g op => fst (apply op g)) g ops.

End WithOptimizer.

Arguments gate : clear implicits.
Arguments answer : clear implicits.


Definition isRefresh (op : operation) : bool :=
  match op with Refresh _ => true | _ => false end.

End SnapshotGate.

(** ** The ranker of the search service *)
Module Ranker.

(** Modelled from the spec: a NormalizedProduct, the record the ranker
    of the search service takes; the service is not part of the sources.
    [product_url] is [None] for the "unavailable" marker. *)
Record normalizedProduct : Type := NormalizedProduct {
  product_source : string;
  product_name : string;
  product_url : option string;
  price_local : Q;
  price_reference : Q
}.

(** Modelled from the spec: the SelectConfig of the ranker, with the
    enabled sources in their enumeration order. *)
Record selectConfig : Type := SelectConfig {
  enabledSources : list string;
  topN : nat;
  sortByPrice : bool;
  equalDistribution : bool
}.

(** Modelled from the spec: a Recommendation, a NormalizedProduct plus
    its assigned rank. *)
Record recommendation : Type := Recommendation {
  recommended : normalizedProduct;
  rank : Z
}.

(** A record with its position in the order of arrival. *)
Record arrived : Type := Arrived {
  arrival : nat;
  record : normalizedProduct
}.

Definition priceOf (a : arrived) : Q := price_reference (record a).
Definition sourceOf (a : arrived) : string := product_source (record a).

Section WithNames.

(** Modelled from the spec: the normalization of product names that the
    duplicate key uses, which the specification leaves open. *)
Variable normalizeName : string -> string.

(** Modelled from the spec: the duplicate key, (source, URL) if the URL
    is present, otherwise (source, normalized name). *)
Definition dedupKey (a : arrived) : string * (string + string) :=
  (sourceOf a,
   match product_url (record a) with
   | Some url => inl url
   | None => inr (normalizeName (product_name (record a)))
   end).

(** Modelled from the spec: step (1), drop duplicate entries, keeping
    the first occurrence. *)
Fixpoint dropDuplicates (seen : list (string * (string + string)))
    (l : list arrived) : list arrived :=
  match l with
  | [] => []
  | a :: l' =>
      if bool_decide (dedupKey a ∈ seen) then dropDuplicates seen l'
      else a :: dropDuplicates (dedupKey a :: seen) l'
  end.

(** The position of a source in the enumeration of the enabled sources. *)
Fixpoint sourceIndex (sources : list string) (s : string) : nat :=
  match sources with
  | [] => 0
  | s' :: rest => if String.eqb s s' then 0 else S (sourceIndex rest s)
  end.

(** Modelled from the spec: the order of step (3), ascending by
    reference-currency price, ties broken by source enumeration order,
    then by order of arrival. *)
Definition comesBefore (sources : list string) (a b : arrived) : bool :=
  if Qle_bool (priceOf a) (priceOf b) then
    if Qle_bool (priceOf b) (priceOf a) then
      let ia := sourceIndex sources (sourceOf a) in
      let ib := sourceIndex sources (sourceOf b) in
      (ia <? ib)%nat || ((ia =? ib)%nat && (arrival a <=? arrival b)%nat)
    else true
  else false.

Fixpoint insertSorted (sources : list string) (a : arrived)
    (l : list arrived) : list arrived :=
  match l with
  | [] => [a]
  | b :: l' =>
      if comesBefore sources a b then a :: b :: l'
      else b :: insertSorted sources a l'
  end.

(** Modelled from the spec: step (3), the sort by price. *)
Definition sortRecords (sources : list string) (l : list arrived)
  : list arrived :=
  fold_right (insertSorted sources) [] l.

(** [ceil(topN / sourceCount)] *)
Definition perSourceCap (cfg : selectConfig) : nat :=
  let n := length (enabledSources cfg) in
  ((topN cfg + n - 1) / n)%nat.

(** Modelled from the spec: step (2), keep of each source its
    [perSourceCap] cheapest records. *)
Definition capPerSource (cfg : selectConfig) (l : list arrived)
  : list arrived :=
  let cheapestOf (s : string) :=
    take (perSourceCap cfg)
         (sortRecords (enabledSources cfg)
            (List.filter (fun a => String.eqb (sourceOf a) s) l)) in
  List.filter
    (fun a => existsb (fun b => (arrival b =? arrival a)%nat)
                      (cheapestOf (sourceOf a)))
    l.

(** Modelled from the spec: step (5), rank = position + 1. *)
Definition assignRanks (l : list arrived) : list recommendation :=
  imap (fun i a => Recommendation (record a) (Z.of_nat i + 1)) l.

(** Modelled from the spec: [Select(records, cfg)] of the
    Ranker/Selector, steps (1) to (5); with [sortByPrice] unset step (3)
    is skipped and the order of arrival is kept. *)
Definition Select (cfg : selectConfig) (records : list normalizedProduct)
  : list recommendation :=
  let arrivedRecords := imap Arrived records in
  let unique := dropDuplicates [] arrivedRecords in
  let capped :=
    if equalDistribution cfg then capPerSource cfg unique else unique in
  let ordered :=
    if sortByPrice cfg then sortRecords (enabledSources cfg) capped
    else capped in
  assignRanks (take (topN cfg) ordered).

(** The records that [Select] ranks, before step (5). *)
Definition selected (cfg : selectConfig) (records : list normalizedProduct)
  : list arrived :=
  let unique := dropDuplicates [] (imap Arrived records) in
  let capped :=
    if equalDistribution cfg then capPerSource cfg unique else unique in
  take (topN cfg)
       (if sortByPrice cfg then sortRecords (enabledSources cfg) capped
        else capped).

End WithNames.

(** Prices do not decrease from [a] to [b]. *)
Definition cheaperFirst (a b : arrived) : Prop := (priceOf a <= priceOf b)%Q.

(** A Recommendation as the optimized-cart page reads it. *)
Definition toCartRecommendation (r : recommendation)
  : OptimizedCart.recommendation :=
  OptimizedCart.Recommendation (rank r) (product_source (recommended r))
    (price_reference (recommended r)) (product_url (recommended r)).

(** The example of the specification: "milk" from the sources A (2.10)
    and B (1.95), the source C having timed out. *)
Definition milkRecords : list normalizedProduct :=
  [NormalizedProduct "A" "milk" (Some "https://a.example/milk") 588 (210 # 100);
   NormalizedProduct "B" "milk" (Some "https://b.example/milk") 546 (195 # 100)].

Definition milkConfig : selectConfig := SelectConfig ["A"; "B"; "C"] 5 true false.

End Ranker.

(** ** The standalone comparison view seen as the page *)
Module Views.

(** The state of the standalone view without its [parallel] switch. *)
Definition asPage (a : PriceComparisonApp.state) : PriceComparison.state :=
  PriceComparison.State
    (PriceComparisonApp.query a) (PriceComparisonApp.products a)
    (PriceComparisonApp.loading a) (PriceComparisonApp.error a)
    (PriceComparisonApp.sources a) (PriceComparisonApp.topN a)
    (PriceComparisonApp.sortByPrice a) (PriceComparisonApp.equalDistribution a).

End Views.

(** ** The add-item form of the optimized-cart page *)
Module OptimizedCartForm.
Import Api OptimizedCart.

(** [parseInt(e.target.value) || 1] *)
Definition quantityInput (value : string) : Z :=
  match JS.parseInt (JS.VStr value) with
  | JS.Int n => if JS.truthyNum (JS.Int n) then n else 1
  | JS.NaN => 1
  end.

Definition setNewItem (it : item) (s : state) : state :=
  State (cart s) (loading s) (error s) (refreshing s) (showAddItem s) it
        (addingItem s).

(** [setNewItem({ ...newItem, product_name: e.target.value })] *)
Definition changeName (value : string) (s : state) : state :=
  setNewItem (Item value (quantity (newItem s))) s.

(** [setNewItem({ ...newItem, quantity: parseInt(e.target.value) || 1 })] *)
Definition changeQuantity (value : string) (s : state) : state :=
  setNewItem (Item (product_name (newItem s)) (QNum (quantityInput value))) s.

(** The "Add Item" button: [setShowAddItem(!showAddItem)]. *)
Definition toggleAddItem (s : state) : state :=
  State (cart s) (loading s) (error s) (refreshing s) (negb (showAddItem s))
        (newItem s) (addingItem s).

(** The Cancel button of the form: [setShowAddItem(false)]. *)
Definition cancelAddItem (s : state) : state :=
  State (cart s) (loading s) (error s) (refreshing s) false
        (newItem s) (addingItem s).

(** The events of the page. *)
Inductive event : Type :=
| Load (listId : Z) (reply : JS.fetched cartData)
| Refresh (listId : Z) (reply : JS.fetched cartData)
| NameInput (value : string)
| QuantityInput (value : string)
| ToggleForm
| CancelForm
| Submit (u : user) (listId : Z) (addReply : JS.fetched addBody)
    (reply : JS.fetched cartData).

Definition step (ev : event) (s : state) : state :=
  match ev with
  | Load listId reply => next (loadOptimizedCart listId reply s)
  | Refresh listId reply => next (handleRefreshPrices listId reply s)
  | NameInput value => changeName value s
  | QuantityInput value => changeQuantity value s
  | ToggleForm => toggleAddItem s
  | CancelForm => cancelAddItem s
  | Submit u listId addReply reply =>
      next (handleAddItem u listId addReply reply s)
  end.

(** The states the page reaches from its initial state. *)
Inductive reachable : state -> Prop :=
| reach_initial : reachable initial
| reach_step ev s : reachable s -> reachable (step ev s).

(** A page on which "  tea " and the quantity "-3" were typed. *)
Definition typedTea : state :=
  changeQuantity "-3" (changeName "  tea " (toggleAddItem initial)).

End OptimizedCartForm.

(** ** Deleting a list from the two list pages *)
Module DeleteList.

(** *** pages/MyShoppingLists.jsx *)
Module Lists.
Import Api.

(** The delete dialog of the page: [showDeleteModal] and [deleteData]. *)
Record dialog : Type := Dialog {
  showDeleteModal : bool;
  deleteData : Z * string              (* { listId, listName } *)
}.

Definition handleDeleteList (listId : Z) (listName : string) (d : dialog)
  : dialog :=
  Dialog true (listId, listName).

Record outcome : Type := Outcome {
  next : MyShoppingLists.state;
  nextDialog : dialog;
  sent : list request;
  alerts : list string
}.

(** [confirmDeleteList]; [deleteReply] answers the DELETE request and
    [listsReply] the reload that follows an ok answer. *)
Definition confirmDeleteList (u : user) (deleteReply : JS.fetched unit)
    (listsReply : JS.fetched MyShoppingLists.listsBody)
    (s : MyShoppingLists.state) (d : dialog) : outcome :=
  let listId := fst (deleteData d) in
  let d := Dialog false (deleteData d) in
  let req := DeleteCart listId (id u) in
  let s := MyShoppingLists.setLoading true s in
  match deleteReply with
  | JS.Resp true _ =>
      let o := MyShoppingLists.loadLists u listsReply s in
      Outcome (MyShoppingLists.setLoading false (MyShoppingLists.next o)) d
              (req :: MyShoppingLists.sent o) []
  | _ =>
      Outcome (MyShoppingLists.setLoading false s) d [req]
              ["Failed to delete list"]
  end.

End Lists.

(** *** pages/ShoppingList.jsx *)
Module Creation.
Import Api.

(** [loadLists] of the creation page: nothing without a user id, and
    every failure is only logged. *)
Definition loadLists (u : option user)
    (reply : JS.fetched MyShoppingLists.listsBody) (s : ShoppingList.state)
  : ShoppingList.state * list request :=
  match u with
  | Some usr =>
      if hasId u then
        let req := GetUserLists (id usr) in
        match reply with
        | JS.Resp true (inr data) =>
            if MyShoppingLists.lists_success data
            then (ShoppingList.loadLists
                    (default [] (MyShoppingLists.lists_rows data)) s, [req])
            else (s, [req])
        | _ => (s, [req])
        end
      else (s, [])
  | None => (s, [])
  end.

Record outcome : Type := Outcome {
  next : ShoppingList.state;
  sent : list request;
  alerts : list string
}.

(** [handleDeleteList]; [confirmed] is the answer to [window.confirm].
    Without a user the URL cannot be built and the failure is caught. *)
Definition handleDeleteList (u : option user) (confirmed : bool) (listId : Z)
    (deleteReply : JS.fetched unit)
    (listsReply : JS.fetched MyShoppingLists.listsBody)
    (s : ShoppingList.state) : outcome :=
  if negb confirmed then Outcome s [] []
  else
    match u with
    | Some usr =>
        let req := DeleteCart listId (id usr) in
        match deleteReply with
        | JS.Resp true _ =>
            let '(s', reqs) := loadLists u listsReply s in
            Outcome s' (req :: reqs) []
        | _ => Outcome s [req] ["Failed to delete list"]
        end
    | None => Outcome s [] ["Failed to delete list"]
    end.

End Creation.

End DeleteList.

(** ** The dashboard of the standalone cart optimizer
    (components/ui4.jsx, [DashboardView]) *)
Module Dashboard.
Import Api.

Record state : Type := State {
  showCreateForm : bool;
  newListName : string;
  items : list item
}.

(** [{ product_name: '', quantity: 1 }] *)
Definition blankItem : item := Item "" (QNum 1).

Definition initial : state := State false "" [blankItem].

Definition setItems (l : list item) (s : state) : state :=
  State (showCreateForm s) (newListName s) l.

Definition setShowCreateForm (b : bool) (s : state) : state :=
  State b (newListName s) (items s).

Definition setNewListName (value : string) (s : state) : state :=
  State (showCreateForm s) value (items s).

(** [handleCreateList]; the second component holds the arguments of the
    call of [onCreateList], if it is called. *)
Definition handleCreateList (s : state)
  : state * option (string * list item) :=
  let validItems :=
    List.filter (fun it => JS.nonBlank (product_name it)) (items s) in
  if JS.nonBlank (newListName s) && (0 <? length validItems)%nat
  then (State false "" [blankItem],
        Some (JS.trim (newListName s), validItems))
  else (s, None).

Definition addItem (s : state) : state :=
  setItems (items s ++ [blankItem]) s.

(** The pair [(field, value)] of a call of [updateItem]. *)
Inductive field : Type :=
| ProductName (value : string)
| Quantity (value : Z).

Definition setField (f : field) (it : item) : item :=
  match f with
  | ProductName value => Item value (quantity it)
  | Quantity value => Item (product_name it) (QNum value)
  end.

(** [updateItem]; for an index that is out of range the assignment
    throws before [setItems], and the items stay what they are. *)
Definition updateItem (index : nat) (f : field) (s : state) : state :=
  setItems (alter (setField f) index (items s)) s.

Definition removeItem (index : nat) (s : state) : state :=
  if (1 <? length (items s))%nat
  then setItems (delete index (items s)) s
  else s.

(** [disabled] of the "Create" button. *)
Definition createDisabled (s : state) : bool :=
  negb (JS.nonBlank (newListName s))
  || negb (existsb (fun it => JS.nonBlank (product_name it)) (items s)).

(** [disabled] of the button that removes a row. *)
Definition removeDisabled (s : state) : bool :=
  (length (items s) =? 1)%nat.

(** What the user can do with the form. *)
Inductive event : Type :=
| OpenForm
| CloseForm
| ListNameInput (value : string)
| AddRow
| ProductNameInput (index : nat) (value : string)
| QuantityInput (index : nat) (value : string)
| RemoveRow (index : nat)
| Create.

Definition step (ev : event) (s : state) : state :=
  match ev with
  | OpenForm => setShowCreateForm true s
  | CloseForm => setShowCreateForm false s
  | ListNameInput value => setNewListName value s
  | AddRow => addItem s
  | ProductNameInput index value => updateItem index (ProductName value) s
  | QuantityInput index value =>
      updateItem index (Quantity (OptimizedCartForm.quantityInput value)) s
  | RemoveRow index => removeItem index s
  | Create => fst (handleCreateList s)
  end.

Inductive reachable : state -> Prop :=
| reach_initial : reachable initial
| reach_step ev s : reachable s -> reachable (step ev s).

(** A form on which the list name "  weekly " was typed, and "tea" with
    the quantity "-3" in its one row. *)
Definition typedWeekly : state :=
  step (QuantityInput 0 "-3")
    (step (ProductNameInput 0 "tea")
       (step (ListNameInput "  weekly ") (step OpenForm initial))).

End Dashboard.

(** ** The shopping lists of the standalone cart optimizer
    (components/ui4.jsx, [PaisaProApp]) *)
Module PaisaProLists.

(** The user the app keeps in [localStorage]; its [id] is a string. *)
Record appUser : Type := AppUser {
  id : string;
  name : string;
  email : string;
  created_at : string
}.

Inductive request : Type :=
| GetUserLists (userId : string)            (* GET /user/{id}/lists *)
| PostCartCreate (userId : string) (listName : string)
    (items : list Api.item)                 (* POST /cart/create *)
| DeleteCart (listId : Z) (userId : string).
                                            (* DELETE /cart/{id}?user_id= *)

Section WithData.

(** The body of [GET /cart/{listId}/optimized] and the value of
    [data.lists], as the app keeps them. *)
Context {listData rows : Type}.

Record state : Type := State {
  view : PaisaProApp.state listData;
  user : option appUser;
  shoppingLists : rows
}.

Record outcome : Type := Outcome {
  next : state;
  sent : list request
}.

Definition onView
    (f : PaisaProApp.state listData -> PaisaProApp.state listData)
    (s : state) : state :=
  State (f (view s)) (user s) (shoppingLists s).

Definition setLoading (b : bool) (v : PaisaProApp.state listData)
  : PaisaProApp.state listData :=
  PaisaProApp.State (PaisaProApp.currentView v) (PaisaProApp.currentList v) b
                    (PaisaProApp.error v).

Definition setError (e : string) (v : PaisaProApp.state listData)
  : PaisaProApp.state listData :=
  PaisaProApp.State (PaisaProApp.currentView v) (PaisaProApp.currentList v)
                    (PaisaProApp.loading v) e.

Definition setCurrentView (w : string) (v : PaisaProApp.state listData)
  : PaisaProApp.state listData :=
  PaisaProApp.State w (PaisaProApp.currentList v) (PaisaProApp.loading v)
                    (PaisaProApp.error v).

Definition setShoppingLists (l : rows) (s : state) : state :=
  State (view s) (user s) l.

(** The bodies of the replies; a reply holds [None] when its body is
    [null], on which reading [success] throws. *)
Record listsBody : Type := ListsBody {
  lists_success : bool;
  lists : rows
}.

Record createBody : Type := CreateBody { create_success : bool }.

Definition fetchUserLists (reply : JS.fetched (option listsBody)) (s : state)
  : outcome :=
  match user s with
  | Some u =>
      let req := GetUserLists (id u) in
      let s := onView (setLoading true) s in
      match reply with
      | JS.Resp _ (inr (Some data)) =>
          if lists_success data
          then Outcome (onView (setLoading false)
                          (setShoppingLists (lists data) s)) [req]
          else Outcome (onView (setLoading false) s) [req]
      | _ =>
          Outcome (onView (setLoading false)
                     (onView (setError "Failed to fetch shopping lists") s))
                  [req]
      end
  | None => Outcome s []
  end.

Definition createNewList (listName : string) (items : list Api.item)
    (createReply : JS.fetched (option createBody))
    (listsReply : JS.fetched (option listsBody)) (s : state) : outcome :=
  match user s with
  | Some u =>
      let req := PostCartCreate (id u) listName items in
      let s := onView (setLoading true) s in
      match createReply with
      | JS.Resp _ (inr (Some data)) =>
          if create_success data then
            let o := fetchUserLists listsReply s in
            Outcome (onView (setLoading false)
                       (onView (setCurrentView "dashboard") (next o)))
                    (req :: sent o)
          else Outcome (onView (setLoading false) s) [req]
      | _ =>
          Outcome (onView (setLoading false)
                     (onView (setError "Failed to create list") s)) [req]
      end
  | None => Outcome s []
  end.

Definition deleteList (listId : Z) (deleteReply : JS.fetched unit)
    (listsReply : JS.fetched (option listsBody)) (s : state) : outcome :=
  match user s with
  | Some u =>
      let req := DeleteCart listId (id u) in
      let s := onView (setLoading true) s in
      match deleteReply with
      | JS.Resp _ _ =>
          let o := fetchUserLists listsReply s in
          Outcome (onView (setLoading false) (next o)) (req :: sent o)
      | JS.Threw _ =>
          Outcome (onView (setLoading false)
                     (onView (setError "Failed to delete list") s)) [req]
      end
  | None => Outcome s []
  end.

(** The calls of the five handlers of the app that await the service. *)
Inductive event : Type :=
| FetchUserLists (reply : JS.fetched (option listsBody))
| CreateNewList (listName : string) (items : list Api.item)
    (createReply : JS.fetched (option createBody))
    (listsReply : JS.fetched (option listsBody))
| FetchListDetails (listId : Z) (reply : JS.fetched (option listData))
| RefreshPrices (listId : Z) (refreshReply : JS.fetched unit)
    (reply : JS.fetched (option listData))
| DeleteList (listId : Z) (deleteReply : JS.fetched unit)
    (listsReply : JS.fetched (option listsBody)).

Definition step (s : state) (ev : event) : state :=
  match ev with
  | FetchUserLists reply => next (fetchUserLists reply s)
  | CreateNewList listName items createReply listsReply =>
      next (createNewList listName items createReply listsReply s)
  | FetchListDetails listId reply =>
      onView (fun v => PaisaProApp.next
                         (PaisaProApp.fetchListDetails listId reply
                            (setLoading true v))) s
  | RefreshPrices listId refreshReply reply =>
      onView (fun v => PaisaProApp.next
                         (PaisaProApp.refreshPrices listId refreshReply reply
                            (setLoading true v))) s
  | DeleteList listId deleteReply listsReply =>
      next (deleteList listId deleteReply listsReply s)
  end.

(** The state after a sequence of handler calls. *)
Definition run (evs : list event) (s : state) : state := foldl step s evs.

(** The messages the handlers pass to [setError]. *)
Definition failureMessages : list string :=
  ["Failed to fetch shopping lists"; "Failed to create list";
   "Failed to fetch list details"; "Failed to refresh prices";
   "Failed to delete list"].

End WithData.

Arguments state : clear implicits.
Arguments outcome : clear implicits.
Arguments listsBody : clear implicits.
Arguments event : clear implicits.

(** An app on its dashboard with a user and no lists yet. *)
Definition alex : appUser :=
  AppUser "user_1700000000000" "Alex Smith" "" "2023-11-14T22:13:20.000Z".

Definition sampleApp : state unit (list unit) :=
  State (PaisaProApp.State "dashboard" None false "") (Some alex) [].

End PaisaProLists.

(** ** The savings of the list view of the standalone cart optimizer
    (components/ui4.jsx, [ListView]) *)
Module ListView.

(** An item of the list as far as the savings read it;
    [potential_savings_pkr] is [None] when missing or [null]. *)
Record listItem : Type := ListItem {
  potential_savings_pkr : option Q
}.

Record listData : Type := ListData {
  items : option (list listItem)
}.

(** [item.potential_savings_pkr] as the view holds it: a double, [NaN]
    standing for a missing value in the two places it is read. *)
Definition savingsOf (item : listItem) : Double.double :=
  match potential_savings_pkr item with
  | Some q => Double.ofQ q
  | None => S754_nan
  end.

(** [item.potential_savings_pkr || 0] *)
Definition savingsOrZero (item : listItem) : Double.double :=
  Double.orZero (savingsOf item).

(** [totalSavings], the amount of the "Total Savings" tile. *)
Definition totalSavings (list : option listData) : Double.double :=
  match list with
  | Some l =>
      match items l with
      | Some its =>
          fold_left (fun sum item => Double.add sum (savingsOrZero item)) its
                    Double.zero
      | None => Double.zero
      end
  | None => Double.zero
  end.

(** The amount of the "Potential savings" line of an item; the line is
    rendered only when [item.potential_savings_pkr > 0]. *)
Definition savingsLine (item : listItem) : option Double.double :=
  if Double.ltb Double.zero (savingsOf item)
  then Some (savingsOrZero item)
  else None.

(** The amounts of the lines that are rendered, in the order of the
    items. *)
Definition shownLines (its : list listItem) : list Double.double :=
  omap savingsLine its.

End ListView.


(* ===================================================================== *)
(** * Part II: properties                                                 *)
(* ===================================================================== *)

(** ** Facts about the built-ins *)
Section BuiltIns.
Import JS.

Lemma dropWhiteSpace_nil (l : list ascii) :
  dropWhiteSpace l = [] <-> Forall (fun c => isWhiteSpace c = true) l.
Proof.
  induction l as [|c l IH]; simpl.
  - split; [constructor | reflexivity].
  - destruct (isWhiteSpace c) eqn:Hc.
    + rewrite IH. split.
      * intros H. constructor; assumption.
      * intros H. inversion H; assumption.
    + split; [discriminate|].
      intros H. inversion H as [|? ? Hc' _]. congruence.
Qed.

Lemma dropWhiteSpace_head (l : list ascii) c l' :
  dropWhiteSpace l = c :: l' -> isWhiteSpace c = false.
Proof.
  induction l as [|d l IH]; simpl; [discriminate|].
  destruct (isWhiteSpace d) eqn:Hd; [exact IH|].
  intros [= -> _]. exact Hd.
Qed.

Lemma string_of_list_ascii_nil (l : list ascii) :
  string_of_list_ascii l = EmptyString <-> l = [].
Proof. destruct l; simpl; split; congruence. Qed.

(** [trim] yields the empty string exactly on white-space-only input. *)
Lemma trim_empty_iff (s : string) : trim s = EmptyString <-> whitespaceOnly s.
Proof.
  unfold trim, whitespaceOnly.
  rewrite string_of_list_ascii_nil, <- dropWhiteSpace_nil.
  destruct (dropWhiteSpace (list_ascii_of_string s)) as [|c l] eqn:Hd.
  - simpl. tauto.
  - split; [|discriminate].
    intros H. exfalso.
    apply (f_equal (@rev ascii)) in H. rewrite rev_involutive in H.
    simpl in H. apply dropWhiteSpace_nil in H.
    apply Forall_app in H as [_ H]. inversion H as [|? ? Hc _]; subst.
    apply dropWhiteSpace_head in Hd. congruence.
Qed.

Lemma nonBlank_false_iff (s : string) : nonBlank s = false <-> whitespaceOnly s.
Proof.
  rewrite <- trim_empty_iff. unfold nonBlank.
  destruct (trim s); simpl; split; congruence.
Qed.

Lemma nonBlank_true_nonempty (s : string) : nonBlank s = true -> s <> EmptyString.
Proof. intros H ->. discriminate H. Qed.

End BuiltIns.

(** ** The list-creation form (ShoppingList.jsx) *)
Section CreationForm.
Import Api ShoppingList.

Lemma quantityOf_field (value : JS.value) : fieldQty (quantityOf value).
Proof.
  unfold quantityOf.
  assert (H : fieldQty
                match JS.parseInt value with
                | JS.Int n => if JS.truthyNum (JS.Int n) then QNum n else QEmpty
                | JS.NaN => QEmpty
                end).
  { destruct (JS.parseInt value) as [|n]; simpl; [exact I|].
    destruct (Z.eqb_spec n 0); simpl; [exact I | assumption]. }
  destruct value as [[|c s]|n]; exact H.
Qed.

Lemma applyChange_field (c : change) (it : item) :
  fieldQty (quantity it) -> fieldQty (quantity (applyChange c it)).
Proof. destruct c; simpl; [tauto | intros _; apply quantityOf_field]. Qed.

Lemma handleItemChange_ok index c s s' :
  itemsOk s -> handleItemChange index c s = Some s' -> itemsOk s'.
Proof.
  unfold handleItemChange, itemsOk. intros Hs H.
  destruct (newListItems s !! index) as [it|] eqn:Hit; simpl in H; [|discriminate].
  injection H as <-. simpl.
  apply Forall_insert; [assumption|].
  apply applyChange_field.
  eapply Forall_lookup_1 in Hs; [exact Hs | exact Hit].
Qed.

Lemma handleCreateList_items u reply s :
  newListItems (next (handleCreateList u reply s)) = newListItems s.
Proof.
  unfold handleCreateList.
  repeat (match goal with
          | |- context [if ?b then _ else _] => destruct b
          | |- context [match ?x with _ => _ end] => destruct x
          end; simpl; try reflexivity).
Qed.

Lemma step_ok ev s s' : itemsOk s -> step ev s = Some s' -> itemsOk s'.
Proof.
  intros Hs. destruct ev as [ls|v| |i|i c|i| |u reply]; simpl.
  - intros [= <-]. exact Hs.
  - intros [= <-]. exact Hs.
  - intros [= <-]. unfold itemsOk; simpl.
    apply Forall_app; split; [exact Hs|]. repeat constructor.
  - intros [= <-]. unfold handleRemoveItem.
    destruct (1 <? length (newListItems s))%nat; [|exact Hs].
    unfold itemsOk; simpl. apply Forall_delete. exact Hs.
  - apply handleItemChange_ok. exact Hs.
  - unfold onBlurQuantity.
    destruct (newListItems s !! i) as [it|]; simpl; [|discriminate].
    destruct (quantity it) as [|[| |]].
    + apply handleItemChange_ok. exact Hs.
    + apply handleItemChange_ok. exact Hs.
    + intros [= <-]. exact Hs.
    + intros [= <-]. exact Hs.
  - intros [= <-]. unfold itemsOk; simpl. repeat constructor. discriminate.
  - intros [= <-]. unfold itemsOk. rewrite handleCreateList_items. exact Hs.
Qed.

Lemma reachable_ok s : reachable s -> itemsOk s.
Proof.
  induction 1 as [|ev s s' _ IH Hstep].
  - repeat constructor.
  - eapply step_ok; eassumption.
Qed.

(** C10, as the form behaves: in every state the creation form reaches,
    each quantity is the empty string or a non-zero integer (a negative
    entry such as [-3] is kept, positivity being checked at submission);
    when the quantity field of a row loses focus, an empty quantity of
    that row becomes 1 and any other quantity stays what it was, the
    product name and the other rows being untouched. *)
Theorem quantity_field_invariant (s : state) :
  reachable s ->
  Forall (fun it => fieldQty (quantity it)) (newListItems s) /\
  forall index s', onBlurQuantity index s = Some s' ->
    exists it,
      newListItems s !! index = Some it /\
      newListItems s' =
        <[index := Item (product_name it)
                     match quantity it with
                     | QEmpty => QNum 1
                     | QNum n => QNum n
                     end]> (newListItems s) /\
      match quantity it with
      | QEmpty => True
      | QNum n => n <> 0
      end.
Proof.
  intros Hr. pose proof (reachable_ok s Hr) as Hok. split; [exact Hok|].
  intros index s'. unfold onBlurQuantity, handleItemChange.
  destruct (newListItems s !! index) as [it|] eqn:Hit; simpl; [|discriminate].
  pose proof (Forall_lookup_1 _ _ _ _ Hok Hit) as Hq. simpl in Hq.
  intros H. exists it. split; [reflexivity|].
  destruct it as [name [|n]]; simpl in *.
  - injection H as <-. simpl. auto.
  - destruct n as [|p|p]; [congruence| |].
    + injection H as <-. split; [|exact Hq].
      symmetry. apply list_insert_id. exact Hit.
    + injection H as <-. split; [|exact Hq].
      symmetry. apply list_insert_id. exact Hit.
Qed.

Lemma quantity_field_invariant_witness :
  reachable initial /\
  Forall (fun it => fieldQty (quantity it)) (newListItems initial) /\
  exists it,
    newListItems initial !! 0%nat = Some it /\
    [Item "" (QNum 1)] =
      <[0%nat := Item (product_name it)
                   match quantity it with
                   | QEmpty => QNum 1
                   | QNum n => QNum n
                   end]> (newListItems initial) /\
    match quantity it with
    | QEmpty => True
    | QNum n => n <> 0
    end.
Proof.
  destruct (quantity_field_invariant initial reach_initial) as [Hall Hblur].
  split; [apply reach_initial|]. split; [exact Hall|].
  exact (Hblur 0%nat (State [] "" [Item "" (QNum 1)] "" false) eq_refl).
Defined.

Lemma typedMinusThree_reachable : reachable typedMinusThree.
Proof.
  apply (reach_step (ItemChange 0 (SetQuantity (JS.VStr "-3"))) initial).
  - apply reach_initial.
  - reflexivity.
Qed.

(** C10 as stated fails: typing [-3] puts a negative quantity into the
    form state, and the blur handler leaves it there. *)
Lemma quantity_positive_refuted :
  ~ (forall s, reachable s ->
       Forall (fun it => quantity it = QEmpty \/ positiveQty (quantity it))
              (newListItems s)) /\
  ~ (forall s index s', reachable s -> onBlurQuantity index s = Some s' ->
       Forall (fun it => positiveQty (quantity it)) (newListItems s')).
Proof.
  split.
  - intros H. specialize (H _ typedMinusThree_reachable).
    inversion H as [|? ? [Hq|[n [Hq Hn]]] _]; simpl in Hq; [discriminate|].
    injection Hq as <-. lia.
  - intros H.
    specialize (H typedMinusThree 0%nat typedMinusThree
                  typedMinusThree_reachable eq_refl).
    inversion H as [|? ? [n [Hq Hn]] _]; simpl in Hq.
    injection Hq as <-. lia.
Qed.

End CreationForm.

(** ** Submitting the creation form *)
Section CreateList.
Import Api ShoppingList.

Lemma isValidItem_spec (it : item) :
  isValidItem it = true ->
  JS.trim (product_name it) <> "" /\ product_name it <> "" /\
  positiveQty (quantity it).
Proof.
  unfold isValidItem. intros H.
  apply andb_prop in H as [Hname Hqty].
  apply negb_true_iff, String.eqb_neq in Hname.
  split; [exact Hname|]. split.
  - intros E. rewrite E in Hname. apply Hname. reflexivity.
  - destruct (quantity it) as [|n]; [discriminate|].
    exists n. split; [reflexivity|]. simpl in Hqty. lia.
Qed.

Lemma validItems_spec (l : list item) :
  Forall (fun it => JS.trim (product_name it) <> "" /\ product_name it <> "" /\
                    positiveQty (quantity it))
         (List.filter isValidItem l).
Proof.
  apply List.Forall_forall. intros it Hin.
  apply List.filter_In in Hin as [_ Hv]. apply isValidItem_spec. exact Hv.
Qed.

Lemma no_valid_item (l : list item) :
  Forall (fun it => ~ (product_name it <> "" /\ positiveQty (quantity it))) l ->
  List.filter isValidItem l = [].
Proof.
  induction 1 as [|it l Hit _ IH]; simpl; [reflexivity|].
  destruct (isValidItem it) eqn:E; [|exact IH].
  exfalso. apply Hit. apply isValidItem_spec in E as (_ & Hname & Hq).
  split; assumption.
Qed.

(** X23: whatever the form of the list-creation page holds and however
    the service answers,
    [handleCreateList] sends either nothing or one create request, and
    the items of that request are exactly the submitted items that pass
    the filter, at least one of them, each with a product name that is
    non-empty (even after trimming) and a positive integer quantity.
    When no submitted item passes the filter, in particular when none
    has both a non-empty name and a positive quantity, an error is
    reported, no request is sent, the user is not redirected and the
    stored lists and form items are unchanged. *)
Theorem createCart_only_valid_items (u : option user)
    (reply : JS.fetched createBody) (s : state) :
  let o := handleCreateList u reply s in
  (sent o = [] \/
   exists uid items,
     sent o = [PostCartCreate uid (newListName s) items] /\
     items = List.filter isValidItem (newListItems s) /\
     items <> [] /\
     Forall (fun it => JS.trim (product_name it) <> "" /\
                       product_name it <> "" /\
                       positiveQty (quantity it)) items) /\
  ((List.filter isValidItem (newListItems s) = [] \/
    Forall (fun it => ~ (product_name it <> "" /\ positiveQty (quantity it)))
           (newListItems s)) ->
   sent o = [] /\ error (next o) <> "" /\ navigated o = None /\
   lists (next o) = lists s /\ newListItems (next o) = newListItems s).
Proof.
  intros o. subst o.
  assert (Hnone :
    List.filter isValidItem (newListItems s) = [] \/
    Forall (fun it => ~ (product_name it <> "" /\ positiveQty (quantity it)))
           (newListItems s) ->
    List.filter isValidItem (newListItems s) = []).
  { intros [H|H]; [exact H|]. apply no_valid_item. exact H. }
  unfold handleCreateList.
  change (newListName (setError s "")) with (newListName s).
  change (newListItems (setError s "")) with (newListItems s).
  destruct (JS.nonBlank (newListName s)) eqn:Hname; simpl.
  { destruct (List.filter isValidItem (newListItems s)) as [|it l] eqn:Hf; simpl.
    - split; [left; reflexivity|]. intros _. repeat split; discriminate.
    - assert (Hsent :
        forall uid, exists uid' items,
          [PostCartCreate uid (newListName s) (it :: l)] =
          [PostCartCreate uid' (newListName s) items] /\
          items = it :: l /\ items <> [] /\
          Forall (fun it => JS.trim (product_name it) <> "" /\
                            product_name it <> "" /\
                            positiveQty (quantity it)) items).
      { intros uid. exists uid, (it :: l).
        repeat split; [discriminate|]. rewrite <- Hf. apply validItems_spec. }
      split; [|intros H; discriminate (Hnone H)].
      destruct u as [usr|]; [|left; reflexivity]. simpl.
      destruct (negb (id usr =? 0)); [|left; reflexivity].
      destruct reply as [m|[|] [m|d]]; simpl; right; apply Hsent. }
  split; [left; reflexivity|]. intros _. repeat split; discriminate.
Qed.

Lemma createCart_only_valid_items_witness :
  sent (handleCreateList (Some (User 7)) (JS.Resp true (inr (CreateBody "")))
          sampleForm)
    = [PostCartCreate 7 "Weekly" [Item "milk" (QNum 2)]] /\
  (sent (handleCreateList (Some (User 7)) (JS.Resp true (inr (CreateBody "")))
           emptyForm) = [] /\
   error (next (handleCreateList (Some (User 7))
                  (JS.Resp true (inr (CreateBody ""))) emptyForm)) <> "" /\
   navigated (handleCreateList (Some (User 7))
                (JS.Resp true (inr (CreateBody ""))) emptyForm) = None /\
   lists (next (handleCreateList (Some (User 7))
                  (JS.Resp true (inr (CreateBody ""))) emptyForm)) = [] /\
   newListItems (next (handleCreateList (Some (User 7))
                  (JS.Resp true (inr (CreateBody ""))) emptyForm))
     = [Item "" QEmpty; Item "tea" (QNum (-3))]).
Proof.
  split; [reflexivity|].
  exact (proj2 (createCart_only_valid_items (Some (User 7))
                  (JS.Resp true (inr (CreateBody ""))) emptyForm)
           (or_introl eq_refl)).
Defined.

Lemma handleCreateList_sent (u : option user) (reply : JS.fetched createBody)
    (s : state) (uid : Z) (name : string) (items : list item) :
  In (PostCartCreate uid name items) (sent (handleCreateList u reply s)) ->
  items = List.filter isValidItem (newListItems s).
Proof.
  unfold handleCreateList.
  change (newListName (setError s "")) with (newListName s).
  change (newListItems (setError s "")) with (newListItems s).
  destruct (JS.nonBlank (newListName s)); simpl; [|intros []].
  destruct (List.filter isValidItem (newListItems s)) as [|it l]; simpl;
    [intros []|].
  destruct u as [usr|]; simpl; [|intros []].
  destruct (negb (id usr =? 0)); simpl; [|intros []].
  destruct reply as [m|[|] [m|d]]; simpl; intros [[= _ _ <-]|[]]; reflexivity.
Qed.

(** C8, where the code departs from it.  The list-creation page sends
    create requests whose items all have a name that is not empty and a
    positive whole quantity: [handleCreateList] filters on both.  The
    dashboard of the standalone app reaches the same service through
    [createNewList], and its [handleCreateList] filters on the name
    only: on the form with the list name "  weekly " and the one row
    "tea" with the quantity -3 typed in, it hands that row on, and the
    create request carries the quantity -3. *)
Theorem create_item_validation_differs :
  (forall u reply s uid name items,
     In (PostCartCreate uid name items) (sent (handleCreateList u reply s)) ->
     Forall (fun it => product_name it <> "" /\ positiveQty (quantity it)) items) /\
  Dashboard.reachable Dashboard.typedWeekly /\
  Dashboard.handleCreateList Dashboard.typedWeekly
    = (Dashboard.initial, Some ("weekly", [Item "tea" (QNum (-3))])) /\
  PaisaProLists.sent
    (PaisaProLists.createNewList "weekly" [Item "tea" (QNum (-3))]
       (JS.Resp true (inr (Some (PaisaProLists.CreateBody true))))
       (JS.Threw "") PaisaProLists.sampleApp)
    = [PaisaProLists.PostCartCreate (PaisaProLists.id PaisaProLists.alex)
         "weekly" [Item "tea" (QNum (-3))];
       PaisaProLists.GetUserLists (PaisaProLists.id PaisaProLists.alex)] /\
  ~ positiveQty (QNum (-3)).
Proof.
  split; [|split; [|split; [|split]]].
  - intros u reply s uid name items Hin.
    apply handleCreateList_sent in Hin. subst items.
    eapply Forall_impl; [apply validItems_spec|].
    intros it (_ & Hn & Hq). split; assumption.
  - unfold Dashboard.typedWeekly.
    repeat apply Dashboard.reach_step. apply Dashboard.reach_initial.
  - reflexivity.
  - reflexivity.
  - intros (n & [= <-] & Hn). lia.
Qed.

End CreateList.

(** ** Searching from the two price-comparison views *)
Section Search.
Import Api Card Samples.

Lemma orElse_nonempty (message fallback : string) :
  fallback <> "" -> JS.orElse message fallback <> "".
Proof.
  unfold JS.orElse. destruct message; simpl; [tauto | discriminate].
Qed.


(** The compare view of the standalone optimizer also sends nothing for
    a blank term; it has no error message to set. *)
Lemma searchPrices_blank (reply : JS.fetched PaisaProApp.compareBody)
    (s : PaisaProApp.searchState) :
  JS.whitespaceOnly (PaisaProApp.query s) ->
  PaisaProApp.searchPrices reply s = (s, []).
Proof.
  intros H. apply nonBlank_false_iff in H.
  unfold PaisaProApp.searchPrices. rewrite H. reflexivity.
Qed.


(** C6, as the views behave: a search whose term is not blank and whose
    source selection is empty is not rejected; each view dispatches one
    compare request that simply carries no [sources] parameter, and an
    ok reply is displayed without any error. *)
Theorem empty_sources_dispatched (reply : JS.fetched JS.val)
    (s : PriceComparison.state) (a : PriceComparisonApp.state) :
  JS.nonBlank (PriceComparison.query s) = true ->
  PriceComparison.sources s = [] ->
  JS.nonBlank (PriceComparisonApp.query a) = true ->
  PriceComparisonApp.sources a = [] ->
  let o := PriceComparison.handleSearch reply s in
  let o' := PriceComparisonApp.handleSearch reply a in
  PriceComparison.sent o =
    [GetCompare "http://localhost:8001"
       [("query", PriceComparison.query s);
        ("top_n", JS.numToString (PriceComparison.topN s));
        ("sort", JS.boolToString (PriceComparison.sortByPrice s));
        ("equal_distribution", JS.boolToString (PriceComparison.equalDistribution s));
        ("parallel", "true")]] /\
  PriceComparisonApp.sent o' =
    [GetCompare "http://localhost:8000"
       [("query", PriceComparisonApp.query a);
        ("top_n", JS.numToString (PriceComparisonApp.topN a));
        ("sort", JS.boolToString (PriceComparisonApp.sortByPrice a));
        ("equal_distribution",
          JS.boolToString (PriceComparisonApp.equalDistribution a));
        ("parallel", JS.boolToString (PriceComparisonApp.parallel a))]] /\
  (forall data, reply = JS.Resp true (inr data) ->
     PriceComparison.error (PriceComparison.next o) = "" /\
     PriceComparison.products (PriceComparison.next o) = data /\
     PriceComparisonApp.error (PriceComparisonApp.next o') = "" /\
     PriceComparisonApp.products (PriceComparisonApp.next o') = data).
Proof.
  intros Hq Hs Hq' Ha.
  unfold PriceComparison.handleSearch, PriceComparisonApp.handleSearch,
    PriceComparison.searchParams, PriceComparisonApp.searchParams.
  rewrite Hq, Hq', Hs, Ha. simpl.
  destruct reply as [m|[|] [m|d]]; simpl; repeat split; try discriminate.
  all: match goal with H : JS.Resp _ _ = JS.Resp _ _ |- _ => injection H as -> end.
  all: reflexivity.
Qed.

Lemma empty_sources_dispatched_witness :
  PriceComparison.sent
    (PriceComparison.handleSearch (JS.Resp true (inr (JS.Arr [milk])))
       (pageSearching "milk" [])) =
    [GetCompare "http://localhost:8001"
       [("query", "milk"); ("top_n", "10"); ("sort", "true");
        ("equal_distribution", "false"); ("parallel", "true")]] /\
  PriceComparisonApp.sent
    (PriceComparisonApp.handleSearch (JS.Resp true (inr (JS.Arr [milk])))
       (appSearching "milk" [])) =
    [GetCompare "http://localhost:8000"
       [("query", "milk"); ("top_n", "10"); ("sort", "true");
        ("equal_distribution", "false"); ("parallel", "true")]].
Proof.
  destruct (empty_sources_dispatched (JS.Resp true (inr (JS.Arr [milk])))
              (pageSearching "milk" []) (appSearching "milk" [])
              eq_refl eq_refl eq_refl eq_refl) as (H1 & H2 & _).
  split; [exact H1 | exact H2].
Defined.

(** C6 as stated fails: with the term "milk" and no source selected,
    neither view rejects the query; each sends its compare request. *)
Lemma empty_sources_not_rejected :
  ~ (forall reply s,
       PriceComparison.sources s = [] ->
       PriceComparison.sent (PriceComparison.handleSearch reply s) = []) /\
  ~ (forall reply a,
       PriceComparisonApp.sources a = [] ->
       PriceComparisonApp.sent (PriceComparisonApp.handleSearch reply a) = []).
Proof.
  split; intros H.
  - specialize (H (JS.Resp true (inr (JS.Arr [milk]))) (pageSearching "milk" [])
                  eq_refl).
    discriminate H.
  - specialize (H (JS.Resp true (inr (JS.Arr [milk]))) (appSearching "milk" [])
                  eq_refl).
    discriminate H.
Qed.

End Search.

(** ** What a search response gives the caller *)
Section SearchResponse.
Import Api Card Samples.

Lemma report_body_draws_nothing (body : JS.val) (failed : list string) :
  holdsFailureReport body failed ->
  PriceComparison.resultCards body = None /\
  PriceComparisonApp.resultCards body = None.
Proof. intros (members & k & -> & _). split; reflexivity. Qed.

(** C4, as the views behave: a search response reaches the caller either
    as the product list alone or as a bare error.  On an ok reply the
    whole parsed body becomes the product list and the error is cleared;
    on a reply that is not ok, or when the call or the parsing throws,
    the body is not used: the product list is empty and an error message
    is shown.  Product cards are drawn only from a body that is an array,
    so never from a body holding a list of failed sources next to the
    products; both views end with the same product list. *)
Theorem search_response_list_or_error (reply : JS.fetched JS.val)
    (s : PriceComparison.state) (a : PriceComparisonApp.state) :
  JS.nonBlank (PriceComparison.query s) = true ->
  JS.nonBlank (PriceComparisonApp.query a) = true ->
  let v := PriceComparison.next (PriceComparison.handleSearch reply s) in
  let w := PriceComparisonApp.next (PriceComparisonApp.handleSearch reply a) in
  PriceComparison.products v = PriceComparisonApp.products w /\
  ((exists data, reply = JS.Resp true (inr data) /\
      PriceComparison.products v = data /\
      PriceComparison.error v = "" /\ PriceComparisonApp.error w = "") \/
   ((forall data, reply <> JS.Resp true (inr data)) /\
    PriceComparison.products v = JS.Arr [] /\
    PriceComparison.error v <> "" /\ PriceComparisonApp.error w <> "")) /\
  (forall cards, PriceComparison.resultCards (PriceComparison.products v) = Some cards ->
     exists l, PriceComparison.products v = JS.Arr l /\ length cards = length l) /\
  (forall cards, PriceComparisonApp.resultCards (PriceComparisonApp.products w) = Some cards ->
     exists l, PriceComparisonApp.products w = JS.Arr l /\ length cards = length l) /\
  (forall failed, holdsFailureReport (PriceComparison.products v) failed ->
     PriceComparison.resultCards (PriceComparison.products v) = None /\
     PriceComparisonApp.resultCards (PriceComparisonApp.products w) = None).
Proof.
  intros Hq Hq' v w.
  assert (Hsame : PriceComparison.products v = PriceComparisonApp.products w).
  { subst v w. unfold PriceComparison.handleSearch, PriceComparisonApp.handleSearch.
    rewrite Hq, Hq'. destruct reply as [m|[|] [m|d]]; reflexivity. }
  split; [exact Hsame|]. split; [|split; [|split]].
  - subst v w. unfold PriceComparison.handleSearch, PriceComparisonApp.handleSearch.
    rewrite Hq, Hq'. simpl.
    destruct reply as [m|[|] [m|d]]; simpl.
    + right. repeat split; try discriminate; apply orElse_nonempty; discriminate.
    + right. repeat split; try discriminate; apply orElse_nonempty; discriminate.
    + left. exists d. repeat split.
    + right. repeat split; discriminate.
    + right. repeat split; discriminate.
  - intros cards. unfold PriceComparison.resultCards, mapProducts.
    destruct (PriceComparison.products v) as [| | | | |l|]; try discriminate.
    intros H. exists l. split; [reflexivity|].
    apply length_mapM in H. symmetry. exact H.
  - intros cards. unfold PriceComparisonApp.resultCards, mapProducts.
    destruct (PriceComparisonApp.products w) as [| | | | |l|]; try discriminate.
    intros H. exists l. split; [reflexivity|].
    apply length_mapM in H. symmetry. exact H.
  - intros failed H. rewrite <- Hsame.
    exact (report_body_draws_nothing _ _ H).
Qed.

Lemma search_response_list_or_error_witness :
  PriceComparison.products
    (PriceComparison.next
       (PriceComparison.handleSearch (JS.Resp false (inr bodyWithReport))
          (pageSearching "milk" ["daraz"; "imtiaz"]))) =
  PriceComparisonApp.products
    (PriceComparisonApp.next
       (PriceComparisonApp.handleSearch (JS.Resp false (inr bodyWithReport))
          (appSearching "milk" ["daraz"; "imtiaz"]))).
Proof.
  exact (proj1 (search_response_list_or_error (JS.Resp false (inr bodyWithReport))
                  (pageSearching "milk" ["daraz"; "imtiaz"])
                  (appSearching "milk" ["daraz"; "imtiaz"]) eq_refl eq_refl)).
Defined.

(** C4 as stated fails.  A reply whose body is the list of the products
    found, with nothing about the sources that failed, is accepted and
    displayed without any failure report; a body that holds the products
    together with the failed sources yields no product card in either
    view; and when the reply is not ok that same body is dropped for a
    bare error. *)
Lemma search_response_has_no_failure_report :
  ~ (forall body s cards,
       JS.nonBlank (PriceComparison.query s) = true ->
       PriceComparison.resultCards
         (PriceComparison.products
            (PriceComparison.next
               (PriceComparison.handleSearch (JS.Resp true (inr body)) s)))
         = Some cards ->
       exists failed, holdsFailureReport body failed) /\
  ~ (forall body a cards,
       JS.nonBlank (PriceComparisonApp.query a) = true ->
       PriceComparisonApp.resultCards
         (PriceComparisonApp.products
            (PriceComparisonApp.next
               (PriceComparisonApp.handleSearch (JS.Resp true (inr body)) a)))
         = Some cards ->
       exists failed, holdsFailureReport body failed) /\
  let partial := JS.Resp true (inr (JS.Arr [milk])) in
  let v := PriceComparison.next
             (PriceComparison.handleSearch partial
                (pageSearching "milk" ["daraz"; "imtiaz"])) in
  let w := PriceComparisonApp.next
             (PriceComparisonApp.handleSearch partial
                (appSearching "milk" ["daraz"; "imtiaz"])) in
  (PriceComparison.products v = JS.Arr [milk] /\
   PriceComparison.error v = "" /\
   PriceComparison.resultCards (PriceComparison.products v) = Some [milkCard] /\
   PriceComparisonApp.products w = JS.Arr [milk] /\
   PriceComparisonApp.error w = "" /\
   PriceComparisonApp.resultCards (PriceComparisonApp.products w) = Some [milkCard] /\
   forall failed, ~ holdsFailureReport (JS.Arr [milk]) failed) /\
  (holdsFailureReport bodyWithReport ["imtiaz"] /\
   PriceComparison.resultCards bodyWithReport = None /\
   PriceComparisonApp.resultCards bodyWithReport = None) /\
  (let v' := PriceComparison.next
               (PriceComparison.handleSearch (JS.Resp false (inr bodyWithReport))
                  (pageSearching "milk" ["daraz"; "imtiaz"])) in
   PriceComparison.products v' = JS.Arr [] /\
   PriceComparison.error v' =
     "Failed to fetch products. Make sure the FastAPI backend is running on port 8001.").
Proof.
  assert (Hnone : forall failed, ~ holdsFailureReport (JS.Arr [milk]) failed).
  { intros failed (members & k & H & _). discriminate H. }
  split; [|split].
  - intros H.
    destruct (H (JS.Arr [milk]) (pageSearching "milk" ["daraz"; "imtiaz"])
                [milkCard] eq_refl eq_refl) as [failed Hf].
    exact (Hnone failed Hf).
  - intros H.
    destruct (H (JS.Arr [milk]) (appSearching "milk" ["daraz"; "imtiaz"])
                [milkCard] eq_refl eq_refl) as [failed Hf].
    exact (Hnone failed Hf).
  - repeat split.
    + exact Hnone.
    + exists [("products", JS.Arr [milk]);
              ("failed_sources", JS.Arr [JS.Str "imtiaz"])], "failed_sources".
      split; reflexivity.
Qed.

End SearchResponse.

(** ** The "View Product" link of the two views *)
Section ProductLink.
Import Api Card Samples.

(** Whenever the page draws the link, so does the standalone view. *)
Lemma page_link_implies_app_link (url : JS.val) :
  PriceComparison.showsLink url = Some true ->
  PriceComparisonApp.showsLink url = true.
Proof.
  unfold PriceComparison.showsLink, PriceComparisonApp.showsLink.
  destruct (JS.truthy url); [|discriminate].
  destruct (JS.differsFrom url "N/A"); [reflexivity | discriminate].
Qed.

(** On the sentinel and on URLs that start with "http" the two views
    agree. *)
Lemma link_conditions_agree_on_wellformed (u : string) :
  u = "N/A" \/ JS.startsWith "http" u = true ->
  PriceComparison.showsLink (JS.Str u) =
    Some (PriceComparisonApp.showsLink (JS.Str u)).
Proof.
  unfold PriceComparison.showsLink, PriceComparisonApp.showsLink.
  intros [->|H]; [reflexivity|].
  destruct u as [|c u]; [discriminate H|].
  change (JS.truthy (JS.Str (String c u))) with true. cbv iota.
  destruct (JS.differsFrom (JS.Str (String c u)) "N/A"); [|reflexivity].
  rewrite H. reflexivity.
Qed.

(** C9 fails on the code: for a product whose URL is the empty string,
    is left out, or is a relative path, the standalone view draws the
    "View Product" link while the page shows "URL Not Available". *)
Theorem link_conditions_differ :
  (PriceComparisonApp.showsLink (JS.Str "") = true /\
   PriceComparison.showsLink (JS.Str "") = Some false) /\
  (PriceComparisonApp.showsLink JS.Undefined = true /\
   PriceComparison.showsLink JS.Undefined = Some false) /\
  (PriceComparisonApp.showsLink (JS.Str "/products/milk") = true /\
   PriceComparison.showsLink (JS.Str "/products/milk") = Some false) /\
  (option_map cardLink (PriceComparisonApp.productCard milkEmptyUrl)
     = Some (Some (JS.Str "")) /\
   option_map cardLink (PriceComparison.productCard milkEmptyUrl) = Some None) /\
  (option_map cardLink (PriceComparisonApp.productCard milkNoUrl)
     = Some (Some JS.Undefined) /\
   option_map cardLink (PriceComparison.productCard milkNoUrl) = Some None).
Proof. repeat split. Qed.

End ProductLink.

(** ** Confirming the purchase of a whole list (MyShoppingLists.jsx) *)
Section PurchaseAll.
Import Api MyShoppingLists.

Lemma sent_loadLists u reply s : sent (loadLists u reply s) = [GetUserLists (id u)].
Proof.
  unfold loadLists. destruct reply as [m|[|] [m|data]]; try reflexivity.
  destruct (lists_success data); reflexivity.
Qed.

(** The requests of [confirmPurchaseAll], branch by branch. *)
Lemma sent_confirmPurchaseAll u today te er pr acc lr s :
  sent (confirmPurchaseAll u today te er pr acc lr s) =
  let '(listId, listName) := confirmData s in
  let getData := GetExpenseData listId in
  let purchase := PostPurchaseAll listId (id u) in
  match er with
  | JS.Resp _ (inr body) =>
      match pr with
      | JS.Resp true _ =>
          match body with
          | Some data =>
              if expense_success data && JS.greaterThanZero (expense_amount data)
              then [getData; purchase;
                    PostExpense
                      (Expense listName (expense_amount data) "shopping" today);
                    GetUserLists (id u)]
              else [getData; purchase; GetUserLists (id u)]
          | None => [getData; purchase]
          end
      | _ => [getData; purchase]
      end
  | _ => [getData]
  end.
Proof.
  unfold confirmPurchaseAll. destruct (confirmData s) as [listId listName].
  destruct er as [m|ok [m|body]]; try reflexivity.
  destruct pr as [m|[|] reply]; try reflexivity.
  - destruct body as [data|]; [|reflexivity].
    destruct (expense_success data && JS.greaterThanZero (expense_amount data)).
    + destruct acc; cbn [sent]; rewrite sent_loadLists; reflexivity.
    + destruct (expense_success data && JS.strictlyZero (expense_amount data));
        cbn [sent]; rewrite sent_loadLists; reflexivity.
  - destruct reply as [m|[]]; reflexivity.
Qed.

(** C7, as the page behaves.  [confirmPurchaseAll] reads the expense
    data first; when that reply cannot be read, it stops there: nothing
    is marked purchased and nothing emitted.  Otherwise it sends the
    purchase-all request.  When that request is answered ok, the cart is
    marked purchased in full, and at most one expense event follows:
    exactly one when the expense data has [success] set and an amount
    above zero, carrying the list name as description, that amount, the
    category "shopping" and the current date; none in every other case
    (an amount of 0, no [success], an amount that is not above zero, a
    body that is [null]), although the cart is marked purchased. *)
Theorem purchase_emits_expense (u : user) (today typeError : string)
    (er : JS.fetched (option expenseData)) (pr : JS.fetched unit) (acc : bool)
    (lr : JS.fetched listsBody) (s : state) :
  let o := confirmPurchaseAll u today typeError er pr acc lr s in
  let listId := fst (confirmData s) in
  let listName := snd (confirmData s) in
  let event (data : expenseData) :=
    Expense listName (expense_amount data) "shopping" today in
  let payable (data : expenseData) :=
    expense_success data = true /\
    JS.greaterThanZero (expense_amount data) = true in
  (length (expensesOf (sent o)) <= 1)%nat /\
  (forall ok data reply,
     er = JS.Resp ok (inr (Some data)) -> pr = JS.Resp true reply ->
     payable data ->
     sent o = [GetExpenseData listId; PostPurchaseAll listId (id u);
               PostExpense (event data); GetUserLists (id u)] /\
     expensesOf (sent o) = [event data]) /\
  (expensesOf (sent o) <> [] ->
     exists ok data reply,
       er = JS.Resp ok (inr (Some data)) /\ pr = JS.Resp true reply /\
       payable data /\ expensesOf (sent o) = [event data]) /\
  (forall ok body reply,
     er = JS.Resp ok (inr body) -> pr = JS.Resp true reply ->
     (forall data, body = Some data -> ~ payable data) ->
     sent o = GetExpenseData listId :: PostPurchaseAll listId (id u)
              :: match body with
                 | Some _ => [GetUserLists (id u)]
                 | None => []
                 end /\
     expensesOf (sent o) = []) /\
  ((forall ok body, er <> JS.Resp ok (inr body)) ->
   sent o = [GetExpenseData listId] /\
   purchasedLists (next o) = purchasedLists s).
Proof.
  intros o listId listName event payable.
  subst o listId listName event payable.
  split; [|split; [|split; [|split]]].
  1-4: rewrite sent_confirmPurchaseAll;
    destruct (confirmData s) as [listId listName]; cbn [fst snd].
  - destruct er as [m|ok [m|[data|]]]; try (simpl; lia);
      destruct pr as [m|[|] reply]; try (simpl; lia).
    destruct (expense_success data && JS.greaterThanZero (expense_amount data));
      simpl; lia.
  - intros ok data reply -> -> [Hs Hp]. rewrite Hs, Hp. split; reflexivity.
  - destruct er as [m|ok [m|[data|]]];
      try (intros H; exfalso; apply H; reflexivity).
    + destruct pr as [m|[|] reply];
        try (intros H; exfalso; apply H; reflexivity).
      destruct (expense_success data) eqn:Hs;
        try (intros H; exfalso; apply H; reflexivity).
      destruct (JS.greaterThanZero (expense_amount data)) eqn:Hp;
        try (intros H; exfalso; apply H; reflexivity).
      intros _. exists ok, data, reply.
      repeat split; first [assumption | reflexivity].
    + destruct pr as [m|[|] reply]; intros H; exfalso; apply H; reflexivity.
  - intros ok body reply -> -> Hnot. destruct body as [data|]; [|split; reflexivity].
    destruct (expense_success data) eqn:Hs; [|split; reflexivity].
    destruct (JS.greaterThanZero (expense_amount data)) eqn:Hp;
      [|split; reflexivity].
    exfalso. apply (Hnot data eq_refl). split; assumption.
  - intros Hnone. unfold confirmPurchaseAll.
    destruct (confirmData s) as [listId listName]. cbn [fst].
    destruct er as [m|ok [m|body]]; try (split; reflexivity).
    exfalso. apply (Hnone ok body). reflexivity.
Qed.

Lemma purchase_emits_expense_witness :
  expensesOf
    (sent (confirmPurchaseAll (User 7) "2025-01-31" "expenseData is null"
             (JS.Resp true (inr (Some (ExpenseData true (JS.Str "3.90")))))
             (JS.Resp true (inr tt)) true allPurchased confirming))
  = [Expense "Weekly" (JS.Str "3.90") "shopping" "2025-01-31"].
Proof.
  refine (proj2 (proj1 (proj2 (purchase_emits_expense (User 7) "2025-01-31"
                   "expenseData is null"
                   (JS.Resp true (inr (Some (ExpenseData true (JS.Str "3.90")))))
                   (JS.Resp true (inr tt)) true allPurchased confirming))
                  true (ExpenseData true (JS.Str "3.90")) (inr tt)
                  eq_refl eq_refl _)).
  split; reflexivity.
Defined.

(** C7 as stated fails: a list whose total is 0 (no price was found) is
    marked purchased in full, and no expense event is emitted. *)
Lemma purchase_without_expense :
  let o := confirmPurchaseAll (User 7) "2025-01-31" "expenseData is null"
             (JS.Resp true (inr (Some (ExpenseData true (JS.Num 0)))))
             (JS.Resp true (inr tt)) true allPurchased confirming in
  sent o = [GetExpenseData 4; PostPurchaseAll 4 7; GetUserLists 7] /\
  expensesOf (sent o) = [] /\
  length (expensesOf (sent o)) <> 1%nat /\
  alerts o = [NoExpenseNeeded] /\
  lists (next o) = [ListSummary 4 "Weekly" 2 2] /\
  4 ∈ purchasedLists (next o).
Proof.
  cbv zeta. rewrite sent_confirmPurchaseAll.
  split; [reflexivity|]. split; [reflexivity|]. split; [discriminate|].
  split; [reflexivity|].
  split; [reflexivity|].
  cbn. set_solver.
Qed.

End PurchaseAll.

(** ** Arithmetic on doubles *)
Section Doubles.
Import Double.

Lemma nonneg_cases x :
  nonneg x <->
  match x with
  | S754_zero _ => True
  | S754_finite s _ _ | S754_infinity s => s = false
  | S754_nan => False
  end.
Proof.
  unfold nonneg, leb, SFleb, zero. destruct x as [s|s| |s m e]; simpl.
  - tauto.
  - destruct s; simpl; split; congruence.
  - split; [discriminate | tauto].
  - destruct s; simpl; split; congruence.
Qed.

Lemma shr_1_nonneg mrs : 0 <= shr_m mrs -> 0 <= shr_m (shr_1 mrs).
Proof.
  destruct mrs as [m r s]. simpl.
  destruct m as [|[p|p|]|[p|p|]]; simpl; lia.
Qed.

Lemma iter_pos_invariant (A : Type) (P : A -> Prop) (f : A -> A) :
  (forall x, P x -> P (f x)) -> forall p x, P x -> P (SpecFloat.iter_pos f p x).
Proof.
  intros Hf. induction p as [p IH|p IH|]; intros x Hx; simpl; auto.
Qed.

Lemma shr_fexp_nonneg m e l :
  0 <= m -> 0 <= shr_m (fst (shr_fexp prec emax m e l)).
Proof.
  intros Hm. unfold shr_fexp, shr.
  assert (H0 : 0 <= shr_m (shr_record_of_loc m l))
    by (destruct l as [|[| |]]; exact Hm).
  destruct (fexp prec emax (Zdigits2 m + e) - e) as [|p|p]; simpl; auto.
  apply iter_pos_invariant; [apply shr_1_nonneg | exact H0].
Qed.

Lemma round_nearest_even_nonneg m l : 0 <= m -> 0 <= round_nearest_even m l.
Proof.
  intros Hm. destruct l as [|[| |]]; simpl; try lia.
  destruct (Z.even m); lia.
Qed.

Lemma binary_round_aux_signed s m e l :
  0 <= m -> signed s (binary_round_aux prec emax s m e l).
Proof.
  intros Hm. unfold binary_round_aux.
  pose proof (shr_fexp_nonneg m e l Hm) as H1.
  destruct (shr_fexp prec emax m e l) as [mrs' e'] eqn:E1. simpl in H1.
  pose proof (shr_fexp_nonneg _ e' loc_Exact
                (round_nearest_even_nonneg _ (loc_of_shr_record mrs') H1)) as H2.
  destruct (shr_fexp prec emax _ e' loc_Exact) as [mrs'' e''] eqn:E2. simpl in H2.
  destruct (shr_m mrs'') as [|p|p]; [reflexivity| |lia].
  destruct (e'' <=? emax - prec); reflexivity.
Qed.

Lemma binary_round_signed s m e : signed s (binary_round prec emax s m e).
Proof.
  unfold binary_round.
  destruct (shl_align m e _) as [mz ez].
  apply binary_round_aux_signed. lia.
Qed.

Lemma add_nonneg x y : nonneg x -> nonneg y -> nonneg (add x y).
Proof.
  rewrite !nonneg_cases.
  destruct x as [sx|sx| |sx mx ex], y as [sy|sy| |sy my ey]; simpl;
    try tauto; try congruence.
  - destruct sx, sy; simpl; tauto.
  - intros -> ->. reflexivity.
  - intros -> ->. unfold cond_Zopp.
    set (a := fst (shl_align mx ex (Z.min ex ey))).
    set (b := fst (shl_align my ey (Z.min ex ey))).
    change (Z.pos a + Z.pos b) with (Z.pos (a + b)). simpl.
    pose proof (binary_round_signed false (a + b) (Z.min ex ey)) as H.
    destruct (binary_round prec emax false (a + b) (Z.min ex ey)); simpl in *;
      tauto.
Qed.

Lemma mul_nonneg x y : nonneg x -> positiveFinite y -> nonneg (mul x y).
Proof.
  rewrite !nonneg_cases. intros Hx (my & ey & ->).
  destruct x as [sx|sx| |sx mx ex]; simpl in *; try tauto.
  - subst sx. reflexivity.
  - subst sx. simpl.
    pose proof (binary_round_aux_signed false (Z.pos (mx * my)) (ex + ey)
                  loc_Exact ltac:(lia)) as H.
    destruct (binary_round_aux prec emax false _ _ _); simpl in *; tauto.
Qed.

Lemma mul_comm x y : mul x y = mul y x.
Proof.
  destruct x as [sx|sx| |sx mx ex], y as [sy|sy| |sy my ey];
    unfold mul; simpl;
    rewrite ?(xorb_comm sx sy), ?(Pos.mul_comm mx my), ?(Z.add_comm ex ey);
    reflexivity.
Qed.

Lemma shl_align_value m e ez :
  ez <= e -> Z.pos (fst (shl_align m e ez)) = Z.pos m * 2 ^ (e - ez).
Proof.
  intros H. unfold shl_align.
  destruct (ez - e) as [|d|d] eqn:E; cbn [fst].
  - replace (e - ez) with 0 by lia. lia.
  - lia.
  - replace (e - ez) with (Z.pos d) by lia.
    change (Pos.iter xO m d) with (shift_pos d m).
    rewrite shift_pos_correct. rewrite Z.pow_pos_fold. lia.
Qed.

Lemma value_scaled s m e ez :
  ez <= e ->
  (value (S754_finite s m e)
   == inject_Z (cond_Zopp s (Z.pos m) * 2 ^ (e - ez)) * 2 ^ ez)%Q.
Proof.
  intros H. unfold value.
  replace e with (ez + (e - ez)) at 1 by lia.
  rewrite Qpower_plus by discriminate.
  rewrite inject_Z_mult, (Zpower_Qpower 2 (e - ez)) by lia.
  change (inject_Z 2) with 2%Q. ring.
Qed.

Lemma le_scaled sx mx ex sy my ey :
  (value (S754_finite sy my ey) <= value (S754_finite sx mx ex))%Q ->
  cond_Zopp sy (Z.pos my) * 2 ^ (ey - Z.min ex ey)
  <= cond_Zopp sx (Z.pos mx) * 2 ^ (ex - Z.min ex ey).
Proof.
  rewrite (value_scaled sy my ey (Z.min ex ey)) by lia.
  rewrite (value_scaled sx mx ex (Z.min ex ey)) by lia.
  intros H. apply Qmult_lt_0_le_reg_r in H; [|apply Qpower_0_lt; reflexivity].
  rewrite <- Zle_Qle in H. exact H.
Qed.

Lemma value_sign s m e :
  (0 <= value (S754_finite s m e))%Q <-> s = false.
Proof.
  rewrite (value_scaled s m e e) by lia. rewrite Z.sub_diag, Z.mul_1_r.
  assert (Hp : (0 < 2 ^ e)%Q) by (apply Qpower_0_lt; reflexivity).
  split.
  - intros H. destruct s; [|reflexivity]. exfalso.
    assert (E : (0 == inject_Z 0 * 2 ^ e)%Q) by ring.
    rewrite E in H.
    apply Qmult_lt_0_le_reg_r in H; [|exact Hp].
    rewrite <- Zle_Qle in H. simpl in H. lia.
  - intros ->. simpl. apply Qmult_le_0_compat; [|apply Qlt_le_weak, Hp].
    change 0%Q with (inject_Z 0). rewrite <- Zle_Qle. lia.
Qed.

Lemma value_sign_neg s m e :
  (value (S754_finite s m e) <= 0)%Q <-> s = true.
Proof.
  rewrite (value_scaled s m e e) by lia. rewrite Z.sub_diag, Z.mul_1_r.
  assert (Hp : (0 < 2 ^ e)%Q) by (apply Qpower_0_lt; reflexivity).
  split.
  - intros H. destruct s; [reflexivity|]. exfalso.
    assert (E : (0 == inject_Z 0 * 2 ^ e)%Q) by ring.
    rewrite E in H.
    apply Qmult_lt_0_le_reg_r in H; [|exact Hp].
    rewrite <- Zle_Qle in H. simpl in H. lia.
  - intros ->. simpl.
    assert (E : (0 == inject_Z 0 * 2 ^ e)%Q) by ring.
    rewrite E.
    apply Qmult_le_r; [exact Hp|]. rewrite <- Zle_Qle. lia.
Qed.

Lemma binary_normalize_nonneg d e : 0 <= d -> nonneg (binary_normalize prec emax d e false).
Proof.
  intros H. apply nonneg_cases. destruct d as [|p|p]; simpl; [exact I| |lia].
  pose proof (binary_round_signed false p e) as Hs.
  destruct (binary_round prec emax false p e); simpl in *; tauto.
Qed.

Lemma sub_nonneg x y : le y x -> nonneg (sub x y).
Proof.
  intros (Hy & Hx & H).
  destruct x as [sx|sx| |sx mx ex]; try discriminate Hx;
    destruct y as [sy|sy| |sy my ey]; try discriminate Hy.
  - apply nonneg_cases. destruct sx, sy; exact I.
  - apply nonneg_cases. simpl.
    change (value (S754_zero sx)) with 0%Q in H.
    apply value_sign_neg in H. subst sy. reflexivity.
  - apply nonneg_cases. simpl.
    change (value (S754_zero sy)) with 0%Q in H.
    apply value_sign in H. exact H.
  - apply le_scaled in H. unfold sub. simpl.
    apply binary_normalize_nonneg.
    assert (Ha := shl_align_value mx ex (Z.min ex ey) ltac:(lia)).
    assert (Hb := shl_align_value my ey (Z.min ex ey) ltac:(lia)).
    destruct sx, sy; unfold cond_Zopp in *; rewrite Ha, Hb; lia.
Qed.

Lemma digits2_size p : digits2_pos p = Pos.size p.
Proof. induction p; simpl; congruence. Qed.

Lemma digits2_iter m d :
  digits2_pos (Pos.iter xO m d) = (digits2_pos m + d)%positive.
Proof.
  induction d as [|d IH] using Pos.peano_ind.
  - simpl. lia.
  - rewrite Pos.iter_succ. simpl. rewrite IH. lia.
Qed.

Lemma binary_round_aux_exact s m e :
  fexp prec emax (Z.pos (digits2_pos m) + e) <= e ->
  binary_round_aux prec emax s (Z.pos m) e loc_Exact
  = if e <=? emax - prec then S754_finite s m e else S754_infinity s.
Proof.
  intros H.
  assert (Hs : shr_fexp prec emax (Z.pos m) e loc_Exact
               = (Build_shr_record (Z.pos m) false false, e)).
  { unfold shr_fexp, shr. simpl Zdigits2.
    destruct (fexp prec emax (Z.pos (digits2_pos m) + e) - e) as [|p|p] eqn:E;
      try lia; reflexivity. }
  unfold binary_round_aux. rewrite Hs. cbn [shr_m loc_of_shr_record round_nearest_even].
  rewrite Hs. reflexivity.
Qed.

Lemma ofZ_positive n :
  0 < n < 2 ^ 53 -> positiveFinite (ofZ n).
Proof.
  intros [Hn Hb]. destruct n as [|p|p]; try lia.
  unfold ofZ, binary_normalize, binary_round.
  assert (Hd : Z.pos (digits2_pos p) <= 53).
  { rewrite digits2_size.
    pose proof (Pos.size_le p) as Hs.
    destruct (Z_le_gt_dec (Z.pos (Pos.size p)) 53) as [|Hgt]; [assumption|].
    exfalso.
    assert (2 ^ 54 <= 2 ^ Z.pos (Pos.size p)) by (apply Z.pow_le_mono_r; lia).
    assert (Z.pos (2 ^ Pos.size p) = 2 ^ Z.pos (Pos.size p))
      by (rewrite Pos2Z.inj_pow; reflexivity).
    assert (Z.pos (2 ^ Pos.size p) <= Z.pos p~0) by (apply Pos2Z.pos_le_pos; exact Hs).
    change (2 ^ 54) with 18014398509481984 in *.
    change (2 ^ 53) with 9007199254740992 in *. lia. }
  unfold shl_align.
  set (t := fexp prec emax (Z.pos (digits2_pos p) + 0)).
  assert (Ht : t = Z.pos (digits2_pos p) - 53).
  { unfold t, fexp, emin, prec, emax. lia. }
  destruct (t - 0) as [|d|d] eqn:E.
  - rewrite binary_round_aux_exact.
    + simpl. exists p, 0. reflexivity.
    + fold t. lia.
  - lia.
  - rewrite binary_round_aux_exact.
    + assert (Hle : (t <=? emax - prec) = true)
        by (apply Z.leb_le; unfold emax, prec; lia).
      rewrite Hle. eexists _, _. reflexivity.
    + rewrite digits2_iter. unfold fexp, emin, prec, emax. lia.
Qed.

Lemma nonneg_signed (x : double) : signed false x -> nonneg x.
Proof. intros H. apply nonneg_cases. destruct x; simpl in *; tauto. Qed.

Lemma negative_not_nonneg (x : double) : negative x -> ~ nonneg x.
Proof.
  unfold negative, nonneg, ltb, leb, SFltb, SFleb, zero.
  destruct x as [s|s| |s m e]; simpl; try discriminate;
    destruct s; simpl; congruence.
Qed.

Lemma add_signed (x y : double) :
  signed false x -> signed false y -> signed false (add x y).
Proof.
  destruct x as [sx|sx| |sx mx ex], y as [sy|sy| |sy my ey]; simpl;
    try tauto; try congruence.
  - intros -> ->. reflexivity.
  - intros -> ->. reflexivity.
  - intros -> ->. unfold cond_Zopp.
    set (a := fst (shl_align mx ex (Z.min ex ey))).
    set (b := fst (shl_align my ey (Z.min ex ey))).
    change (Z.pos a + Z.pos b) with (Z.pos (a + b)). simpl.
    apply binary_round_signed.
Qed.

Lemma add_signed_nonneg (x y : double) :
  signed false x -> nonneg y -> signed false (add x y).
Proof.
  intros Hx Hy. apply nonneg_cases in Hy.
  destruct y as [sy|sy| |sy my ey]; try tauto;
    try (apply add_signed; [exact Hx | exact Hy]).
  destruct x as [sx|sx| |sx mx ex]; simpl in *; try tauto.
  subst sx. destruct sy; reflexivity.
Qed.

Lemma add_zero_r (x : double) : signed false x -> add x zero = x.
Proof. destruct x as [s|s| |s m e]; simpl; try tauto. intros ->. reflexivity. Qed.

Lemma ofQ_signed (q : Q) :
  match Qnum q with
  | Z0 => ofQ q = zero
  | Zpos _ => signed false (ofQ q)
  | Zneg _ => signed true (ofQ q)
  end.
Proof.
  unfold ofQ. destruct (Qnum q) as [|n|n]; [reflexivity| |];
    unfold SFdiv_core_binary;
    match goal with
    | |- context [Z.div_eucl ?a ?b] =>
        pose proof (Z_div_mod a b ltac:(lia)) as Hd;
        assert (Ha : 0 <= a)
          by (destruct (_ - _ - _) as [|x|x];
              [lia | apply Z.shiftl_nonneg; lia | lia]);
        destruct (Z.div_eucl a b) as [qt r]
    end;
    apply binary_round_aux_signed; nia.
Qed.

End Doubles.

(** ** Potential savings of the optimized cart (OptimizedCart.jsx) *)
Section PotentialSavings.
Import OptimizedCart.

Lemma ranked_first_two (first second : recommendation) rest :
  rankedByPrice (first :: second :: rest) ->
  List.find (fun r => rank r =? 1) (first :: second :: rest) = Some first /\
  List.find (fun r => rank r =? 2) (first :: second :: rest) = Some second /\
  Double.le (priceOf first) (priceOf second).
Proof.
  intros [Hrank Hprice].
  pose proof (Hrank 0%nat first eq_refl) as H1.
  pose proof (Hrank 1%nat second eq_refl) as H2.
  simpl in H1, H2. simpl. rewrite H1, H2. simpl.
  split; [reflexivity|]. split; [reflexivity|].
  apply (Hprice 0%nat 1%nat); [lia | reflexivity | reflexivity].
Qed.

(** What one turn of the loop adds is the item's savings. *)
Lemma addItemSavings_spec (savings : Double.double) (item : cartItem) :
  rankedByPrice (recsOf item) ->
  addItemSavings savings item
  = match itemSavings item with
    | Some v => Double.add savings v
    | None => savings
    end.
Proof.
  unfold addItemSavings, itemSavings, recsOf.
  destruct (recommendations item) as [[|first [|second rest]]|]; simpl default;
    try reflexivity.
  intros H. destruct (ranked_first_two _ _ _ H) as (-> & -> & _).
  change (1 <? length (first :: second :: rest))%nat with true.
  cbv iota. rewrite mul_comm. reflexivity.
Qed.

Lemma fold_addItemSavings_spec (l : list cartItem) (acc : Double.double) :
  Forall (fun item => rankedByPrice (recsOf item)) l ->
  fold_left addItemSavings l acc
  = fold_left (fun total item =>
                 match itemSavings item with
                 | Some v => Double.add total v
                 | None => total
                 end) l acc.
Proof.
  intros H. revert acc. induction H as [|item l Hitem _ IH]; intros acc; simpl.
  - reflexivity.
  - rewrite (addItemSavings_spec acc item Hitem). apply IH.
Qed.

Lemma itemSavings_nonneg (item : cartItem) (v : Double.double) :
  rankedByPrice (recsOf item) -> 0 < item_quantity item < 2 ^ 53 ->
  itemSavings item = Some v -> Double.nonneg v.
Proof.
  intros Hranked Hq. unfold itemSavings.
  destruct (recsOf item) as [|first [|second rest]]; try discriminate.
  intros [= <-].
  destruct (ranked_first_two _ _ _ Hranked) as (_ & _ & Hle).
  apply sub_nonneg, nonneg_cases in Hle.
  destruct (ofZ_positive _ Hq) as (m & e & Hm).
  unfold quantityOf. rewrite Hm. apply nonneg_cases.
  destruct (Double.sub (priceOf second) (priceOf first)) as [s|s| |s m' e'];
    simpl in *; try tauto; try (subst s; reflexivity).
  subst s.
  pose proof (binary_round_aux_signed false (Z.pos (m * m')) (e + e') loc_Exact
                ltac:(lia)) as H.
  destruct (binary_round_aux Double.prec Double.emax false _ _ _);
    simpl in *; tauto.
Qed.

Lemma potentialSavings_nonneg (l : list cartItem) (acc : Double.double) :
  Forall (fun item => rankedByPrice (recsOf item)) l ->
  Forall (fun item => 0 < item_quantity item < 2 ^ 53) l ->
  Double.signed false acc ->
  Double.signed false
    (fold_left (fun total item =>
                  match itemSavings item with
                  | Some v => Double.add total v
                  | None => total
                  end) l acc).
Proof.
  intros Hr. revert acc.
  induction Hr as [|item l Hitem _ IH]; intros acc Hq Hacc; simpl; [exact Hacc|].
  inversion Hq as [|? ? Hq1 Hq2]; subst. apply IH; [exact Hq2|].
  destruct (itemSavings item) as [v|] eqn:Hv; [|exact Hacc].
  apply add_signed_nonneg; [exact Hacc|].
  exact (itemSavings_nonneg item v Hitem Hq1 Hv).
Qed.

Lemma itemSavings_few (item : cartItem) :
  (length (recsOf item) < 2)%nat <-> itemSavings item = None.
Proof.
  unfold itemSavings. destruct (recsOf item) as [|first [|second rest]];
    simpl; split; try reflexivity; try lia; try discriminate.
Qed.

(** C1, as the page computes: for a cart whose items each carry a
    Recommendation list ranked ascending by price (the entry of rank 1
    first and cheapest), [calculatePotentialSavingsUSD] is the sum, added
    up in doubles in the order of the cart, of quantity times (price of
    the rank-2 entry minus price of the rank-1 entry) over the items
    with at least two Recommendations; an item with fewer contributes
    nothing, and each turn of the loop adds exactly the item's savings.
    When every quantity is a positive whole number (below 2^53), the
    savings of every item and their total are at least 0. *)
Theorem potential_savings_correct (data : cartData) (l : list cartItem) :
  items data = Some l ->
  Forall (fun item => rankedByPrice (recsOf item)) l ->
  calculatePotentialSavingsUSD (Some data) = potentialSavings l /\
  Forall (fun item =>
            (forall savings,
               addItemSavings savings item
               = match itemSavings item with
                 | Some v => Double.add savings v
                 | None => savings
                 end) /\
            ((length (recsOf item) < 2)%nat <-> itemSavings item = None)) l /\
  (Forall (fun item => 0 < item_quantity item < 2 ^ 53) l ->
   Forall (fun item => forall v, itemSavings item = Some v -> Double.nonneg v) l /\
   Double.nonneg (calculatePotentialSavingsUSD (Some data))).
Proof.
  intros Hitems Hr.
  assert (Hsum : calculatePotentialSavingsUSD (Some data) = potentialSavings l).
  { unfold calculatePotentialSavingsUSD, potentialSavings. rewrite Hitems.
    apply fold_addItemSavings_spec. exact Hr. }
  split; [exact Hsum|]. split.
  - eapply Forall_impl; [exact Hr|]. intros item Hitem. split.
    + intros savings. apply addItemSavings_spec. exact Hitem.
    + apply itemSavings_few.
  - intros Hq. split.
    + rewrite List.Forall_forall in Hr, Hq. apply List.Forall_forall.
      intros item Hin v Hv.
      exact (itemSavings_nonneg item v (Hr item Hin) (Hq item Hin) Hv).
    + rewrite Hsum. apply nonneg_signed.
      apply potentialSavings_nonneg; [exact Hr | exact Hq | reflexivity].
Qed.

Lemma two_ranked (a b : recommendation) :
  rank a = 1 -> rank b = 2 -> Double.le (priceOf a) (priceOf b) ->
  rankedByPrice [a; b].
Proof.
  intros Ha Hb Hle. split.
  - intros [|[|i]] r H; simpl in H; try discriminate;
      injection H as <-; assumption.
  - intros [|[|i]] [|[|j]] r r' Hlt Hi Hj; simpl in Hi, Hj;
      try discriminate; try lia.
    injection Hi as <-. injection Hj as <-. exact Hle.
Qed.

Lemma milkItem_ranked : rankedByPrice (recsOf milkItem).
Proof.
  apply two_ranked; [reflexivity | reflexivity|].
  split; [reflexivity|]. split; [reflexivity|]. vm_compute. discriminate.
Qed.

Lemma uncoveredItem_ranked : rankedByPrice (recsOf uncoveredItem).
Proof.
  split.
  - intros i r H. destruct i; discriminate H.
  - intros i j r r' _ H. destruct i; discriminate H.
Qed.

(** The cart of the specification's example: the page computes
    (2.10 - 1.95) * 2 in doubles, which is 0.30000000000000027 and not
    the double of 0.30. *)
Lemma potential_savings_correct_witness :
  calculatePotentialSavingsUSD (Some sampleCart)
  = potentialSavings [milkItem; uncoveredItem] /\
  Double.nonneg (calculatePotentialSavingsUSD (Some sampleCart)) /\
  calculatePotentialSavingsUSD (Some sampleCart)
  = S754_finite false 5404319552844600 (-54) /\
  Double.ofQ (30 # 100) = S754_finite false 5404319552844595 (-54).
Proof.
  destruct (potential_savings_correct sampleCart [milkItem; uncoveredItem] eq_refl)
    as (Hsum & _ & Hpos).
  - constructor; [apply milkItem_ranked|].
    constructor; [apply uncoveredItem_ranked|]. constructor.
  - split; [exact Hsum|]. split; [|split; vm_compute; reflexivity].
    apply Hpos. repeat constructor.
Defined.

(** C1 as stated fails: the list of the item is ranked ascending by
    price, the add-item form stored the quantity -3, and the savings are
    -3.75, below zero. *)
Lemma potential_savings_negative :
  ~ (forall data l,
       items data = Some l ->
       Forall (fun item => rankedByPrice (recsOf item)) l ->
       Double.nonneg (calculatePotentialSavingsUSD (Some data))) /\
  rankedByPrice (recsOf returnedItem) /\
  calculatePotentialSavingsUSD (Some returnedCart) = Double.ofQ (-375 # 100) /\
  Double.negative (calculatePotentialSavingsUSD (Some returnedCart)).
Proof.
  assert (Hr : rankedByPrice (recsOf returnedItem)).
  { apply two_ranked; [reflexivity | reflexivity|].
    split; [reflexivity|]. split; [reflexivity|]. vm_compute. discriminate. }
  assert (Hneg : Double.negative (calculatePotentialSavingsUSD (Some returnedCart)))
    by (vm_compute; reflexivity).
  split; [|split; [exact Hr | split; [vm_compute; reflexivity | exact Hneg]]].
  intros H. apply (negative_not_nonneg _ Hneg).
  apply (H returnedCart [returnedItem] eq_refl).
  constructor; [exact Hr | constructor].
Qed.

End PotentialSavings.

(** ** Reading and refreshing the optimization snapshot *)
Section SnapshotReads.
Import Api Service.

Context {listData snapshot : Type}.
Variable Optimize : nat -> Z -> option snapshot.

Lemma sent_loadOptimizedCart listId reply s :
  OptimizedCart.sent (OptimizedCart.loadOptimizedCart listId reply s)
  = [GetCartOptimized listId].
Proof.
  unfold OptimizedCart.loadOptimizedCart.
  destruct reply as [m|ok [m|data]]; try reflexivity.
  destruct (OptimizedCart.success data); reflexivity.
Qed.

Lemma sent_handleRefreshPrices listId reply s :
  OptimizedCart.sent (OptimizedCart.handleRefreshPrices listId reply s)
  = [GetCartOptimized listId].
Proof.
  unfold OptimizedCart.handleRefreshPrices. cbn [OptimizedCart.sent].
  apply sent_loadOptimizedCart.
Qed.









End SnapshotReads.

(** ** Rank order of the recommendations *)
Section RankOrder.
Import Ranker.

Variable normalizeName : string -> string.

Lemma comesBefore_le sources a b :
  comesBefore sources a b = true -> cheaperFirst a b.
Proof.
  unfold comesBefore, cheaperFirst.
  destruct (Qle_bool (priceOf a) (priceOf b)) eqn:E; [|discriminate].
  intros _. apply Qle_bool_iff. exact E.
Qed.

Lemma comesBefore_ge sources a b :
  comesBefore sources a b = false -> cheaperFirst b a.
Proof.
  unfold comesBefore, cheaperFirst.
  destruct (Qle_bool (priceOf a) (priceOf b)) eqn:E.
  - destruct (Qle_bool (priceOf b) (priceOf a)) eqn:E'; [|discriminate].
    intros _. apply Qle_bool_iff. exact E'.
  - intros _. apply Qlt_le_weak, Qnot_le_lt.
    intros H. apply Qle_bool_iff in H. congruence.
Qed.

Lemma insertSorted_In sources a l x :
  In x (insertSorted sources a l) -> x = a \/ In x l.
Proof.
  induction l as [|b l IH]; simpl.
  - intros [<-|[]]. left. reflexivity.
  - destruct (comesBefore sources a b); simpl.
    + intros [<-|H]; [left; reflexivity | right; exact H].
    + intros [<-|H]; [right; left; reflexivity|].
      destruct (IH H) as [->|Hl]; [left; reflexivity | right; right; exact Hl].
Qed.

Lemma insertSorted_sorted sources a l :
  StronglySorted cheaperFirst l ->
  StronglySorted cheaperFirst (insertSorted sources a l).
Proof.
  induction 1 as [|b l Hl IH Hb]; simpl.
  - repeat constructor.
  - destruct (comesBefore sources a b) eqn:E.
    + apply comesBefore_le in E.
      constructor; [constructor; assumption|].
      constructor; [exact E|].
      eapply Forall_impl; [exact Hb|].
      intros c Hc. unfold cheaperFirst in *. lra.
    + apply comesBefore_ge in E.
      constructor; [exact IH|].
      apply List.Forall_forall. intros x Hx.
      apply insertSorted_In in Hx as [->|Hx]; [exact E|].
      rewrite List.Forall_forall in Hb. apply Hb. exact Hx.
Qed.

Lemma sortRecords_sorted sources l :
  StronglySorted cheaperFirst (sortRecords sources l).
Proof.
  induction l as [|a l IH]; simpl; [constructor|].
  apply insertSorted_sorted. exact IH.
Qed.

Lemma sorted_take (n : nat) (l : list arrived) :
  StronglySorted cheaperFirst l -> StronglySorted cheaperFirst (take n l).
Proof.
  intros H. revert n. induction H as [|a l Hl IH Ha]; intros [|n]; simpl;
    try constructor.
  - apply IH.
  - apply List.Forall_forall. intros x Hx.
    rewrite List.Forall_forall in Ha. apply Ha.
    apply list_elem_of_In in Hx. apply list_elem_of_In.
    apply (subseteq_take n l). exact Hx.
Qed.

Lemma sorted_lookup (l : list arrived) (i j : nat) a b :
  StronglySorted cheaperFirst l -> (i < j)%nat ->
  l !! i = Some a -> l !! j = Some b -> cheaperFirst a b.
Proof.
  intros H. revert i j. induction H as [|c l Hl IH Hc]; intros i j Hij Hi Hj.
  - discriminate Hi.
  - destruct j as [|j]; [lia|]. simpl in Hj. destruct i as [|i].
    + injection Hi as <-. rewrite List.Forall_forall in Hc. apply Hc.
      apply list_elem_of_In. eapply list_elem_of_lookup_2. exact Hj.
    + simpl in Hi. apply (IH i j); [lia | exact Hi | exact Hj].
Qed.

Lemma assignRanks_lookup (l : list arrived) (i : nat) r :
  assignRanks l !! i = Some r ->
  exists a, l !! i = Some a /\ r = Recommendation (record a) (Z.of_nat i + 1).
Proof.
  unfold assignRanks. rewrite list_lookup_imap.
  destruct (l !! i) as [a|]; simpl; [|discriminate].
  intros [= <-]. exists a. split; reflexivity.
Qed.

Lemma Select_selected cfg records :
  Select normalizeName cfg records =
  assignRanks (selected normalizeName cfg records).
Proof. reflexivity. Qed.

Lemma selected_sorted cfg records :
  sortByPrice cfg = true ->
  StronglySorted cheaperFirst (selected normalizeName cfg records).
Proof.
  intros H. unfold selected. rewrite H. apply sorted_take, sortRecords_sorted.
Qed.

End RankOrder.

Section RankMonotone.
Import Ranker.

Variable normalizeName : string -> string.

Lemma Select_lookup cfg records (i : nat) r :
  Select normalizeName cfg records !! i = Some r ->
  exists a, selected normalizeName cfg records !! i = Some a /\
            recommended r = record a /\ rank r = Z.of_nat i + 1.
Proof.
  rewrite Select_selected. intros H.
  apply assignRanks_lookup in H as (a & Ha & ->).
  exists a. repeat split. exact Ha.
Qed.

Lemma Select_prices cfg records (i j : nat) ri rj :
  sortByPrice cfg = true -> (i < j)%nat ->
  Select normalizeName cfg records !! i = Some ri ->
  Select normalizeName cfg records !! j = Some rj ->
  (price_reference (recommended ri) <= price_reference (recommended rj))%Q.
Proof.
  intros Hsort Hij Hi Hj.
  apply Select_lookup in Hi as (a & Ha & -> & _).
  apply Select_lookup in Hj as (b & Hb & -> & _).
  exact (sorted_lookup _ i j a b (selected_sorted normalizeName cfg records Hsort)
           Hij Ha Hb).
Qed.

(** C2: in the Recommendation list that [Select] returns, the entry at
    position [i] has rank [i + 1], so that ranks are 1-based, unique and
    strictly increasing along the list; when [sortByPrice] is set, for
    all [i < j] the price at position [i] is at most the price at
    position [j], the list read by the optimized-cart page is ranked
    ascending, and the entry at position 0, the one the list view marks
    "CHEAPEST", is the entry of rank 1 that the page looks up and no
    entry is cheaper. *)
Theorem select_rank_order (cfg : selectConfig) (records : list normalizedProduct) :
  let out := Select normalizeName cfg records in
  (forall i r, out !! i = Some r -> rank r = Z.of_nat i + 1) /\
  NoDup (rank <$> out) /\
  (forall i j ri rj, (i < j)%nat -> out !! i = Some ri -> out !! j = Some rj ->
                     rank ri < rank rj) /\
  (sortByPrice cfg = true ->
   (forall i j ri rj, (i < j)%nat -> out !! i = Some ri -> out !! j = Some rj ->
      (price_reference (recommended ri) <= price_reference (recommended rj))%Q) /\
   OptimizedCart.rankedAscending (toCartRecommendation <$> out) /\
   (forall best, PaisaProApp.cheapestBadge out = Some best ->
      rank best = 1 /\
      List.find (fun r => OptimizedCart.rank r =? 1) (toCartRecommendation <$> out)
        = Some (toCartRecommendation best) /\
      forall r, In r out ->
        (price_reference (recommended best) <= price_reference (recommended r))%Q)).
Proof.
  intros out.
  assert (Hrank : forall i r, out !! i = Some r -> rank r = Z.of_nat i + 1).
  { intros i r H. apply Select_lookup in H as (a & _ & _ & H). exact H. }
  split; [exact Hrank|]. split; [|split].
  - apply NoDup_alt. intros i j x. rewrite !list_lookup_fmap.
    destruct (out !! i) as [ri|] eqn:Hi; [|discriminate].
    destruct (out !! j) as [rj|] eqn:Hj; [|discriminate].
    simpl. intros [= <-] [= E].
    rewrite (Hrank i ri Hi), (Hrank j rj Hj) in E. lia.
  - intros i j ri rj Hij Hi Hj.
    rewrite (Hrank i ri Hi), (Hrank j rj Hj). lia.
  - intros Hsort.
    assert (Hprice : forall i j ri rj, (i < j)%nat ->
              out !! i = Some ri -> out !! j = Some rj ->
              (price_reference (recommended ri) <= price_reference (recommended rj))%Q).
    { intros i j ri rj. apply Select_prices. exact Hsort. }
    split; [exact Hprice|]. split.
    + split.
      * intros i r. rewrite list_lookup_fmap.
        destruct (out !! i) as [ri|] eqn:Hi; [|discriminate].
        simpl. intros [= <-]. simpl. apply Hrank. exact Hi.
      * intros i j r r' Hij. rewrite !list_lookup_fmap.
        destruct (out !! i) as [ri|] eqn:Hi; [|discriminate].
        destruct (out !! j) as [rj|] eqn:Hj; [|discriminate].
        simpl. intros [= <-] [= <-]. simpl. exact (Hprice i j ri rj Hij Hi Hj).
    + intros best Hbest. unfold PaisaProApp.cheapestBadge in Hbest.
      destruct out as [|first rest] eqn:Hout; [discriminate|].
      injection Hbest as ->.
      pose proof (Hrank 0%nat best eq_refl) as H1. simpl in H1.
      split; [exact H1|]. split.
      * simpl. rewrite H1. reflexivity.
      * intros r Hr. apply list_elem_of_In, list_elem_of_lookup_1 in Hr as [j Hj].
        destruct j as [|j].
        -- injection Hj as <-. apply Qle_refl.
        -- apply (Hprice 0%nat (S j)); [lia | reflexivity | exact Hj].
Qed.

End RankMonotone.

Lemma select_rank_order_witness :
  Ranker.Select (fun name => name) Ranker.milkConfig Ranker.milkRecords
  = [Ranker.Recommendation
       (Ranker.NormalizedProduct "B" "milk" (Some "https://b.example/milk")
          546 (195 # 100)) 1;
     Ranker.Recommendation
       (Ranker.NormalizedProduct "A" "milk" (Some "https://a.example/milk")
          588 (210 # 100)) 2] /\
  OptimizedCart.rankedAscending
    (Ranker.toCartRecommendation <$>
       Ranker.Select (fun name => name) Ranker.milkConfig Ranker.milkRecords).
Proof.
  split; [reflexivity|].
  exact (proj1 (proj2 (proj2 (proj2 (proj2
           (select_rank_order (fun name => name) Ranker.milkConfig
              Ranker.milkRecords))) eq_refl))).
Defined.

(* ===================================================================== *)
(** * Part III: further properties of the components                      *)
(* ===================================================================== *)

(** ** The rows of the list-creation form (ShoppingList.jsx) *)
Section FormRows.
Import Api ShoppingList.

Lemma delete_keeps_one (l : list item) (index : nat) :
  (1 < length l)%nat -> (0 < length (delete index l))%nat.
Proof.
  destruct l as [|a [|b l]]; simpl; try lia.
  intros _. destruct index; simpl; lia.
Qed.

Lemma step_rows ev s s' :
  (0 < length (newListItems s))%nat -> step ev s = Some s' ->
  (0 < length (newListItems s'))%nat.
Proof.
  intros Hs. destruct ev as [ls|v| |i|i c|i| |u reply]; simpl.
  - intros [= <-]. exact Hs.
  - intros [= <-]. exact Hs.
  - intros [= <-]. simpl. rewrite length_app. simpl. lia.
  - intros [= <-]. unfold handleRemoveItem.
    destruct (1 <? length (newListItems s))%nat eqn:E; [|exact Hs].
    apply Nat.ltb_lt in E. simpl. apply delete_keeps_one. exact E.
  - unfold handleItemChange.
    destruct (newListItems s !! i); simpl; [|discriminate].
    intros [= <-]. simpl. rewrite length_insert. exact Hs.
  - unfold onBlurQuantity, handleItemChange.
    destruct (newListItems s !! i) as [it|] eqn:Hit; simpl; [|discriminate].
    destruct (quantity it) as [|[| |]]; try (intros [= <-]; exact Hs).
    + simpl. intros [= <-]. simpl. rewrite length_insert. exact Hs.
    + simpl. intros [= <-]. simpl. rewrite length_insert. exact Hs.
  - intros [= <-]. simpl. lia.
  - intros [= <-]. rewrite handleCreateList_items. exact Hs.
Qed.

(** X1: the creation form never runs out of rows.  In every state the
    form reaches there is at least one item row; removing a row keeps at
    least one, and on a form with a single row [handleRemoveItem] does
    nothing, whatever the index. *)
Theorem form_keeps_a_row (s : state) :
  reachable s ->
  (0 < length (newListItems s))%nat /\
  (forall index, (0 < length (newListItems (handleRemoveItem index s)))%nat) /\
  (length (newListItems s) = 1%nat -> forall index, handleRemoveItem index s = s).
Proof.
  intros Hr.
  assert (Hrows : forall s, reachable s -> (0 < length (newListItems s))%nat).
  { clear. induction 1 as [|ev s s' _ IH Hstep]; [simpl; lia|].
    eapply step_rows; eassumption. }
  split; [apply Hrows; exact Hr|]. split.
  - intros index. apply Hrows.
    exact (reach_step (RemoveItem index) s _ Hr eq_refl).
  - intros H index. unfold handleRemoveItem. rewrite H. reflexivity.
Qed.

Lemma form_keeps_a_row_witness :
  (0 < length (newListItems typedMinusThree))%nat /\
  handleRemoveItem 0 typedMinusThree = typedMinusThree.
Proof.
  destruct (form_keeps_a_row typedMinusThree typedMinusThree_reachable)
    as (H1 & _ & H3).
  split; [exact H1 | exact (H3 eq_refl 0%nat)].
Defined.

(** X2: [handleCreateList] redirects to the list overview exactly when
    the list name is not blank, some row passes the filter, the user has
    an id and the create request is answered ok with a body that parses;
    then the error is empty.  In every other case it sets an error
    message and does not redirect.  In all cases the typed list name,
    the rows and the stored lists are kept as they were. *)
Theorem handleCreateList_redirect (u : option user)
    (reply : JS.fetched createBody) (s : state) :
  let o := handleCreateList u reply s in
  (navigated o = Some "/my-shopping-lists" <->
   (JS.nonBlank (newListName s) = true /\
    List.filter isValidItem (newListItems s) <> [] /\
    hasId u = true /\
    exists data, reply = JS.Resp true (inr data))) /\
  (navigated o = None <-> error (next o) <> "") /\
  (navigated o = None \/ navigated o = Some "/my-shopping-lists") /\
  newListName (next o) = newListName s /\
  newListItems (next o) = newListItems s /\
  lists (next o) = lists s.
Proof.
  intros o. subst o. unfold handleCreateList.
  change (newListName (setError s "")) with (newListName s).
  change (newListItems (setError s "")) with (newListItems s).
  assert (Hmsg : forall m d, d <> "" -> JS.orElse m d <> "")
    by (intros; apply orElse_nonempty; assumption).
  destruct (JS.nonBlank (newListName s)) eqn:Hname;
    [destruct (List.filter isValidItem (newListItems s)) as [|it l] eqn:Hf;
     [|destruct u as [usr|];
       [cbn [hasId]; destruct (negb (id usr =? 0)) eqn:Hid;
        [destruct reply as [m|[|] [m|d]]|]|]]|];
    cbn [navigated next error setError setLoading newListName newListItems lists
         length Nat.eqb negb];
    (split; [split; [intros H | intros (H1 & H2 & H3 & data & H4)]
            |split; [split; [intros H | intros H]
                    |split; [|repeat split]]]);
    try discriminate; try congruence; try reflexivity;
    try (left; reflexivity); try (right; reflexivity);
    try (apply Hmsg; discriminate).
  repeat split; [discriminate | eexists; reflexivity].
Qed.

End FormRows.

(** ** Selecting sources in the price-comparison views *)
Section SourceSelection.

Lemma existsb_eqb_In (x : string) (l : list string) :
  existsb (String.eqb x) l = true <-> In x l.
Proof.
  rewrite existsb_exists. split.
  - intros (y & Hy & E). apply String.eqb_eq in E. subst y. exact Hy.
  - intros H. exists x. split; [exact H | apply String.eqb_refl].
Qed.

Lemma toggled_In (sourceId x : string) (prev : list string) :
  In x (if existsb (String.eqb sourceId) prev
        then List.filter (fun y => negb (String.eqb y sourceId)) prev
        else prev ++ [sourceId]) <->
  (x = sourceId /\ ~ In sourceId prev) \/ (x <> sourceId /\ In x prev).
Proof.
  destruct (existsb (String.eqb sourceId) prev) eqn:E.
  - apply existsb_eqb_In in E. rewrite List.filter_In, negb_true_iff, String.eqb_neq.
    split.
    + intros [H1 H2]. right. split; assumption.
    + intros [[-> H]|[H1 H2]]; [contradiction | split; assumption].
  - assert (Hn : ~ In sourceId prev).
    { intros H. apply existsb_eqb_In in H. congruence. }
    rewrite List.in_app_iff. simpl. split.
    + intros [H|[<-|[]]].
      * right. split; [|exact H]. intros ->. contradiction.
      * left. split; [reflexivity | exact Hn].
    + intros [[-> _]|[_ H]]; [right; left; reflexivity | left; exact H].
Qed.

Lemma toggled_NoDup (sourceId : string) (prev : list string) :
  NoDup prev ->
  NoDup (if existsb (String.eqb sourceId) prev
         then List.filter (fun y => negb (String.eqb y sourceId)) prev
         else prev ++ [sourceId]).
Proof.
  intros Hnd. destruct (existsb (String.eqb sourceId) prev) eqn:E.
  - apply NoDup_ListNoDup, List.NoDup_filter, NoDup_ListNoDup. exact Hnd.
  - apply NoDup_app. split; [exact Hnd|]. split.
    + intros x Hx Hx'. apply list_elem_of_In in Hx.
      apply list_elem_of_In in Hx'. destruct Hx' as [<-|[]].
      apply existsb_eqb_In in Hx. congruence.
    + apply NoDup_singleton.
Qed.

Lemma filter_absent (sourceId : string) (prev : list string) :
  ~ In sourceId prev ->
  List.filter (fun y => negb (String.eqb y sourceId)) prev = prev.
Proof.
  induction prev as [|y prev IH]; simpl; [reflexivity|].
  intros H. destruct (String.eqb_spec y sourceId) as [->|Hne]; simpl.
  - exfalso. apply H. left. reflexivity.
  - rewrite IH; [reflexivity|]. intros Hin. apply H. right. exact Hin.
Qed.

(** X3: [toggleSource] of the price-comparison page flips the selection
    of the given source and of no other: afterwards the source is
    selected exactly if it was not before, every other source is
    selected exactly if it was.  A selection without repetition stays
    without repetition, the rest of the state is untouched, and toggling
    a source that was not selected twice in a row restores the state. *)
Theorem toggleSource_flips (sourceId : string) (s : PriceComparison.state) :
  let s' := PriceComparison.toggleSource sourceId s in
  (In sourceId (PriceComparison.sources s') <->
   ~ In sourceId (PriceComparison.sources s)) /\
  (forall x, x <> sourceId ->
     (In x (PriceComparison.sources s') <-> In x (PriceComparison.sources s))) /\
  (NoDup (PriceComparison.sources s) -> NoDup (PriceComparison.sources s')) /\
  (PriceComparison.query s' = PriceComparison.query s /\
   PriceComparison.products s' = PriceComparison.products s /\
   PriceComparison.error s' = PriceComparison.error s /\
   PriceComparison.topN s' = PriceComparison.topN s /\
   PriceComparison.loading s' = PriceComparison.loading s /\
   PriceComparison.sortByPrice s' = PriceComparison.sortByPrice s /\
   PriceComparison.equalDistribution s'
     = PriceComparison.equalDistribution s) /\
  (~ In sourceId (PriceComparison.sources s) ->
   PriceComparison.toggleSource sourceId s' = s).
Proof.
  intros s'. subst s'. unfold PriceComparison.toggleSource.
  cbn [PriceComparison.sources PriceComparison.query PriceComparison.products
       PriceComparison.error PriceComparison.topN PriceComparison.loading
       PriceComparison.sortByPrice PriceComparison.equalDistribution].
  split; [|split; [|split; [|split]]].
  - rewrite toggled_In. split.
    + intros [[_ H]|[H _]]; [exact H | congruence].
    + intros H. left. split; [reflexivity | exact H].
  - intros x Hx. rewrite toggled_In. split.
    + intros [[H _]|[_ H]]; [congruence | exact H].
    + intros H. right. split; assumption.
  - apply toggled_NoDup.
  - repeat split.
  - intros Hn.
    assert (E : existsb (String.eqb sourceId) (PriceComparison.sources s) = false).
    { destruct (existsb _ _) eqn:E; [|reflexivity].
      apply existsb_eqb_In in E. contradiction. }
    rewrite E.
    assert (E' : existsb (String.eqb sourceId)
                   (PriceComparison.sources s ++ [sourceId]) = true).
    { apply existsb_eqb_In, List.in_app_iff. right. left. reflexivity. }
    rewrite E'. rewrite List.filter_app, filter_absent by exact Hn.
    simpl. rewrite String.eqb_refl. simpl. rewrite app_nil_r.
    destruct s; reflexivity.
Qed.

(** X4: the standalone view is the page with a [parallel] switch.  Seen
    through [asPage], toggling a source in the standalone view is
    toggling it in the page; with [parallel] set both views build the
    same URL parameters; and a search leaves both views with the same
    query, product list, loading flag and selection, and, unless the
    reply is a response that is not ok (where only the wording of the
    message differs), with the same error. *)
Theorem standalone_view_matches_page (sourceId : string)
    (reply : JS.fetched JS.val) (a : PriceComparisonApp.state) :
  Views.asPage (PriceComparisonApp.toggleSource sourceId a)
    = PriceComparison.toggleSource sourceId (Views.asPage a) /\
  (PriceComparisonApp.parallel a = true ->
   PriceComparisonApp.searchParams a
     = PriceComparison.searchParams (Views.asPage a)) /\
  (let v := PriceComparison.next
              (PriceComparison.handleSearch reply (Views.asPage a)) in
   let w := Views.asPage
              (PriceComparisonApp.next (PriceComparisonApp.handleSearch reply a)) in
   PriceComparison.query w = PriceComparison.query v /\
   PriceComparison.products w = PriceComparison.products v /\
   PriceComparison.loading w = PriceComparison.loading v /\
   PriceComparison.sources w = PriceComparison.sources v /\
   (PriceComparison.error w = "" <-> PriceComparison.error v = "") /\
   ((forall body, reply <> JS.Resp false body) -> w = v)) /\
  (PriceComparisonApp.sent (PriceComparisonApp.handleSearch reply a) = [] <->
   PriceComparison.sent (PriceComparison.handleSearch reply (Views.asPage a)) = []).
Proof.
  split; [reflexivity|]. split.
  - intros Hp. unfold PriceComparisonApp.searchParams, PriceComparison.searchParams.
    rewrite Hp. reflexivity.
  - unfold PriceComparisonApp.handleSearch, PriceComparison.handleSearch.
    change (PriceComparison.query (Views.asPage a))
      with (PriceComparisonApp.query a).
    destruct (JS.nonBlank (PriceComparisonApp.query a));
      [destruct reply as [m|[|] [m|d]]|]; simpl;
      (split; [repeat split|split; intros H; discriminate H || reflexivity]);
      try reflexivity; try discriminate;
      try (intros _; reflexivity);
      try (intros H; exfalso; eapply H; reflexivity);
      try (intros H; exact H).
Qed.

End SourceSelection.

(** ** The product cards of the two views *)
Section ProductCards.
Import Card Samples.

Lemma page_card_without_price (p : JS.val) :
  (forall q, JS.get p "price_usd" <> Some (JS.Num q)) ->
  PriceComparison.productCard p = None.
Proof.
  intros H. unfold PriceComparison.productCard.
  destruct (JS.get p "source" ≫= sourceName); [|reflexivity]. simpl.
  destruct (JS.get p "name" ≫= child); [|reflexivity]. simpl.
  destruct (JS.get p "price_usd") as [[]|]; try reflexivity.
  exfalso. eapply H. reflexivity.
Qed.

Lemma app_card_without_price (p : JS.val) :
  (forall q, JS.get p "price_usd" <> Some (JS.Num q)) ->
  PriceComparisonApp.productCard p = None.
Proof.
  intros H. unfold PriceComparisonApp.productCard.
  destruct (JS.get p "source" ≫= sourceName); [|reflexivity]. simpl.
  destruct (JS.get p "name" ≫= child); [|reflexivity]. simpl.
  destruct (JS.get p "price_pkr" ≫= localeString); [|reflexivity]. simpl.
  destruct (JS.get p "price_usd") as [[]|]; try reflexivity.
  exfalso. eapply H. reflexivity.
Qed.

(** X5: the result list is drawn in full or not at all.  When one
    product of the reply has no numeric [price_usd] (the value
    [toFixed] is called on), neither view draws any card, however many
    well-formed products the reply holds; and when cards are drawn,
    there is one per product, in the order of the reply. *)
Theorem one_bad_product_blanks_results (l : list JS.val) (p : JS.val) :
  In p l ->
  (forall q, JS.get p "price_usd" <> Some (JS.Num q)) ->
  PriceComparison.resultCards (JS.Arr l) = None /\
  PriceComparisonApp.resultCards (JS.Arr l) = None /\
  (forall l' cards,
     PriceComparison.resultCards (JS.Arr l') = Some cards ->
     Forall2 (fun p c => PriceComparison.productCard p = Some c) l' cards) /\
  (forall l' cards,
     PriceComparisonApp.resultCards (JS.Arr l') = Some cards ->
     Forall2 (fun p c => PriceComparisonApp.productCard p = Some c) l' cards).
Proof.
  intros Hin Hp. unfold PriceComparison.resultCards,
    PriceComparisonApp.resultCards, mapProducts.
  split; [|split; [|split]].
  - apply mapM_None_2, List.Exists_exists. exists p.
    split; [exact Hin | apply page_card_without_price; exact Hp].
  - apply mapM_None_2, List.Exists_exists. exists p.
    split; [exact Hin | apply app_card_without_price; exact Hp].
  - intros l' cards. apply mapM_Some_1.
  - intros l' cards. apply mapM_Some_1.
Qed.

(** A product whose price could not be read. *)
Lemma one_bad_product_blanks_results_witness :
  PriceComparison.resultCards
    (JS.Arr [milk; JS.Obj [("source", JS.Str "Imtiaz"); ("name", JS.Str "Milk");
                           ("price_pkr", JS.Null); ("price_usd", JS.Null);
                           ("url", JS.Str "N/A")]]) = None.
Proof.
  refine (proj1 (one_bad_product_blanks_results _
                   (JS.Obj [("source", JS.Str "Imtiaz"); ("name", JS.Str "Milk");
                            ("price_pkr", JS.Null); ("price_usd", JS.Null);
                            ("url", JS.Str "N/A")]) _ _)).
  - right. left. reflexivity.
  - intros q H. discriminate H.
Defined.

(** X6: the page draws the "View Product" link only for a URL that is a
    string starting with "http", and then the link points to that URL;
    when it draws the card without the link, the URL is falsy or a
    string that does not start with "http".  The standalone view only
    excludes the marker 'N/A': any other URL, of whatever scheme, becomes
    a link. *)
Theorem page_link_is_http (product : JS.val) (c : card) :
  PriceComparison.productCard product = Some c ->
  (forall target, cardLink c = Some target ->
     exists u, target = JS.Str u /\ JS.get product "url" = Some (JS.Str u) /\
               JS.startsWith "http" u = true) /\
  (cardLink c = None ->
     exists url, JS.get product "url" = Some url /\
       (JS.truthy url = false \/
        exists u, url = JS.Str u /\ JS.startsWith "http" u = false)) /\
  (forall c', PriceComparisonApp.productCard product = Some c' ->
     exists url, JS.get product "url" = Some url /\
       cardLink c' = (if JS.differsFrom url "N/A" then Some url else None)).
Proof.
  unfold PriceComparison.productCard, PriceComparisonApp.productCard.
  destruct (JS.get product "source" ≫= sourceName) as [src|]; [|discriminate].
  destruct (JS.get product "name" ≫= child) as [name|]; [|discriminate].
  destruct (JS.get product "price_usd" ≫= fixedNumber) as [usd|]; [|discriminate].
  cbn [mbind option_bind].
  destruct (JS.get product "price_pkr" ≫= fixedNumber) as [pkr|]; [|discriminate].
  cbn [mbind option_bind].
  destruct (JS.get product "url") as [url|]; [|discriminate].
  cbn [mbind option_bind]. unfold PriceComparison.showsLink.
  intros H. split; [|split].
  - intros target Ht.
    destruct (JS.truthy url) eqn:Htruthy;
      [destruct (JS.differsFrom url "N/A") eqn:Hd; [destruct url|]|];
      cbn [mbind option_bind] in H; try discriminate H;
      injection H as <-; cbn [cardLink] in Ht; try discriminate Ht.
    destruct (JS.startsWith "http" s) eqn:Hs; [|discriminate Ht].
    injection Ht as <-. exists s. repeat split. exact Hs.
  - intros Hnone. exists url. split; [reflexivity|].
    destruct (JS.truthy url) eqn:Htruthy; [|left; reflexivity].
    right.
    destruct (JS.differsFrom url "N/A") eqn:Hd.
    + destruct url; cbn [mbind option_bind] in H; try discriminate H.
      injection H as <-. cbn [cardLink] in Hnone.
      destruct (JS.startsWith "http" s) eqn:Hs; [discriminate Hnone|].
      exists s. split; [reflexivity | exact Hs].
    + destruct url as [| | | |s| |]; try discriminate Hd.
      simpl in Hd. apply negb_false_iff, String.eqb_eq in Hd. subst s.
      exists "N/A". split; reflexivity.
  - intros c'.
    destruct (JS.get product "price_pkr" ≫= localeString); [|discriminate].
    cbn [mbind option_bind]. intros [= <-]. exists url. split; reflexivity.
Qed.

Lemma page_link_is_http_witness :
  exists u, JS.Str "https://www.daraz.pk/milk" = JS.Str u /\
            JS.get milk "url" = Some (JS.Str u) /\
            JS.startsWith "http" u = true.
Proof.
  exact (proj1 (page_link_is_http milk milkCard eq_refl)
           (JS.Str "https://www.daraz.pk/milk") eq_refl).
Defined.

End ProductCards.

(** ** Loading the lists and marking them purchased (MyShoppingLists.jsx) *)
Section ListsPage.
Import Api MyShoppingLists.

(** The rows whose items are all purchased. *)
Lemma fullyPurchased_fold (ls : list listSummary) (acc : gset Z) (x : Z) :
  x ∈ foldl (fun acc l =>
               if (0 <? item_count l) && (purchased_count l =? item_count l)
               then acc ∪ {[ list_id l ]} else acc) acc ls <->
  x ∈ acc \/
  exists l, In l ls /\ list_id l = x /\
            0 < item_count l /\ purchased_count l = item_count l.
Proof.
  revert acc. induction ls as [|l ls IH]; intros acc; simpl.
  - split; [tauto|]. intros [H|(l & [] & _)]. exact H.
  - rewrite IH. clear IH.
    destruct ((0 <? item_count l) && (purchased_count l =? item_count l)) eqn:E.
    + apply andb_prop in E as [E1 E2].
      apply Z.ltb_lt in E1. apply Z.eqb_eq in E2.
      rewrite elem_of_union, elem_of_singleton. split.
      * intros [[H| ->]|(l' & Hin & H)].
        -- left. exact H.
        -- right. exists l. repeat split; try assumption. left. reflexivity.
        -- right. exists l'. split; [right; exact Hin | exact H].
      * intros [H|(l' & [<-|Hin] & Hx & H)].
        -- left. left. exact H.
        -- left. right. symmetry. exact Hx.
        -- right. exists l'. repeat split; try assumption; apply H.
    + split.
      * intros [H|(l' & Hin & H)]; [left; exact H|].
        right. exists l'. split; [right; exact Hin | exact H].
      * intros [H|(l' & [<-|Hin] & Hx & H1 & H2)]; [left; exact H| |].
        -- exfalso. apply Z.ltb_lt in H1. apply Z.eqb_eq in H2.
           rewrite H1, H2 in E. discriminate E.
        -- right. exists l'. repeat split; assumption.
Qed.

Lemma fullyPurchased_spec (ls : list listSummary) (x : Z) :
  x ∈ fullyPurchased ls <->
  exists l, In l ls /\ list_id l = x /\
            0 < item_count l /\ purchased_count l = item_count l.
Proof.
  unfold fullyPurchased. rewrite fullyPurchased_fold. split.
  - intros [H|H]; [|exact H]. exfalso. exact (not_elem_of_empty x H).
  - intros H. right. exact H.
Qed.

(** X7: after a successful [loadLists] the page shows the rows of the
    reply (none when the reply has no [lists]) and treats as purchased
    exactly the lists that have at least one item and as many purchased
    items as items, whatever was marked purchased before; the error is
    cleared and loading has ended. *)
Theorem loadLists_marks_purchased (u : user) (data : listsBody) (s : state) :
  lists_success data = true ->
  let o := loadLists u (JS.Resp true (inr data)) s in
  lists (next o) = default [] (lists_rows data) /\
  (forall x, x ∈ purchasedLists (next o) <->
     exists l, In l (default [] (lists_rows data)) /\ list_id l = x /\
               0 < item_count l /\ purchased_count l = item_count l) /\
  error (next o) = "" /\ loading (next o) = false /\
  sent o = [GetUserLists (id u)].
Proof.
  intros Hs o. subst o. unfold loadLists. rewrite Hs.
  cbn [next sent lists purchasedLists error loading setLoading
       setListsAndPurchased setError].
  repeat split; try reflexivity.
  - apply fullyPurchased_spec.
  - apply fullyPurchased_spec.
Qed.

Lemma loadLists_marks_purchased_witness :
  4 ∈ purchasedLists
        (next (loadLists (User 7)
                 (JS.Resp true
                    (inr (ListsBody true (Some [ListSummary 4 "Weekly" 2 2]) "")))
                 confirming)).
Proof.
  apply (proj1 (proj2 (loadLists_marks_purchased (User 7)
                         (ListsBody true (Some [ListSummary 4 "Weekly" 2 2]) "")
                         confirming eq_refl))).
  exists (ListSummary 4 "Weekly" 2 2).
  repeat split. left. reflexivity.
Defined.

(** X8: [loadLists] either succeeds or reports: the error is empty after
    it exactly when the reply was ok, parsed, and had [success] set.
    When it reports an error, the rows shown and the lists marked
    purchased stay what they were.  In every case one request was sent
    and loading has ended. *)
Theorem loadLists_failure_keeps (u : user) (reply : JS.fetched listsBody)
    (s : state) :
  let o := loadLists u reply s in
  (error (next o) = "" <->
   exists data, reply = JS.Resp true (inr data) /\ lists_success data = true) /\
  (error (next o) <> "" ->
   lists (next o) = lists s /\ purchasedLists (next o) = purchasedLists s) /\
  loading (next o) = false /\
  sent o = [GetUserLists (id u)].
Proof.
  intros o. subst o. unfold loadLists.
  assert (Hmsg : forall m d, d <> "" -> JS.orElse m d <> "")
    by (intros; apply orElse_nonempty; assumption).
  destruct reply as [m|[|] [m|data]];
    [| |destruct (lists_success data) eqn:Hs| |];
    cbn [next sent lists purchasedLists error loading setLoading
         setListsAndPurchased setError];
    (split; [split; [intros H | intros (d & H1 & H2)]|]);
    try (exfalso; revert H; apply Hmsg; discriminate);
    try discriminate; try congruence; try reflexivity;
    try (repeat split; reflexivity).
  - exists data. split; [reflexivity | exact Hs].
  - split; [|split; reflexivity]. intros H'. exfalso. apply H'. reflexivity.
Qed.

End ListsPage.

(** ** The order of the requests of a purchase confirmation *)
Section PurchaseOrder.
Import Api MyShoppingLists.

Lemma confirm_flags u today te er pr acc lr s :
  loading (next (confirmPurchaseAll u today te er pr acc lr s)) = false /\
  showConfirmModal (next (confirmPurchaseAll u today te er pr acc lr s)) = false.
Proof.
  unfold confirmPurchaseAll. destruct (confirmData s) as [listId listName].
  assert (Hload : forall s0, showConfirmModal s0 = false ->
            showConfirmModal (next (loadLists u lr s0)) = false).
  { intros s0 H0. unfold loadLists.
    destruct lr as [m|[|] [m|data]]; try exact H0.
    destruct (lists_success data); exact H0. }
  destruct er as [m|ok [m|body]]; try (split; reflexivity).
  destruct pr as [m|[|] reply]; try (split; reflexivity).
  - destruct body as [data|]; [|split; reflexivity].
    destruct (expense_success data && JS.greaterThanZero (expense_amount data)).
    + destruct acc; (split; [reflexivity|]); cbn [next showConfirmModal setLoading];
        apply Hload; reflexivity.
    + destruct (expense_success data && JS.strictlyZero (expense_amount data));
        (split; [reflexivity|]); cbn [next showConfirmModal setLoading];
        apply Hload; reflexivity.
  - destruct reply as [m|[]]; split; reflexivity.
Qed.

(** X9: [confirmPurchaseAll] asks for the expense data first and marks
    nothing purchased without a reply to it: the purchase-all request is
    sent exactly when the expense-data reply arrived and parsed (be it
    to [null]), and it comes second; the lists are loaded again exactly
    when purchase-all was answered ok and the expense data is not
    [null], as the last request.  In every other case the error names
    the failure, one alert is raised and the rows and purchased marks
    stay as they were.  The dialog is closed and loading has ended in
    every case. *)
Theorem purchase_requests_in_order (u : user) (today typeError : string)
    (er : JS.fetched (option expenseData)) (pr : JS.fetched unit) (acc : bool)
    (lr : JS.fetched listsBody) (s : state) :
  let o := confirmPurchaseAll u today typeError er pr acc lr s in
  let listId := fst (confirmData s) in
  let gotReply := exists ok body, er = JS.Resp ok (inr body) in
  let gotData := exists ok data, er = JS.Resp ok (inr (Some data)) in
  let purchased := exists reply, pr = JS.Resp true reply in
  head (sent o) = Some (GetExpenseData listId) /\
  (In (PostPurchaseAll listId (id u)) (sent o) <-> gotReply) /\
  (gotReply -> sent o !! 1%nat = Some (PostPurchaseAll listId (id u))) /\
  (In (GetUserLists (id u)) (sent o) <-> gotData /\ purchased) /\
  (gotData /\ purchased -> last (sent o) = Some (GetUserLists (id u))) /\
  (~ (gotData /\ purchased) ->
   error (next o) <> "" /\
   alerts o = [PurchaseFailed (error (next o))] /\
   lists (next o) = lists s /\ purchasedLists (next o) = purchasedLists s) /\
  loading (next o) = false /\ showConfirmModal (next o) = false.
Proof.
  intros o listId gotReply gotData purchased.
  subst o listId gotReply gotData purchased.
  split; [|split; [|split; [|split; [|split; [|split]]]]];
    try apply confirm_flags.
  1-5: rewrite sent_confirmPurchaseAll;
    destruct (confirmData s) as [listId listName]; cbn [fst].
  - destruct er as [m|ok [m|body]]; try reflexivity.
    destruct pr as [m|[|] reply]; try reflexivity.
    destruct body as [data|]; [destruct (_ && _)|]; reflexivity.
  - destruct er as [m|ok [m|body]].
    + split; [intros [H|[]]; discriminate H | intros (? & ? & H); discriminate H].
    + split; [intros [H|[]]; discriminate H | intros (? & ? & H); discriminate H].
    + split; [intros _; eexists; eexists; reflexivity|]. intros _.
      destruct pr as [m|[|] reply]; [right; left; reflexivity | |right; left; reflexivity].
      destruct body as [data|]; [destruct (_ && _)|]; right; left; reflexivity.
  - intros (ok & body & ->).
    destruct pr as [m|[|] reply]; try reflexivity.
    destruct body as [data|]; [destruct (_ && _)|]; reflexivity.
  - destruct er as [m|ok [m|body]].
    + split; [intros [H|[]]; discriminate H | intros [(? & ? & H) _]; discriminate H].
    + split; [intros [H|[]]; discriminate H | intros [(? & ? & H) _]; discriminate H].
    + destruct pr as [m|[|] reply].
      * split; [intros [H|[H|[]]]; discriminate H | intros [_ (? & H)]; discriminate H].
      * destruct body as [data|].
        -- split.
           ++ intros _. split; eexists; try eexists; reflexivity.
           ++ intros _. destruct (_ && _); simpl; tauto.
        -- split; [intros [H|[H|[]]]; discriminate H
                  |intros [(? & ? & H) _]; discriminate H].
      * split; [intros [H|[H|[]]]; discriminate H | intros [_ (? & H)]; discriminate H].
  - intros [(ok & data & ->) (reply & ->)].
    destruct (_ && _); reflexivity.
  - intros Hfail. unfold confirmPurchaseAll.
    destruct (confirmData s) as [listId listName].
    assert (Hmsg : forall m, JS.orElse m "Failed to purchase all items" <> "")
      by (intros; apply orElse_nonempty; discriminate).
    destruct er as [m|ok [m|body]];
      try (cbn [next alerts error lists purchasedLists setLoading setError
                setShowConfirmModal]; repeat split; apply Hmsg).
    destruct pr as [m|[|] reply];
      try (cbn [next alerts error lists purchasedLists setLoading setError
                setShowConfirmModal]; repeat split; apply Hmsg).
    + destruct body as [data|].
      * exfalso. apply Hfail. split; eexists; try eexists; reflexivity.
      * cbn [next alerts error lists purchasedLists setLoading setError
             setShowConfirmModal]; repeat split; apply Hmsg.
    + destruct reply as [m|[]];
        cbn [next alerts error lists purchasedLists setLoading setError
             setShowConfirmModal]; repeat split; apply Hmsg.
Qed.

End PurchaseOrder.

Section PurchaseMark.
Import Api MyShoppingLists.



End PurchaseMark.

(** ** The savings loop of the optimized-cart page *)
Section SavingsLoop.
Import OptimizedCart.

Lemma addItemSavings_skips (item : cartItem) (acc : Double.double) :
  contributes item = false -> addItemSavings acc item = acc.
Proof.
  unfold contributes, addItemSavings.
  destruct (recommendations item) as [recs|]; [|reflexivity].
  destruct (1 <? length recs)%nat; [|reflexivity].
  destruct (List.find _ recs); [|reflexivity].
  destruct (List.find _ recs); [discriminate | reflexivity].
Qed.

Lemma fold_addItemSavings_filter (l : list cartItem) (acc : Double.double) :
  fold_left addItemSavings l acc
  = fold_left addItemSavings (List.filter contributes l) acc.
Proof.
  revert acc. induction l as [|a l IH]; intros acc; simpl; [reflexivity|].
  destruct (contributes a) eqn:E; simpl.
  - apply IH.
  - rewrite (addItemSavings_skips a acc E). apply IH.
Qed.

Lemma fold_addItemSavings_same (l l' : list cartItem) (acc : Double.double) :
  Forall2 (fun a b => recommendations a = recommendations b /\
                      item_quantity a = item_quantity b) l l' ->
  fold_left addItemSavings l acc = fold_left addItemSavings l' acc.
Proof.
  intros H. revert acc. induction H as [|a b l l' [Hr Hq] _ IH]; intros acc;
    simpl; [reflexivity|].
  rewrite IH. f_equal. unfold addItemSavings, quantityOf. rewrite Hr, Hq.
  reflexivity.
Qed.

(** X11: what the layout of the cart does to the potential savings.
    The items for which the callback adds nothing (no recommendations,
    fewer than two, or no entry of rank 1 or of rank 2) can stand
    anywhere: the result is that of the cart without them.  Of an item
    only the recommendations and the quantity count: its status (a
    purchased item is still counted), name and id do not.  The order of
    the items that contribute does matter, since every addition of
    doubles is rounded: there are carts with the same items in another
    order whose savings differ. *)
Theorem savings_and_layout (data data' : cartData) (l l' : list cartItem) :
  items data = Some l -> items data' = Some l' ->
  calculatePotentialSavingsUSD (Some data)
    = fold_left addItemSavings (List.filter contributes l) Double.zero /\
  (List.filter contributes l = List.filter contributes l' ->
   calculatePotentialSavingsUSD (Some data) =
   calculatePotentialSavingsUSD (Some data')) /\
  (Forall2 (fun a b => recommendations a = recommendations b /\
                       item_quantity a = item_quantity b) l l' ->
   calculatePotentialSavingsUSD (Some data) =
   calculatePotentialSavingsUSD (Some data')) /\
  ~ (forall d d' k k', items d = Some k -> items d' = Some k' ->
       Permutation k k' ->
       calculatePotentialSavingsUSD (Some d) =
       calculatePotentialSavingsUSD (Some d')).
Proof.
  intros Hl Hl'. unfold calculatePotentialSavingsUSD at 1 2 3 4 5.
  rewrite Hl, Hl'.
  split; [apply fold_addItemSavings_filter|]. split; [|split].
  - intros E. rewrite (fold_addItemSavings_filter l), (fold_addItemSavings_filter l'), E.
    reflexivity.
  - apply fold_addItemSavings_same.
  - intros H.
    specialize (H (CartData true "" "" (Some [milkItem; riceItem; oilItem]) None None)
                  (CartData true "" "" (Some [oilItem; riceItem; milkItem]) None None)
                  _ _ eq_refl eq_refl).
    assert (Hp : Permutation [milkItem; riceItem; oilItem]
                             [oilItem; riceItem; milkItem]).
    { apply Permutation_rev. }
    specialize (H Hp). vm_compute in H. discriminate H.
Qed.

Lemma savings_and_layout_witness :
  calculatePotentialSavingsUSD (Some sampleCart)
  = calculatePotentialSavingsUSD
      (Some (CartData true "" "Weekly" (Some [uncoveredItem; milkItem]) None None)).
Proof.
  refine (proj1 (proj2 (savings_and_layout sampleCart
                   (CartData true "" "Weekly" (Some [uncoveredItem; milkItem])
                             None None)
                   [milkItem; uncoveredItem] [uncoveredItem; milkItem]
                   eq_refl eq_refl)) _).
  reflexivity.
Defined.

End SavingsLoop.

(** ** Loading the optimized cart *)
Section CartLoading.
Import Api OptimizedCart OptimizedCartForm.

(** X12: [loadOptimizedCart] looks at the body only.  The HTTP status of
    the reply plays no part; the cart is replaced and the error cleared
    exactly when the body parses and has [success] set, and otherwise an
    error is shown and the cart loaded before is kept.  The explicit
    refresh ends with the same cart, error and loading flag as a plain
    load, with [refreshing] cleared; neither touches the add-item
    form. *)
Theorem loadOptimizedCart_by_body (listId : Z)
    (reply : JS.fetched cartData) (s : state) :
  let o := loadOptimizedCart listId reply s in
  let r := handleRefreshPrices listId reply s in
  (forall ok ok' body,
     loadOptimizedCart listId (JS.Resp ok body) s
     = loadOptimizedCart listId (JS.Resp ok' body) s) /\
  (error (next o) = "" <->
   exists ok data, reply = JS.Resp ok (inr data) /\ success data = true /\
                   cart (next o) = Some data) /\
  (error (next o) <> "" -> cart (next o) = cart s) /\
  loading (next o) = false /\
  (cart (next r) = cart (next o) /\ error (next r) = error (next o) /\
   loading (next r) = loading (next o) /\ refreshing (next r) = false) /\
  (newItem (next o) = newItem s /\ showAddItem (next o) = showAddItem s /\
   newItem (next r) = newItem s /\ showAddItem (next r) = showAddItem s).
Proof.
  intros o r. subst o r. split; [reflexivity|].
  unfold handleRefreshPrices, loadOptimizedCart.
  assert (Hmsg : forall m d, d <> "" -> JS.orElse m d <> "")
    by (intros; apply orElse_nonempty; assumption).
  destruct reply as [m|ok [m|data]]; [| |destruct (success data) eqn:Hs];
    cbn [next cart error loading refreshing newItem showAddItem setLoad
         setRefreshing];
    (split; [split; [intros H | intros (ok' & d & H1 & H2 & H3)]|]);
    try discriminate; try congruence;
    try (repeat split; reflexivity).
  - exists ok, data. repeat split. exact Hs.
  - repeat split. intros H'. exfalso. apply H'. reflexivity.
  - exfalso. revert H. apply Hmsg. discriminate.
Qed.

Lemma quantityInput_nonzero (value : string) : quantityInput value <> 0.
Proof.
  unfold quantityInput. destruct (JS.parseInt (JS.VStr value)) as [|n]; [lia|].
  simpl. destruct (Z.eqb_spec n 0); simpl; lia.
Qed.

Lemma reachable_quantity (s : state) :
  OptimizedCartForm.reachable s ->
  exists n, quantity (newItem s) = QNum n /\ n <> 0.
Proof.
  induction 1 as [|ev s _ IH].
  - exists 1. split; [reflexivity | lia].
  - destruct ev as [listId reply|listId reply|v|v| | |u listId addReply reply];
      simpl; try exact IH.
    + unfold loadOptimizedCart.
      destruct reply as [m|ok [m|data]]; [| |destruct (success data)]; exact IH.
    + unfold handleRefreshPrices, loadOptimizedCart.
      destruct reply as [m|ok [m|data]]; [| |destruct (success data)]; exact IH.
    + exists (quantityInput v). split; [reflexivity | apply quantityInput_nonzero].
    + unfold handleAddItem.
      destruct (negb (JS.nonBlank (product_name (newItem s)))); [exact IH|].
      destruct addReply as [m|ok [m|d]]; try exact IH.
      destruct (add_success d); [|exact IH].
      unfold loadOptimizedCart.
      destruct reply as [m|ok' [m|data]]; [| |destruct (success data)];
        (exists 1; split; [reflexivity | lia]).
Qed.

(** X13: [handleAddItem] sends nothing for a blank product name and
    leaves the page as it is.  Otherwise it posts the typed item once,
    name as typed and quantity a non-zero integer (the quantity field
    falls back to 1); when the service reports success the form is reset
    and hidden and the cart is read again, and in every other case the
    typed item is kept, one alert is raised, and nothing is read again.
    [addingItem] is cleared in both cases. *)
Theorem handleAddItem_behaviour (u : user) (listId : Z)
    (addReply : JS.fetched addBody) (reply : JS.fetched cartData) (s : state) :
  OptimizedCartForm.reachable s ->
  let o := handleAddItem u listId addReply reply s in
  let added := exists ok d, addReply = JS.Resp ok (inr d) /\ add_success d = true in
  (JS.whitespaceOnly (product_name (newItem s)) -> o = Outcome s [] []) /\
  (~ JS.whitespaceOnly (product_name (newItem s)) ->
   (exists n, n <> 0 /\
      head (sent o) =
        Some (PostCartItems listId (id u)
                [Item (product_name (newItem s)) (QNum n)])) /\
   addingItem (next o) = false /\
   (added ->
    sent o = [PostCartItems listId (id u) [newItem s]; GetCartOptimized listId] /\
    newItem (next o) = Item "" (QNum 1) /\ showAddItem (next o) = false /\
    alerts o = []) /\
   (~ added ->
    sent o = [PostCartItems listId (id u) [newItem s]] /\
    newItem (next o) = newItem s /\ showAddItem (next o) = showAddItem s /\
    cart (next o) = cart s /\
    exists message, alerts o = [message] /\ message <> "")).
Proof.
  intros Hr o added. subst o added. unfold handleAddItem. split.
  - intros H. apply nonBlank_false_iff in H. rewrite H. reflexivity.
  - intros H.
    destruct (JS.nonBlank (product_name (newItem s))) eqn:Hn;
      [|exfalso; apply H, nonBlank_false_iff; exact Hn].
    cbn [negb].
    destruct (reachable_quantity s Hr) as (n & Hq & Hn0).
    assert (Hitem : newItem s = Item (product_name (newItem s)) (QNum n)).
    { destruct (newItem s) as [name q]. simpl in Hq. subst q. reflexivity. }
    assert (Hload : forall s0, sent (loadOptimizedCart listId reply s0)
                               = [GetCartOptimized listId] /\
                               alerts (loadOptimizedCart listId reply s0) = [] /\
                               newItem (next (loadOptimizedCart listId reply s0))
                               = newItem s0 /\
                               showAddItem (next (loadOptimizedCart listId reply s0))
                               = showAddItem s0).
    { intros s0. unfold loadOptimizedCart.
      destruct reply as [m|ok [m|data]]; [| |destruct (success data)];
        repeat split. }
    split; [exists n; split; [exact Hn0|]|split; [|split]].
    + rewrite <- Hitem.
      destruct addReply as [m|ok [m|d]]; [| |destruct (add_success d)];
        reflexivity.
    + destruct addReply as [m|ok [m|d]]; [| |destruct (add_success d)];
        reflexivity.
    + intros (ok & d & -> & Hd). rewrite Hd. cbn [sent next alerts].
      destruct (Hload (State (cart s) (loading s) (error s) (refreshing s) false
                             (Item "" (QNum 1)) true)) as (H1 & H2 & H3 & H4).
      rewrite H1, H2. cbn [newItem showAddItem]. rewrite H3, H4.
      repeat split.
    + intros Hna.
      destruct addReply as [m|ok [m|d]]; [| |destruct (add_success d) eqn:Hd].
      * repeat split. eexists. split; [reflexivity | discriminate].
      * repeat split. eexists. split; [reflexivity | discriminate].
      * exfalso. apply Hna. exists ok, d. split; [reflexivity | exact Hd].
      * repeat split. eexists. split; [reflexivity|].
        apply orElse_nonempty. discriminate.
Qed.

Lemma typedTea_reachable : OptimizedCartForm.reachable typedTea.
Proof.
  unfold typedTea.
  apply (OptimizedCartForm.reach_step (QuantityInput "-3")).
  apply (OptimizedCartForm.reach_step (NameInput "  tea ")).
  apply (OptimizedCartForm.reach_step ToggleForm).
  apply OptimizedCartForm.reach_initial.
Qed.

Lemma handleAddItem_behaviour_witness :
  sent (handleAddItem (User 7) 4 (JS.Resp true (inr (AddBody true "")))
          (JS.Resp true (inr sampleCart)) typedTea)
  = [PostCartItems 4 7 [Item "  tea " (QNum (-3))]; GetCartOptimized 4].
Proof.
  refine (proj1 (proj1 (proj2 (proj2 (proj2
            (handleAddItem_behaviour (User 7) 4 (JS.Resp true (inr (AddBody true "")))
               (JS.Resp true (inr sampleCart)) typedTea typedTea_reachable)
            _))) _)).
  - intros H. apply nonBlank_false_iff in H. discriminate H.
  - exists true, (AddBody true ""). split; reflexivity.
Defined.

End CartLoading.

(** ** Deleting a list *)
Section Deleting.
Import Api.

(** X14: on the lists page a deletion is never shown before the service
    confirms it.  [confirmDeleteList] sends one DELETE for the list of
    the dialog and closes the dialog; only when that request is answered
    ok are the lists loaded again, and the rows shown afterwards are
    those of that reload.  When the DELETE fails, or when the reload that
    follows fails, the rows stay what they were: in the first case an
    alert is raised, in the second the load error is shown. *)
Theorem confirmDeleteList_reloads (u : user) (deleteReply : JS.fetched unit)
    (listsReply : JS.fetched MyShoppingLists.listsBody)
    (s : MyShoppingLists.state) (listId : Z) (listName : string)
    (d0 : DeleteList.Lists.dialog) :
  let d := DeleteList.Lists.handleDeleteList listId listName d0 in
  let o := DeleteList.Lists.confirmDeleteList u deleteReply listsReply s d in
  let deleted := exists body, deleteReply = JS.Resp true body in
  head (DeleteList.Lists.sent o) = Some (DeleteCart listId (id u)) /\
  DeleteList.Lists.showDeleteModal (DeleteList.Lists.nextDialog o) = false /\
  MyShoppingLists.loading (DeleteList.Lists.next o) = false /\
  (deleted ->
   DeleteList.Lists.sent o = [DeleteCart listId (id u); GetUserLists (id u)] /\
   DeleteList.Lists.alerts o = [] /\
   MyShoppingLists.lists (DeleteList.Lists.next o)
     = MyShoppingLists.lists
         (MyShoppingLists.next (MyShoppingLists.loadLists u listsReply s)) /\
   MyShoppingLists.error (DeleteList.Lists.next o)
     = MyShoppingLists.error
         (MyShoppingLists.next (MyShoppingLists.loadLists u listsReply s)) /\
   (MyShoppingLists.error (DeleteList.Lists.next o) <> "" ->
    MyShoppingLists.lists (DeleteList.Lists.next o) = MyShoppingLists.lists s)) /\
  (~ deleted ->
   DeleteList.Lists.sent o = [DeleteCart listId (id u)] /\
   DeleteList.Lists.alerts o = ["Failed to delete list"] /\
   MyShoppingLists.lists (DeleteList.Lists.next o) = MyShoppingLists.lists s /\
   MyShoppingLists.purchasedLists (DeleteList.Lists.next o)
     = MyShoppingLists.purchasedLists s /\
   MyShoppingLists.error (DeleteList.Lists.next o) = MyShoppingLists.error s).
Proof.
  intros d o deleted. subst d o deleted.
  unfold DeleteList.Lists.confirmDeleteList, DeleteList.Lists.handleDeleteList.
  cbn [DeleteList.Lists.deleteData fst].
  assert (Hload : forall s0,
            MyShoppingLists.lists s0 = MyShoppingLists.lists s ->
            MyShoppingLists.sent (MyShoppingLists.loadLists u listsReply s0)
            = [GetUserLists (id u)] /\
            MyShoppingLists.lists
              (MyShoppingLists.next (MyShoppingLists.loadLists u listsReply s0))
            = MyShoppingLists.lists
                (MyShoppingLists.next (MyShoppingLists.loadLists u listsReply s)) /\
            MyShoppingLists.error
              (MyShoppingLists.next (MyShoppingLists.loadLists u listsReply s0))
            = MyShoppingLists.error
                (MyShoppingLists.next (MyShoppingLists.loadLists u listsReply s)) /\
            (MyShoppingLists.error
               (MyShoppingLists.next (MyShoppingLists.loadLists u listsReply s0))
             <> "" ->
             MyShoppingLists.lists
               (MyShoppingLists.next (MyShoppingLists.loadLists u listsReply s0))
             = MyShoppingLists.lists s0)).
  { intros s0 Hs0. unfold MyShoppingLists.loadLists.
    destruct listsReply as [m|[|] [m|data]];
      [| |destruct (MyShoppingLists.lists_success data)| |];
      cbn; (split; [reflexivity|]); (split; [|split; [reflexivity|intros H]]);
      try reflexivity; try exact Hs0.
    exfalso. apply H. reflexivity. }
  destruct deleteReply as [m|[|] body];
    cbn [DeleteList.Lists.sent DeleteList.Lists.next DeleteList.Lists.nextDialog
         DeleteList.Lists.alerts DeleteList.Lists.showDeleteModal head];
    (split; [reflexivity|]); (split; [reflexivity|]); (split; [reflexivity|]);
    split.
  - intros (b & H). discriminate H.
  - intros _. repeat split.
  - intros _.
    destruct (Hload (MyShoppingLists.setLoading true s) eq_refl)
      as (H1 & H2 & He' & H3).
    rewrite H1. split; [reflexivity|]. split; [reflexivity|].
    split; [exact H2|]. split; [exact He'|]. intros He. apply H3. exact He.
  - intros H. exfalso. apply H. eexists. reflexivity.
  - intros (b & H). discriminate H.
  - intros _. repeat split.
Qed.

(** X15: on the creation page a deletion needs the user's consent and is
    silent about a reload that fails.  [handleDeleteList] sends nothing
    when the confirmation is declined, and without a user it only raises
    the alert.  Otherwise it sends one DELETE for the list, first; when
    that is answered ok, the lists are read again (if the user has an
    id) and no alert is raised, and in every other case nothing more is
    sent, the alert is raised and the page is left as it was.  The lists
    shown change only through a reload that is ok, parses and has
    [success] set, and then to the rows of the reply; a failed reload
    after a successful DELETE leaves them as they were.  The form and
    its error are never touched. *)
Theorem handleDeleteList_consent (u : option user) (confirmed : bool)
    (listId : Z) (deleteReply : JS.fetched unit)
    (listsReply : JS.fetched MyShoppingLists.listsBody)
    (s : ShoppingList.state) :
  let o := DeleteList.Creation.handleDeleteList u confirmed listId deleteReply
             listsReply s in
  let deleted := exists body, deleteReply = JS.Resp true body in
  (confirmed = false ->
   o = DeleteList.Creation.Outcome s [] []) /\
  (confirmed = true -> u = None ->
   o = DeleteList.Creation.Outcome s [] ["Failed to delete list"]) /\
  (forall usr, confirmed = true -> u = Some usr ->
     head (DeleteList.Creation.sent o) = Some (DeleteCart listId (id usr)) /\
     (deleted ->
      DeleteList.Creation.sent o
        = DeleteCart listId (id usr)
          :: (if hasId u then [GetUserLists (id usr)] else []) /\
      DeleteList.Creation.alerts o = []) /\
     (~ deleted ->
      o = DeleteList.Creation.Outcome s [DeleteCart listId (id usr)]
            ["Failed to delete list"])) /\
  (ShoppingList.lists (DeleteList.Creation.next o) <> ShoppingList.lists s ->
   confirmed = true /\ hasId u = true /\
   exists body data,
     deleteReply = JS.Resp true body /\ listsReply = JS.Resp true (inr data) /\
     MyShoppingLists.lists_success data = true /\
     ShoppingList.lists (DeleteList.Creation.next o)
       = default [] (MyShoppingLists.lists_rows data)) /\
  ShoppingList.newListItems (DeleteList.Creation.next o)
    = ShoppingList.newListItems s /\
  ShoppingList.newListName (DeleteList.Creation.next o)
    = ShoppingList.newListName s /\
  ShoppingList.error (DeleteList.Creation.next o) = ShoppingList.error s.
Proof.
  intros o deleted. subst o deleted.
  unfold DeleteList.Creation.handleDeleteList, DeleteList.Creation.loadLists.
  destruct confirmed; cbn [negb].
  2:{ cbn. split; [reflexivity|]. split; [discriminate|].
      split; [intros usr H; discriminate H|].
      split; [intros Hne; exfalso; apply Hne; reflexivity|].
      repeat split. }
  destruct u as [usr|].
  2:{ cbn. split; [discriminate|]. split; [reflexivity|].
      split; [intros usr _ H; discriminate H|].
      split; [intros Hne; exfalso; apply Hne; reflexivity|].
      repeat split. }
  cbn [hasId].
  destruct deleteReply as [m|[|] body];
    [|destruct (negb (id usr =? 0)) eqn:Hid;
       [destruct listsReply as [m|[|] [m|data]];
        [| |destruct (MyShoppingLists.lists_success data) eqn:Hs| |]|]|];
    cbn;
    (split; [discriminate|]);
    (split; [discriminate|]);
    (split;
     [intros usr' _ [= <-]; split; [reflexivity|]; split;
      [intros Hd;
       first [destruct Hd as (? & Hd); discriminate Hd
             |rewrite ?Hid; split; reflexivity]
      |intros Hnot;
       first [reflexivity | exfalso; apply Hnot; eexists; reflexivity]]|]);
    (split; [intros Hne|repeat split]);
    try (exfalso; apply Hne; reflexivity);
    try (destruct Hne as (? & H); discriminate H).
  split; [reflexivity|]. split; [reflexivity|].
  exists body, data. repeat split. exact Hs.
Qed.

End Deleting.

(** ** The dashboard form of the standalone cart optimizer *)
Section DashboardForm.
Import Api Dashboard.

Lemma dropWhiteSpace_fixed (l : list ascii) :
  match l with
  | c :: _ => JS.isWhiteSpace c = false
  | [] => True
  end -> JS.dropWhiteSpace l = l.
Proof. destruct l as [|c l]; simpl; [reflexivity|]. intros ->. reflexivity. Qed.

Lemma dropWhiteSpace_idem (l : list ascii) :
  JS.dropWhiteSpace (JS.dropWhiteSpace l) = JS.dropWhiteSpace l.
Proof.
  apply dropWhiteSpace_fixed.
  destruct (JS.dropWhiteSpace l) as [|c l'] eqn:E; [exact I|].
  exact (dropWhiteSpace_head _ _ _ E).
Qed.

Lemma dropWhiteSpace_suffix (l : list ascii) :
  exists p, l = p ++ JS.dropWhiteSpace l.
Proof.
  induction l as [|c l [p IH]]; simpl.
  - exists []. reflexivity.
  - destruct (JS.isWhiteSpace c).
    + exists (c :: p). simpl. f_equal. exact IH.
    + exists []. reflexivity.
Qed.

(** Trimming a trimmed string changes nothing. *)
Lemma trim_idempotent (s : string) : JS.trim (JS.trim s) = JS.trim s.
Proof.
  unfold JS.trim. rewrite list_ascii_of_string_of_list_ascii.
  set (l1 := JS.dropWhiteSpace (list_ascii_of_string s)).
  set (m := JS.dropWhiteSpace (rev l1)).
  assert (Hm : JS.dropWhiteSpace (rev m) = rev m).
  { apply dropWhiteSpace_fixed.
    destruct (rev m) as [|c t] eqn:Erev; [exact I|].
    destruct (dropWhiteSpace_suffix (rev l1)) as [p Hp]. fold m in Hp.
    apply (f_equal (@rev ascii)) in Hp.
    rewrite rev_involutive, rev_app_distr, Erev in Hp. simpl in Hp.
    exact (dropWhiteSpace_head _ _ _ Hp). }
  rewrite Hm, rev_involutive. unfold m. rewrite dropWhiteSpace_idem.
  reflexivity.
Qed.

Lemma filter_some (A : Type) (f : A -> bool) (l : list A) :
  (0 <? length (List.filter f l))%nat = existsb f l.
Proof.
  induction l as [|a l IH]; simpl; [reflexivity|].
  destruct (f a); simpl; [reflexivity | exact IH].
Qed.

Lemma handleCreateList_call (s : state)
    (listName : string) (validItems : list item) :
  snd (handleCreateList s) = Some (listName, validItems) ->
  JS.trim listName = listName /\ listName <> "" /\ validItems <> [].
Proof.
  unfold handleCreateList. rewrite filter_some.
  destruct (JS.nonBlank (newListName s)) eqn:Hn;
    destruct (existsb (fun it => JS.nonBlank (product_name it)) (items s))
      eqn:He; cbn [andb snd]; intros H; try discriminate H.
  injection H as <- <-.
  split; [apply trim_idempotent|]. split.
  - intros H. apply trim_empty_iff, nonBlank_false_iff in H. congruence.
  - intros H. rewrite <- filter_some, H in He. discriminate He.
Qed.

(** X16: the "Create" button of the dashboard is disabled exactly when
    [handleCreateList] would do nothing: the button tests whether some
    row has a name that is not blank, the handler whether the filtered
    rows are not empty, and the two agree.  When the handler calls
    [onCreateList], the name it passes is trimmed and not empty, the
    rows it passes are not empty, all have a name that is not blank and
    all come from the form, and the form is reset and closed. *)
Theorem create_button_matches_handler (s : state) :
  (createDisabled s = true <-> snd (handleCreateList s) = None) /\
  (snd (handleCreateList s) = None -> fst (handleCreateList s) = s) /\
  (forall listName validItems,
     snd (handleCreateList s) = Some (listName, validItems) ->
     JS.trim listName = listName /\ listName <> "" /\
     JS.nonBlank (newListName s) = true /\
     validItems <> [] /\
     Forall (fun it => JS.nonBlank (product_name it) = true /\ In it (items s))
            validItems /\
     fst (handleCreateList s) = initial).
Proof.
  unfold handleCreateList, createDisabled. rewrite filter_some.
  destruct (JS.nonBlank (newListName s)) eqn:Hn;
    destruct (existsb (fun it => JS.nonBlank (product_name it)) (items s))
      eqn:He; cbn [andb orb negb fst snd];
    (split; [split; intros H; try discriminate H; try reflexivity|]);
    (split; [intros H; try discriminate H; try reflexivity|]);
    intros listName validItems H; try discriminate H.
  injection H as <- <-.
  split; [apply trim_idempotent|]. split.
  { intros H. apply trim_empty_iff, nonBlank_false_iff in H. congruence. }
  split; [reflexivity|]. split.
  { intros H. rewrite <- filter_some, H in He. discriminate He. }
  split; [|reflexivity].
  apply List.Forall_forall. intros it Hin.
  apply List.filter_In in Hin as [Hin Hit]. split; assumption.
Qed.

Lemma alter_quantities (f : field) (index : nat) (l : list item) :
  (forall it, (exists n, quantity it = QNum n /\ n <> 0) ->
              exists n, quantity (setField f it) = QNum n /\ n <> 0) ->
  Forall (fun it => exists n, quantity it = QNum n /\ n <> 0) l ->
  Forall (fun it => exists n, quantity it = QNum n /\ n <> 0)
         (alter (setField f) index l).
Proof.
  intros Hf Hl. revert index.
  induction Hl as [|it l Hit Hl IH]; intros index; [constructor|].
  destruct index; simpl; constructor; auto. apply IH.
Qed.

Lemma delete_quantities (P : item -> Prop) (index : nat) (l : list item) :
  Forall P l -> Forall P (delete index l).
Proof.
  intros Hl. revert index.
  induction Hl as [|it l Hit Hl IH]; intros index; [constructor|].
  destruct index; simpl; [exact Hl | constructor; auto].
Qed.

Lemma dashboard_rows (s : state) :
  reachable s ->
  (0 < length (items s))%nat /\
  Forall (fun it => exists n, quantity it = QNum n /\ n <> 0) (items s).
Proof.
  assert (Hblank : exists n, quantity blankItem = QNum n /\ n <> 0)
    by (exists 1; split; [reflexivity | lia]).
  induction 1 as [|ev s _ [IHl IHq]].
  - split; [simpl; lia | repeat constructor; exact Hblank].
  - destruct ev as [| |v| |i v|i v|i|]; simpl; try (split; assumption).
    + split; [rewrite length_app; simpl; lia|].
      apply Forall_app. split; [exact IHq | repeat constructor; exact Hblank].
    + split; [rewrite length_alter; exact IHl|].
      apply alter_quantities; [|exact IHq]. intros it Hit. exact Hit.
    + split; [rewrite length_alter; exact IHl|].
      apply alter_quantities; [|exact IHq]. intros it _.
      exists (OptimizedCartForm.quantityInput v).
      split; [reflexivity | apply quantityInput_nonzero].
    + unfold removeItem.
      destruct (1 <? length (items s))%nat eqn:E; [|split; assumption].
      apply Nat.ltb_lt in E. simpl. split.
      * apply delete_keeps_one. exact E.
      * apply delete_quantities. exact IHq.
    + unfold handleCreateList.
      destruct (JS.nonBlank (newListName s)
                && (0 <? length (List.filter
                                   (fun it => JS.nonBlank (product_name it))
                                   (items s)))%nat);
        simpl; [|split; assumption].
      split; [lia | repeat constructor; exact Hblank].
Qed.

(** X17: the rows of the dashboard form.  In every state the form
    reaches there is at least one row, and the quantity of every row is
    a whole number other than zero: the field stores
    [parseInt(value) || 1].  The button that removes a row is disabled
    exactly on the forms on which [removeItem] does nothing whatever the
    index, and where it is enabled, removing a row of the form leaves
    one row less. *)
Theorem dashboard_rows_invariant (s : state) :
  reachable s ->
  (0 < length (items s))%nat /\
  Forall (fun it => exists n, quantity it = QNum n /\ n <> 0) (items s) /\
  (removeDisabled s = true <-> forall index, removeItem index s = s) /\
  (removeDisabled s = false ->
   forall index, (index < length (items s))%nat ->
     S (length (items (removeItem index s))) = length (items s)).
Proof.
  intros Hr. destruct (dashboard_rows s Hr) as [Hl Hq].
  split; [exact Hl|]. split; [exact Hq|].
  unfold removeDisabled, removeItem. split; [split|].
  - intros H index. apply Nat.eqb_eq in H. rewrite H. reflexivity.
  - intros H. specialize (H 0%nat). apply Nat.eqb_eq.
    destruct (1 <? length (items s))%nat eqn:E.
    + apply (f_equal (fun s => length (items s))) in H. simpl in H.
      destruct (items s) as [|a l]; simpl in *; lia.
    + apply Nat.ltb_ge in E. lia.
  - intros H index Hi. apply Nat.eqb_neq in H.
    assert (E : (1 <? length (items s))%nat = true)
      by (apply Nat.ltb_lt; lia).
    rewrite E. simpl. rewrite length_delete.
    + lia.
    + apply lookup_lt_is_Some. exact Hi.
Qed.

Lemma typedWeekly_reachable : reachable typedWeekly.
Proof. unfold typedWeekly. repeat apply reach_step. apply reach_initial. Qed.

Lemma dashboard_rows_invariant_witness :
  (0 < length (items typedWeekly))%nat /\
  Forall (fun it => exists n, quantity it = QNum n /\ n <> 0)
         (items typedWeekly).
Proof.
  destruct (dashboard_rows_invariant typedWeekly typedWeekly_reachable)
    as (H1 & H2 & _).
  split; [exact H1 | exact H2].
Defined.

End DashboardForm.

(** ** The lists of the standalone cart optimizer *)
Section AppLists.
Import Api PaisaProLists.

Context {listData rows : Type}.

Lemma sent_fetchUserLists (reply : JS.fetched (option (listsBody rows)))
    (s : state listData rows) (u : appUser) :
  user s = Some u -> sent (fetchUserLists reply s) = [GetUserLists (id u)].
Proof.
  intros Hu. unfold fetchUserLists. rewrite Hu.
  destruct reply as [m|ok [m|[data|]]]; try reflexivity.
  destruct (lists_success data); reflexivity.
Qed.

(** X18: what the create request of the app carries.  When the dashboard
    form, in a state it can reach, hands a list to [createNewList] and
    the app has a user, the first request sent is the create request for
    that user with the trimmed, non-empty list name and the rows that
    passed the filter: none has a blank name, and every quantity is a
    whole number other than zero.  The lists are read again exactly when
    the create reply parses with [success] set, and only then can the
    view change, to the dashboard. *)
Theorem dashboard_create_request (s : Dashboard.state)
    (sh : state listData rows) (u : appUser)
    (createReply : JS.fetched (option createBody))
    (listsReply : JS.fetched (option (listsBody rows)))
    (listName : string) (validItems : list item) :
  Dashboard.reachable s ->
  user sh = Some u ->
  snd (Dashboard.handleCreateList s) = Some (listName, validItems) ->
  let o := createNewList listName validItems createReply listsReply sh in
  let created :=
    exists ok data, createReply = JS.Resp ok (inr (Some data)) /\
                    create_success data = true in
  head (sent o) = Some (PostCartCreate (id u) listName validItems) /\
  JS.trim listName = listName /\ listName <> "" /\
  validItems <> [] /\
  Forall (fun it => JS.nonBlank (product_name it) = true /\
                    exists n, quantity it = QNum n /\ n <> 0) validItems /\
  (created ->
   sent o = [PostCartCreate (id u) listName validItems; GetUserLists (id u)] /\
   PaisaProApp.currentView (view (next o)) = "dashboard") /\
  (~ created ->
   sent o = [PostCartCreate (id u) listName validItems] /\
   PaisaProApp.currentView (view (next o)) = PaisaProApp.currentView (view sh) /\
   shoppingLists (next o) = shoppingLists sh).
Proof.
  intros Hr Hu Hcall o created.
  assert (Hitems : validItems
                   = List.filter (fun it => JS.nonBlank (product_name it))
                       (Dashboard.items s)).
  { revert Hcall. unfold Dashboard.handleCreateList.
    destruct (JS.nonBlank (Dashboard.newListName s) && _); simpl;
      [|discriminate]. intros [= _ <-]. reflexivity. }
  destruct (handleCreateList_call s listName validItems Hcall)
    as (Ht & Hne & Hv).
  destruct (dashboard_rows s Hr) as [_ Hq].
  assert (Hreload : sent (fetchUserLists listsReply
                            (onView (setLoading true) sh))
                    = [GetUserLists (id u)])
    by (apply sent_fetchUserLists; exact Hu).
  subst o created. unfold createNewList. rewrite Hu.
  split.
  { destruct createReply as [m|ok [m|[data|]]]; try reflexivity.
    destruct (create_success data); reflexivity. }
  split; [exact Ht|]. split; [exact Hne|]. split; [exact Hv|]. split.
  { rewrite Hitems. apply List.Forall_forall. intros it Hin.
    apply List.filter_In in Hin as [Hin Hit]. split; [exact Hit|].
    rewrite List.Forall_forall in Hq. apply Hq. exact Hin. }
  split.
  - intros (ok & data & -> & Hs). rewrite Hs. cbn [sent next].
    rewrite Hreload. split; reflexivity.
  - intros Hnot.
    destruct createReply as [m|ok [m|[data|]]]; try (repeat split; reflexivity).
    destruct (create_success data) eqn:Hs; [|repeat split; reflexivity].
    exfalso. apply Hnot. exists ok, data. split; [reflexivity | exact Hs].
Qed.

Lemma step_error (s : state listData rows) (ev : event listData rows) :
  (PaisaProApp.error (view (step s ev)) = PaisaProApp.error (view s) \/
   In (PaisaProApp.error (view (step s ev))) failureMessages) /\
  user (step s ev) = user s /\
  (is_Some (PaisaProApp.currentList (view s)) ->
   is_Some (PaisaProApp.currentList (view (step s ev)))).
Proof.
  assert (Hf : forall reply (s0 : state listData rows),
            (PaisaProApp.error (view (next (fetchUserLists reply s0)))
             = PaisaProApp.error (view s0) \/
             PaisaProApp.error (view (next (fetchUserLists reply s0)))
             = "Failed to fetch shopping lists") /\
            user (next (fetchUserLists reply s0)) = user s0 /\
            PaisaProApp.currentList (view (next (fetchUserLists reply s0)))
            = PaisaProApp.currentList (view s0)).
  { intros reply s0. unfold fetchUserLists.
    destruct (user s0) as [u|] eqn:Hu; [|repeat split; try left; auto].
    destruct reply as [m|ok [m|[data|]]];
      [| |destruct (lists_success data)|];
      cbn; rewrite ?Hu; repeat split; auto. }
  unfold failureMessages.
  destruct ev as [reply|n its cr lr|listId reply|listId rr reply|listId dr lr];
    cbn [step].
  - destruct (Hf reply s) as ([->| ->] & -> & ->); cbn; auto.
  - unfold createNewList. destruct (user s) as [u|] eqn:Hu;
      [|cbn; repeat split; auto].
    destruct cr as [m|ok [m|[data|]]]; [| |destruct (create_success data)|];
      try (cbn; rewrite ?Hu; repeat split; auto; fail).
    destruct (Hf lr (onView (setLoading true) s)) as ([He|He] & Hu' & Hc);
      cbn [next view onView user setLoading setCurrentView
           PaisaProApp.error PaisaProApp.currentList];
      rewrite He, Hu', Hc; cbn; auto.
  - unfold onView, PaisaProApp.fetchListDetails.
    destruct reply as [m|ok [m|[data|]]]; cbn; repeat split; auto.
  - unfold onView, PaisaProApp.refreshPrices, PaisaProApp.fetchListDetails.
    destruct rr as [m|ok body]; [cbn; repeat split; auto 7|].
    destruct reply as [m|ok' [m|[data|]]]; cbn; repeat split; auto.
  - unfold deleteList. destruct (user s) as [u|] eqn:Hu;
      [|cbn; repeat split; auto].
    destruct dr as [m|ok body];
      [cbn; rewrite ?Hu; repeat split; auto 7|].
    destruct (Hf lr (onView (setLoading true) s)) as ([He|He] & Hu' & Hc);
      cbn [next view onView user setLoading
           PaisaProApp.error PaisaProApp.currentList];
      rewrite He, Hu', Hc; cbn; auto.
Qed.

(** X19: the app never clears an error, and never unloads a list.
    Through any sequence of calls of the five handlers that await the
    service ([fetchUserLists], [createNewList], [fetchListDetails],
    [refreshPrices], [deleteList]), an error message that is shown stays
    shown, also when later calls succeed; the message is the one shown
    at the start or one of the five messages of the handlers; the user
    is the same; and a list that was loaded is still loaded. *)
Theorem app_error_never_cleared (evs : list (event listData rows))
    (s : state listData rows) :
  (PaisaProApp.error (view s) <> "" ->
   PaisaProApp.error (view (run evs s)) <> "") /\
  (PaisaProApp.error (view (run evs s)) = PaisaProApp.error (view s) \/
   In (PaisaProApp.error (view (run evs s))) failureMessages) /\
  user (run evs s) = user s /\
  (is_Some (PaisaProApp.currentList (view s)) ->
   is_Some (PaisaProApp.currentList (view (run evs s)))).
Proof.
  assert (H : (PaisaProApp.error (view (run evs s)) = PaisaProApp.error (view s) \/
               In (PaisaProApp.error (view (run evs s))) failureMessages) /\
              user (run evs s) = user s /\
              (is_Some (PaisaProApp.currentList (view s)) ->
               is_Some (PaisaProApp.currentList (view (run evs s))))).
  { unfold run. revert s. induction evs as [|ev evs IH]; intros s.
    - simpl. auto.
    - simpl. destruct (IH (step s ev)) as (He & Hu & Hc).
      destruct (step_error s ev) as (He' & Hu' & Hc').
      split; [|split].
      + destruct He as [He|He]; [|right; exact He].
        rewrite He. exact He'.
      + rewrite Hu. exact Hu'.
      + intros Hs. apply Hc, Hc', Hs. }
  destruct H as (He & Hu & Hc).
  split; [|split; [exact He | split; [exact Hu | exact Hc]]].
  intros Hs. destruct He as [He|He]; [rewrite He; exact Hs|].
  intros Hempty. rewrite Hempty in He. unfold failureMessages in He.
  simpl in He. intuition discriminate.
Qed.

(** X20: the three views treat a refused deletion differently.  When the
    DELETE request is answered with an error status, the lists page and
    the creation page send nothing more, raise the alert and keep their
    rows; the standalone app does not look at the status: it reads the
    lists again as after a successful deletion and never reports that
    the deletion failed. *)
Theorem refused_deletion_differs (listId : Z) (listName : string)
    (body : string + unit) (u : Api.user) (au : appUser)
    (pageReply : JS.fetched MyShoppingLists.listsBody)
    (appReply : JS.fetched (option (listsBody rows)))
    (s1 : MyShoppingLists.state) (d : DeleteList.Lists.dialog)
    (s2 : ShoppingList.state)
    (v : PaisaProApp.state listData) (shown : rows) :
  let refused := JS.Resp false body in
  let o1 := DeleteList.Lists.confirmDeleteList u refused pageReply s1
              (DeleteList.Lists.handleDeleteList listId listName d) in
  let o2 := DeleteList.Creation.handleDeleteList (Some u) true listId refused
              pageReply s2 in
  let s3 := State v (Some au) shown in
  let o3 := deleteList listId refused appReply s3 in
  (DeleteList.Lists.sent o1 = [Api.DeleteCart listId (Api.id u)] /\
   DeleteList.Lists.alerts o1 = ["Failed to delete list"] /\
   MyShoppingLists.lists (DeleteList.Lists.next o1) = MyShoppingLists.lists s1) /\
  (DeleteList.Creation.sent o2 = [Api.DeleteCart listId (Api.id u)] /\
   DeleteList.Creation.alerts o2 = ["Failed to delete list"] /\
   DeleteList.Creation.next o2 = s2) /\
  (sent o3 = [DeleteCart listId (id au); GetUserLists (id au)] /\
   o3 = deleteList listId (JS.Resp true body) appReply s3 /\
   shoppingLists (next o3) = shoppingLists (next (fetchUserLists appReply s3)) /\
   (PaisaProApp.error v <> "Failed to delete list" ->
    PaisaProApp.error (view (next o3)) <> "Failed to delete list")).
Proof.
  intros refused o1 o2 s3 o3. subst refused o1 o2 s3 o3.
  split; [repeat split|]. split; [repeat split|].
  unfold deleteList, fetchUserLists. cbn [user onView].
  destruct appReply as [m|ok [m|[data|]]];
    [| |destruct (lists_success data)|];
    cbn; repeat split; try assumption; try discriminate;
    intros H; exact H.
Qed.

End AppLists.

Lemma dashboard_create_request_witness :
  head (PaisaProLists.sent
          (PaisaProLists.createNewList "weekly" [Api.Item "tea" (Api.QNum (-3))]
             (JS.Resp true (inr (Some (PaisaProLists.CreateBody true))))
             (JS.Threw "") PaisaProLists.sampleApp))
  = Some (PaisaProLists.PostCartCreate (PaisaProLists.id PaisaProLists.alex)
            "weekly" [Api.Item "tea" (Api.QNum (-3))]).
Proof.
  exact (proj1 (@dashboard_create_request unit (list unit)
                  Dashboard.typedWeekly PaisaProLists.sampleApp
                  PaisaProLists.alex
                  (JS.Resp true (inr (Some (PaisaProLists.CreateBody true))))
                  (JS.Threw "") "weekly" [Api.Item "tea" (Api.QNum (-3))]
                  typedWeekly_reachable eq_refl eq_refl)).
Defined.

(** ** The savings of the list view *)
Section ListSavings.
Import ListView.

Lemma savings_item (it : listItem) :
  (forall q, potential_savings_pkr it = Some q -> (0 <= q)%Q) ->
  (savingsLine it = None /\ savingsOrZero it = Double.zero) \/
  (savingsLine it = Some (savingsOrZero it) /\
   Double.signed false (savingsOrZero it)).
Proof.
  unfold savingsLine, savingsOrZero, savingsOf.
  destruct (potential_savings_pkr it) as [q|]; [|intros _; left; split; reflexivity].
  intros H. specialize (H q eq_refl).
  pose proof (ofQ_signed q) as Hs.
  destruct (Qnum q) as [|n|n] eqn:E.
  - rewrite Hs. left. split; reflexivity.
  - destruct (Double.ofQ q) as [s|s| |s m e]; simpl in Hs; [| |contradiction|];
      subst s;
      first [left; split; reflexivity | right; split; reflexivity].
  - exfalso. unfold Qle in H. simpl in H. lia.
Qed.

Lemma totalSavings_from (its : list listItem) (acc : Double.double) :
  Forall (fun it => forall q, potential_savings_pkr it = Some q -> (0 <= q)%Q)
         its ->
  Double.signed false acc ->
  fold_left (fun sum item => Double.add sum (savingsOrZero item)) its acc
  = fold_left Double.add (shownLines its) acc /\
  Double.signed false
    (fold_left (fun sum item => Double.add sum (savingsOrZero item)) its acc).
Proof.
  intros H. revert acc. induction H as [|it its Hit _ IH]; intros acc Hacc.
  - split; [reflexivity | exact Hacc].
  - unfold shownLines. simpl.
    destruct (savings_item it Hit) as [[-> ->]|[-> Hs]].
    + rewrite (add_zero_r acc Hacc). apply IH. exact Hacc.
    + simpl. apply IH. apply add_signed; assumption.
Qed.

(** X21: the "Total Savings" tile against the lines of the items.  A
    line is rendered only for an item whose savings are a number above
    zero, and it shows that number.  When no item has negative savings,
    the tile shows exactly what adding up the amounts of the rendered
    lines, in the order of the items and in doubles, gives, and it is at
    least 0: an item without savings, or with the savings 0, adds
    nothing.  An item with negative savings has no line.  A list that
    is missing or has no items has the total 0. *)
Theorem totalSavings_against_lines (its : list listItem) :
  let total := totalSavings (Some (ListData (Some its))) in
  (Forall (fun it => forall q, potential_savings_pkr it = Some q -> (0 <= q)%Q)
          its ->
   total = fold_left Double.add (shownLines its) Double.zero /\
   Double.nonneg total) /\
  (forall it v, savingsLine it = Some v ->
     exists q, potential_savings_pkr it = Some q /\ (0 < q)%Q /\
               v = Double.ofQ q) /\
  (forall it q, potential_savings_pkr it = Some q -> (q < 0)%Q ->
     savingsLine it = None) /\
  totalSavings None = Double.zero /\
  totalSavings (Some (ListData None)) = Double.zero.
Proof.
  intros total. subst total. unfold totalSavings. cbn [items].
  split; [|split; [|split; [|split; reflexivity]]].
  - intros H. destruct (totalSavings_from its Double.zero H eq_refl) as [E Hs].
    split; [exact E | apply nonneg_signed; exact Hs].
  - intros it v. unfold savingsLine, savingsOrZero, savingsOf.
    destruct (potential_savings_pkr it) as [q|]; [|discriminate].
    pose proof (ofQ_signed q) as Hs.
    destruct (Qnum q) as [|n|n] eqn:E.
    + rewrite Hs. discriminate.
    + destruct (Double.ofQ q) as [s|s| |s m e] eqn:Eq; simpl in Hs;
        [| |contradiction|];
        subst s; try discriminate; intros [= <-]; exists q;
        (split; [reflexivity|]); (split; [|symmetry; exact Eq]);
        unfold Qlt; simpl; rewrite E; lia.
    + destruct (Double.ofQ q) as [s|s| |s m e]; simpl in Hs;
        [| |contradiction|]; subst s; discriminate.
  - intros it q Hq Hneg. unfold savingsLine, savingsOf. rewrite Hq.
    pose proof (ofQ_signed q) as Hs.
    destruct (Qnum q) as [|n|n] eqn:E.
    + exfalso. unfold Qlt in Hneg. simpl in Hneg. lia.
    + exfalso. unfold Qlt in Hneg. simpl in Hneg. lia.
    + destruct (Double.ofQ q) as [s|s| |s m e]; simpl in Hs;
        [| |contradiction|]; subst s; reflexivity.
Qed.

End ListSavings.

(** ** Marking an item purchased on the optimized-cart page *)
Section MarkPurchased.
Import Api OptimizedCart.

(** X22: [handleMarkPurchased] reads the status of the reply, unlike the
    load that follows it.  One request marks the item; the cart is read
    again exactly when that request is answered ok, and the page then
    ends as after a plain load.  Otherwise the page is left as it was
    and one alert is raised.  The cart shown changes only to a cart the
    service returned with [success] set after an acknowledged mark. *)
Theorem mark_purchased_reloads_on_ok (listId itemId : Z)
    (markReply : JS.fetched unit) (reply : JS.fetched cartData) (s : state) :
  let o := handleMarkPurchased listId itemId markReply reply s in
  let acknowledged := exists body, markReply = JS.Resp true body in
  head (sent o) = Some (PostItemPurchased itemId) /\
  (acknowledged ->
   sent o = [PostItemPurchased itemId; GetCartOptimized listId] /\
   next o = next (loadOptimizedCart listId reply s) /\ alerts o = []) /\
  (~ acknowledged ->
   sent o = [PostItemPurchased itemId] /\ next o = s /\
   alerts o = ["Failed to mark item as purchased"]) /\
  (cart (next o) <> cart s ->
   acknowledged /\
   exists ok data, reply = JS.Resp ok (inr data) /\ success data = true /\
                   cart (next o) = Some data).
Proof.
  intros o acknowledged. subst o acknowledged. unfold handleMarkPurchased.
  destruct markReply as [m|[|] body]; cbn [sent next alerts head].
  - split; [reflexivity|]. split; [intros (b & H); discriminate H|].
    split; [intros _; repeat split|].
    intros H. exfalso. apply H. reflexivity.
  - split; [reflexivity|]. rewrite sent_loadOptimizedCart.
    split; [intros _; repeat split|].
    + unfold loadOptimizedCart.
      destruct reply as [m|ok [m|data]]; [| |destruct (success data)];
        reflexivity.
    + split; [intros H; exfalso; apply H; eexists; reflexivity|].
      intros H. split; [eexists; reflexivity|].
      revert H. unfold loadOptimizedCart.
      destruct reply as [m|ok [m|data]]; [| |destruct (success data) eqn:Hs];
        cbn [next cart setLoad]; intros H;
        try (exfalso; apply H; reflexivity).
      exists ok, data. repeat split. exact Hs.
  - split; [reflexivity|]. split; [intros (b & H); discriminate H|].
    split; [intros _; repeat split|].
    intros H. exfalso. apply H. reflexivity.
Qed.

End MarkPurchased.
